(** * Parquet column-chunk writer, page writers, metadata builder and footer parser

    A shallow embedding of
      - cpp/src/parquet/column_writer.cc   (LevelEncoder use, SerializedPageWriter,
                                            BufferedPageWriter, ColumnWriterImpl,
                                            TypedColumnWriterImpl)
      - cpp/src/parquet/metadata.cc        (ColumnChunkMetaDataBuilder, FileMetaData::version,
                                            ApplicationVersion, ColumnChunkMetaData,
                                            RowGroupMetaDataBuilder, FileMetaDataBuilder,
                                            FileMetaData::WriteTo)
      - cpp/src/parquet/metadata.h         (ApplicationVersion)
      - cpp/src/parquet/file_reader.cc     (SerializedFile::ParseMetaData,
                                            SerializedRowGroup::GetColumnPageReader)
      - cpp/src/parquet/internal_file_encryptor.h (Encryptor)
      - cpp/src/parquet/thrift.h           (ThriftSerializer::Serialize, ToThrift)

    Conventions.
      - C++ fixed-width integers are [Z] with the conversion written out
        ([Int.int32], [Int.int64], [Int.uint32]).  Unsigned arithmetic wraps;
        signed arithmetic is written with the same two's-complement wrap and
        the theorems that speak of plain sums carry the no-overflow range.
      - A buffer or an output stream is the [list byte] it holds; [Tell] of a
        stream is its length.
      - Objects mutated in place are threaded through explicitly.  Where two
        C++ objects hold the same pointer (the column writer and its page
        writer both hold the ColumnChunkMetaDataBuilder; BufferedPageWriter
        and its inner SerializedPageWriter both hold the in-memory sink) the
        model keeps ONE copy and passes it to whoever uses it.
      - Code outside the files above (value encoders, RLE encoder,
        codecs, statistics, Thrift, AES) is the interface [Env]; the module
        [Sample] is a small instance of it on which the model runs.
      - [WriteBatchSpaced] and the column reader are not embedded. *)

From Stdlib Require Import String ZArith List Bool Lia.
From Stdlib Require Import Strings.Byte.
From Stdlib Require Import DecimalString.
Import ListNotations.
Local Open Scope Z_scope.

Definition len {A : Type} (l : list A) : Z := Z.of_nat (List.length l).

(** ** Fixed-width integers and bytes *)

Module Int.

Definition wrap (bits z : Z) : Z :=
  (z + 2 ^ (bits - 1)) mod 2 ^ bits - 2 ^ (bits - 1).

Definition int16 : Z -> Z := wrap 16.
Definition int32 : Z -> Z := wrap 32.
Definition int64 : Z -> Z := wrap 64.
Definition uint32 (z : Z) : Z := z mod 2 ^ 32.

Definition in_int32 (z : Z) : Prop := - 2 ^ 31 <= z < 2 ^ 31.
Definition in_int64 (z : Z) : Prop := - 2 ^ 63 <= z < 2 ^ 63.

End Int.

Definition byte_of_Z (z : Z) : byte :=
  match Byte.of_N (Z.to_N (z mod 256)) with
  | Some b => b
  | None => x00
  end.

Definition Z_of_byte (b : byte) : Z := Z.of_N (Byte.to_N b).

(** [reinterpret_cast<int32_t*>(p)[0] = v] on the little-endian hosts the
    library supports. *)
Definition store_int32 (v : Z) : list byte :=
  [ byte_of_Z v; byte_of_Z (Z.shiftr v 8);
    byte_of_Z (Z.shiftr v 16); byte_of_Z (Z.shiftr v 24) ].

(** [arrow::util::SafeLoadAs<uint32_t>(data + off)]. *)
Definition SafeLoadAs_uint32 (data : list byte) (off : Z) : Z :=
  let b (i : Z) := Z_of_byte (nth (Z.to_nat (off + i)) data x00) in
  b 0 + Z.shiftl (b 1) 8 + Z.shiftl (b 2) 16 + Z.shiftl (b 3) 24.

(** ** Buffers and output streams *)

Definition take {A} (n : Z) (l : list A) : list A := firstn (Z.to_nat n) l.
Definition drop {A} (n : Z) (l : list A) : list A := skipn (Z.to_nat n) l.

(** [ResizableBuffer::Resize(n, shrink_to_fit = false)]: the first
    [min n size] bytes are kept; bytes gained are unspecified in C++ and
    zero here (every caller overwrites them). *)
Definition Resize (buf : list byte) (n : Z) : list byte :=
  take n buf ++ repeat x00 (Z.to_nat n - List.length buf).

(** [memcpy(dst + off, src, n)] inside the buffer [dst]. *)
Definition memcpy (dst : list byte) (off : Z) (src : list byte) (n : Z) : list byte :=
  take off dst ++ take n src ++ drop (off + n) dst.

(** [ArrowOutputStream::Tell] and [Write(data, nbytes)]. *)
Definition Tell (sink : list byte) : Z := len sink.
Definition Write (sink : list byte) (data : list byte) (nbytes : Z) : list byte :=
  sink ++ take nbytes data.

(** [ArrowInputFile::ReadAt(position, nbytes)]: fewer bytes when the file ends. *)
Definition ReadAt (file : list byte) (position nbytes : Z) : list byte :=
  take nbytes (drop position file).

(** ** Enumerations (parquet/types.h, parquet.thrift) *)

Module Encoding.
Inductive type :=
  | PLAIN | PLAIN_DICTIONARY | RLE | BIT_PACKED | DELTA_BINARY_PACKED
  | DELTA_LENGTH_BYTE_ARRAY | DELTA_BYTE_ARRAY | RLE_DICTIONARY.
End Encoding.

Module PageType.
Inductive type := DATA_PAGE | INDEX_PAGE | DICTIONARY_PAGE | DATA_PAGE_V2.
End PageType.

Module ParquetVersion.
Inductive type := PARQUET_1_0 | PARQUET_2_0.
End ParquetVersion.

Module SortOrder.
Inductive type := SIGNED | UNSIGNED | UNKNOWN.
Definition eqb (a b : type) : bool :=
  match a, b with
  | SIGNED, SIGNED | UNSIGNED, UNSIGNED | UNKNOWN, UNKNOWN => true
  | _, _ => false
  end.
End SortOrder.

Module Type_.
Inductive type :=
  | BOOLEAN | INT32 | INT64 | INT96 | FLOAT | DOUBLE | BYTE_ARRAY
  | FIXED_LEN_BYTE_ARRAY.
Definition is_boolean (t : type) : bool :=
  match t with BOOLEAN => true | _ => false end.
End Type_.

Module Compression.
Inductive type := UNCOMPRESSED | SNAPPY | GZIP | LZO | BROTLI | LZ4 | ZSTD.
End Compression.

(** Module types of parquet/encryption_internal.h used by the page writer. *)
Module encryption.
Inductive module_type :=
  | kColumnMetaData | kDataPage | kDictionaryPage | kDataPageHeader
  | kDictionaryPageHeader.
End encryption.

(** ** Thrift structures (parquet.thrift, namespace [format])

    Optional fields that the code only installs through [__set_x] are
    [option]s; optional fields whose [__isset] flag the code also clears by
    hand keep the flag next to the value.  A default-constructed structure
    has zero / empty fields and every flag clear. *)

Module format.

Record Statistics := {
  max : option (list byte);
  min : option (list byte);
  null_count : option Z;
  distinct_count : option Z;
  max_value : option (list byte);
  min_value : option (list byte)
}.

Record DataPageHeader := {
  dph_num_values : Z;
  dph_encoding : Encoding.type;
  definition_level_encoding : Encoding.type;
  repetition_level_encoding : Encoding.type;
  dph_statistics : option Statistics
}.

Record DictionaryPageHeader := {
  dict_num_values : Z;
  dict_encoding : Encoding.type;
  is_sorted : option bool
}.

Record PageHeader := {
  type : PageType.type;
  uncompressed_page_size : Z;
  compressed_page_size : Z;
  data_page_header : option DataPageHeader;
  dictionary_page_header : option DictionaryPageHeader
}.

Inductive ColumnCryptoMetaData :=
| ENCRYPTION_WITH_FOOTER_KEY
| ENCRYPTION_WITH_COLUMN_KEY (path_in_schema : list string) (key_metadata : list byte).

Record ColumnMetaData := Build_ColumnMetaData {
  cm_type : Type_.type;
  encodings : list Encoding.type;
  path_in_schema : list string;
  codec : Compression.type;
  num_values : Z;
  total_uncompressed_size : Z;
  total_compressed_size : Z;
  data_page_offset : Z;
  index_page_offset : Z;
  isset_index_page_offset : bool;
  dictionary_page_offset : Z;
  isset_dictionary_page_offset : bool;
  statistics : Statistics;
  isset_statistics : bool;
  isset_encoding_stats : bool
}.

Definition set_cm_type (v : Type_.type) (r : ColumnMetaData) : ColumnMetaData :=
  {| cm_type := v; encodings := encodings r; path_in_schema := path_in_schema r;
     codec := codec r; num_values := num_values r;
     total_uncompressed_size := total_uncompressed_size r;
     total_compressed_size := total_compressed_size r;
     data_page_offset := data_page_offset r; index_page_offset := index_page_offset r;
     isset_index_page_offset := isset_index_page_offset r;
     dictionary_page_offset := dictionary_page_offset r;
     isset_dictionary_page_offset := isset_dictionary_page_offset r;
     statistics := statistics r; isset_statistics := isset_statistics r;
     isset_encoding_stats := isset_encoding_stats r |}.

Definition set_encodings (v : list Encoding.type) (r : ColumnMetaData) : ColumnMetaData :=
  {| cm_type := cm_type r; encodings := v; path_in_schema := path_in_schema r;
     codec := codec r; num_values := num_values r;
     total_uncompressed_size := total_uncompressed_size r;
     total_compressed_size := total_compressed_size r;
     data_page_offset := data_page_offset r; index_page_offset := index_page_offset r;
     isset_index_page_offset := isset_index_page_offset r;
     dictionary_page_offset := dictionary_page_offset r;
     isset_dictionary_page_offset := isset_dictionary_page_offset r;
     statistics := statistics r; isset_statistics := isset_statistics r;
     isset_encoding_stats := isset_encoding_stats r |}.

Definition set_path_in_schema (v : list string) (r : ColumnMetaData) : ColumnMetaData :=
  {| cm_type := cm_type r; encodings := encodings r; path_in_schema := v;
     codec := codec r; num_values := num_values r;
     total_uncompressed_size := total_uncompressed_size r;
     total_compressed_size := total_compressed_size r;
     data_page_offset := data_page_offset r; index_page_offset := index_page_offset r;
     isset_index_page_offset := isset_index_page_offset r;
     dictionary_page_offset := dictionary_page_offset r;
     isset_dictionary_page_offset := isset_dictionary_page_offset r;
     statistics := statistics r; isset_statistics := isset_statistics r;
     isset_encoding_stats := isset_encoding_stats r |}.

Definition set_codec (v : Compression.type) (r : ColumnMetaData) : ColumnMetaData :=
  {| cm_type := cm_type r; encodings := encodings r;
     path_in_schema := path_in_schema r; codec := v; num_values := num_values r;
     total_uncompressed_size := total_uncompressed_size r;
     total_compressed_size := total_compressed_size r;
     data_page_offset := data_page_offset r; index_page_offset := index_page_offset r;
     isset_index_page_offset := isset_index_page_offset r;
     dictionary_page_offset := dictionary_page_offset r;
     isset_dictionary_page_offset := isset_dictionary_page_offset r;
     statistics := statistics r; isset_statistics := isset_statistics r;
     isset_encoding_stats := isset_encoding_stats r |}.

Definition set_num_values (v : Z) (r : ColumnMetaData) : ColumnMetaData :=
  {| cm_type := cm_type r; encodings := encodings r;
     path_in_schema := path_in_schema r; codec := codec r; num_values := v;
     total_uncompressed_size := total_uncompressed_size r;
     total_compressed_size := total_compressed_size r;
     data_page_offset := data_page_offset r; index_page_offset := index_page_offset r;
     isset_index_page_offset := isset_index_page_offset r;
     dictionary_page_offset := dictionary_page_offset r;
     isset_dictionary_page_offset := isset_dictionary_page_offset r;
     statistics := statistics r; isset_statistics := isset_statistics r;
     isset_encoding_stats := isset_encoding_stats r |}.

Definition set_total_uncompressed_size (v : Z) (r : ColumnMetaData) : ColumnMetaData :=
  {| cm_type := cm_type r; encodings := encodings r;
     path_in_schema := path_in_schema r; codec := codec r; num_values := num_values r;
     total_uncompressed_size := v; total_compressed_size := total_compressed_size r;
     data_page_offset := data_page_offset r; index_page_offset := index_page_offset r;
     isset_index_page_offset := isset_index_page_offset r;
     dictionary_page_offset := dictionary_page_offset r;
     isset_dictionary_page_offset := isset_dictionary_page_offset r;
     statistics := statistics r; isset_statistics := isset_statistics r;
     isset_encoding_stats := isset_encoding_stats r |}.

Definition set_total_compressed_size (v : Z) (r : ColumnMetaData) : ColumnMetaData :=
  {| cm_type := cm_type r; encodings := encodings r;
     path_in_schema := path_in_schema r; codec := codec r; num_values := num_values r;
     total_uncompressed_size := total_uncompressed_size r; total_compressed_size := v;
     data_page_offset := data_page_offset r; index_page_offset := index_page_offset r;
     isset_index_page_offset := isset_index_page_offset r;
     dictionary_page_offset := dictionary_page_offset r;
     isset_dictionary_page_offset := isset_dictionary_page_offset r;
     statistics := statistics r; isset_statistics := isset_statistics r;
     isset_encoding_stats := isset_encoding_stats r |}.

Definition set_data_page_offset (v : Z) (r : ColumnMetaData) : ColumnMetaData :=
  {| cm_type := cm_type r; encodings := encodings r;
     path_in_schema := path_in_schema r; codec := codec r; num_values := num_values r;
     total_uncompressed_size := total_uncompressed_size r;
     total_compressed_size := total_compressed_size r; data_page_offset := v;
     index_page_offset := index_page_offset r;
     isset_index_page_offset := isset_index_page_offset r;
     dictionary_page_offset := dictionary_page_offset r;
     isset_dictionary_page_offset := isset_dictionary_page_offset r;
     statistics := statistics r; isset_statistics := isset_statistics r;
     isset_encoding_stats := isset_encoding_stats r |}.

Definition set_index_page_offset (v : Z) (r : ColumnMetaData) : ColumnMetaData :=
  {| cm_type := cm_type r; encodings := encodings r;
     path_in_schema := path_in_schema r; codec := codec r; num_values := num_values r;
     total_uncompressed_size := total_uncompressed_size r;
     total_compressed_size := total_compressed_size r;
     data_page_offset := data_page_offset r; index_page_offset := v;
     isset_index_page_offset := isset_index_page_offset r;
     dictionary_page_offset := dictionary_page_offset r;
     isset_dictionary_page_offset := isset_dictionary_page_offset r;
     statistics := statistics r; isset_statistics := isset_statistics r;
     isset_encoding_stats := isset_encoding_stats r |}.

Definition set_isset_index_page_offset (v : bool) (r : ColumnMetaData) : ColumnMetaData :=
  {| cm_type := cm_type r; encodings := encodings r;
     path_in_schema := path_in_schema r; codec := codec r; num_values := num_values r;
     total_uncompressed_size := total_uncompressed_size r;
     total_compressed_size := total_compressed_size r;
     data_page_offset := data_page_offset r; index_page_offset := index_page_offset r;
     isset_index_page_offset := v; dictionary_page_offset := dictionary_page_offset r;
     isset_dictionary_page_offset := isset_dictionary_page_offset r;
     statistics := statistics r; isset_statistics := isset_statistics r;
     isset_encoding_stats := isset_encoding_stats r |}.

Definition set_dictionary_page_offset (v : Z) (r : ColumnMetaData) : ColumnMetaData :=
  {| cm_type := cm_type r; encodings := encodings r;
     path_in_schema := path_in_schema r; codec := codec r; num_values := num_values r;
     total_uncompressed_size := total_uncompressed_size r;
     total_compressed_size := total_compressed_size r;
     data_page_offset := data_page_offset r; index_page_offset := index_page_offset r;
     isset_index_page_offset := isset_index_page_offset r; dictionary_page_offset := v;
     isset_dictionary_page_offset := isset_dictionary_page_offset r;
     statistics := statistics r; isset_statistics := isset_statistics r;
     isset_encoding_stats := isset_encoding_stats r |}.

Definition set_isset_dictionary_page_offset (v : bool) (r : ColumnMetaData) : ColumnMetaData :=
  {| cm_type := cm_type r; encodings := encodings r;
     path_in_schema := path_in_schema r; codec := codec r; num_values := num_values r;
     total_uncompressed_size := total_uncompressed_size r;
     total_compressed_size := total_compressed_size r;
     data_page_offset := data_page_offset r; index_page_offset := index_page_offset r;
     isset_index_page_offset := isset_index_page_offset r;
     dictionary_page_offset := dictionary_page_offset r;
     isset_dictionary_page_offset := v; statistics := statistics r;
     isset_statistics := isset_statistics r;
     isset_encoding_stats := isset_encoding_stats r |}.

Definition set_statistics (v : Statistics) (r : ColumnMetaData) : ColumnMetaData :=
  {| cm_type := cm_type r; encodings := encodings r;
     path_in_schema := path_in_schema r; codec := codec r; num_values := num_values r;
     total_uncompressed_size := total_uncompressed_size r;
     total_compressed_size := total_compressed_size r;
     data_page_offset := data_page_offset r; index_page_offset := index_page_offset r;
     isset_index_page_offset := isset_index_page_offset r;
     dictionary_page_offset := dictionary_page_offset r;
     isset_dictionary_page_offset := isset_dictionary_page_offset r; statistics := v;
     isset_statistics := isset_statistics r;
     isset_encoding_stats := isset_encoding_stats r |}.

Definition set_isset_statistics (v : bool) (r : ColumnMetaData) : ColumnMetaData :=
  {| cm_type := cm_type r; encodings := encodings r;
     path_in_schema := path_in_schema r; codec := codec r; num_values := num_values r;
     total_uncompressed_size := total_uncompressed_size r;
     total_compressed_size := total_compressed_size r;
     data_page_offset := data_page_offset r; index_page_offset := index_page_offset r;
     isset_index_page_offset := isset_index_page_offset r;
     dictionary_page_offset := dictionary_page_offset r;
     isset_dictionary_page_offset := isset_dictionary_page_offset r;
     statistics := statistics r; isset_statistics := v;
     isset_encoding_stats := isset_encoding_stats r |}.

Definition set_isset_encoding_stats (v : bool) (r : ColumnMetaData) : ColumnMetaData :=
  {| cm_type := cm_type r; encodings := encodings r;
     path_in_schema := path_in_schema r; codec := codec r; num_values := num_values r;
     total_uncompressed_size := total_uncompressed_size r;
     total_compressed_size := total_compressed_size r;
     data_page_offset := data_page_offset r; index_page_offset := index_page_offset r;
     isset_index_page_offset := isset_index_page_offset r;
     dictionary_page_offset := dictionary_page_offset r;
     isset_dictionary_page_offset := isset_dictionary_page_offset r;
     statistics := statistics r; isset_statistics := isset_statistics r;
     isset_encoding_stats := v |}.

Record ColumnChunk := Build_ColumnChunk {
  file_path : string;
  isset_file_path : bool;
  file_offset : Z;
  meta_data : ColumnMetaData;
  isset_meta_data : bool;
  crypto_metadata : option ColumnCryptoMetaData;
  encrypted_column_metadata : option (list byte)
}.

Definition set_file_path (v : string) (r : ColumnChunk) : ColumnChunk :=
  {| file_path := v; isset_file_path := isset_file_path r;
     file_offset := file_offset r; meta_data := meta_data r;
     isset_meta_data := isset_meta_data r; crypto_metadata := crypto_metadata r;
     encrypted_column_metadata := encrypted_column_metadata r |}.

Definition set_isset_file_path (v : bool) (r : ColumnChunk) : ColumnChunk :=
  {| file_path := file_path r; isset_file_path := v; file_offset := file_offset r;
     meta_data := meta_data r; isset_meta_data := isset_meta_data r;
     crypto_metadata := crypto_metadata r;
     encrypted_column_metadata := encrypted_column_metadata r |}.

Definition set_file_offset (v : Z) (r : ColumnChunk) : ColumnChunk :=
  {| file_path := file_path r; isset_file_path := isset_file_path r; file_offset := v;
     meta_data := meta_data r; isset_meta_data := isset_meta_data r;
     crypto_metadata := crypto_metadata r;
     encrypted_column_metadata := encrypted_column_metadata r |}.

Definition set_meta_data (v : ColumnMetaData) (r : ColumnChunk) : ColumnChunk :=
  {| file_path := file_path r; isset_file_path := isset_file_path r;
     file_offset := file_offset r; meta_data := v;
     isset_meta_data := isset_meta_data r; crypto_metadata := crypto_metadata r;
     encrypted_column_metadata := encrypted_column_metadata r |}.

Definition set_isset_meta_data (v : bool) (r : ColumnChunk) : ColumnChunk :=
  {| file_path := file_path r; isset_file_path := isset_file_path r;
     file_offset := file_offset r; meta_data := meta_data r; isset_meta_data := v;
     crypto_metadata := crypto_metadata r;
     encrypted_column_metadata := encrypted_column_metadata r |}.

Definition set_crypto_metadata (v : option ColumnCryptoMetaData) (r : ColumnChunk) : ColumnChunk :=
  {| file_path := file_path r; isset_file_path := isset_file_path r;
     file_offset := file_offset r; meta_data := meta_data r;
     isset_meta_data := isset_meta_data r; crypto_metadata := v;
     encrypted_column_metadata := encrypted_column_metadata r |}.

Definition set_encrypted_column_metadata (v : option (list byte)) (r : ColumnChunk) : ColumnChunk :=
  {| file_path := file_path r; isset_file_path := isset_file_path r;
     file_offset := file_offset r; meta_data := meta_data r;
     isset_meta_data := isset_meta_data r; crypto_metadata := crypto_metadata r;
     encrypted_column_metadata := v |}.

Definition default_Statistics : Statistics :=
  {| max := None; min := None; null_count := None; distinct_count := None;
     max_value := None; min_value := None |}.

Definition default_ColumnMetaData : ColumnMetaData :=
  {| cm_type := Type_.BOOLEAN; encodings := []; path_in_schema := [];
     codec := Compression.UNCOMPRESSED; num_values := 0;
     total_uncompressed_size := 0; total_compressed_size := 0;
     data_page_offset := 0; index_page_offset := 0;
     isset_index_page_offset := false; dictionary_page_offset := 0;
     isset_dictionary_page_offset := false; statistics := default_Statistics;
     isset_statistics := false; isset_encoding_stats := false |}.

Definition default_ColumnChunk : ColumnChunk :=
  {| file_path := EmptyString; isset_file_path := false; file_offset := 0;
     meta_data := default_ColumnMetaData; isset_meta_data := false;
     crypto_metadata := None; encrypted_column_metadata := None |}.

(** The fields of [FileMetaData] and [FileCryptoMetaData] the embedded code
    reads; schema and row groups play no part in it. *)
Inductive ParquetCipher := AES_GCM_V1 | AES_GCM_CTR_V1.

Record EncryptionAlgorithm := {
  algorithm : ParquetCipher;
  aad_prefix : list byte;
  aad_file_unique : list byte;
  supply_aad_prefix : bool
}.

Record FileMetaData := {
  version : Z;
  num_rows : Z;
  created_by : option string;
  encryption_algorithm : option EncryptionAlgorithm;
  footer_signing_key_metadata : list byte
}.

Record FileCryptoMetaData := {
  fc_encryption_algorithm : EncryptionAlgorithm;
  fc_key_metadata : list byte
}.

End format.

(** ** Properties and descriptors (parquet/properties.h, parquet/schema.h,
       parquet/encryption.h): the values their accessors return for the
       column being written. *)

Module ColumnEncryptionProperties.
Record t := {
  is_encrypted : bool;
  is_encrypted_with_footer_key : bool;
  key_metadata : list byte
}.
End ColumnEncryptionProperties.

Module FileEncryptionProperties.
Record t := { encrypted_footer : bool }.
End FileEncryptionProperties.

Module WriterProperties.
Record t := {
  version : ParquetVersion.type;
  data_pagesize : Z;
  dictionary_pagesize_limit : Z;
  write_batch_size : Z;
  max_statistics_size : Z;
  dictionary_enabled : bool;
  statistics_enabled : bool;
  encoding : Encoding.type;
  compression : Compression.type;
  dictionary_index_encoding : Encoding.type;
  dictionary_page_encoding : Encoding.type;
  column_encryption_properties : option ColumnEncryptionProperties.t;
  file_encryption_properties : option FileEncryptionProperties.t
}.
End WriterProperties.

Module ColumnDescriptor.
Record t := {
  physical_type : Type_.type;
  max_definition_level : Z;
  max_repetition_level : Z;
  sort_order : SortOrder.type;
  path : list string
}.
End ColumnDescriptor.

Module FileDecryptionProperties.
(** [aad_prefix_verifier]: [None] is the null pointer; the callback returns
    the message of the exception it throws, if it throws. *)
Record t := {
  aad_prefix : list byte;
  aad_prefix_verifier : option (list byte -> option string);
  plaintext_files_allowed : bool;
  check_plaintext_footer_integrity : bool
}.
End FileDecryptionProperties.

(** ** Encryptor (internal_file_encryptor.h) *)

Module Encryptor.

Record t := {
  key_ : list byte;
  file_aad_ : list byte;
  aad_ : list byte
}.

Definition file_aad (e : t) : list byte := file_aad_ e.

Definition UpdateAad (e : t) (aad : list byte) : t :=
  {| key_ := key_ e; file_aad_ := file_aad_ e; aad_ := aad |}.

(** internal_file_encryptor.h:50-60.  [None] is the null shared_ptr. *)
Definition EncryptColumnMetaData (encrypted_footer : bool)
    (column_encryption_properties : option ColumnEncryptionProperties.t) : bool :=
  match column_encryption_properties with
  | None => false
  | Some p =>
      (* if column is not encrypted then do not encrypt the column metadata *)
      if negb (ColumnEncryptionProperties.is_encrypted p) then false
      (* if plaintext footer then encrypt the column metadata *)
      else if negb encrypted_footer then true
      (* if column is not encrypted with footer key then encrypt the column metadata *)
      else negb (ColumnEncryptionProperties.is_encrypted_with_footer_key p)
  end.

End Encryptor.

(** [InternalFileDecryptor] as the reader constructs it (file_reader.cc:399, 427). *)
Module InternalFileDecryptor.
Record t := {
  properties : FileDecryptionProperties.t;
  file_aad : list byte;
  algorithm : format.ParquetCipher;
  footer_key_metadata : list byte
}.
End InternalFileDecryptor.

(** ** Collaborators outside the embedded files *)

Class Env := {
  (* value encoders, parquet/encoding.h *)
  Value : Type;
  Encoder : Type;
  MakeEncoder : Encoding.type -> bool -> Encoder;
  Put : Encoder -> list Value -> Z -> Encoder;
  FlushValues : Encoder -> list byte * Encoder;
  EstimatedDataEncodedSize : Encoder -> Z;
  dict_encoded_size : Encoder -> Z;
  num_entries : Encoder -> Z;
  WriteDict : Encoder -> list byte;
  (* arrow/util/rle-encoding.h: the bytes [RleEncoder(data, data_size, bit_width)]
     has produced after [Put] of every level (until one is refused) and [Flush] *)
  RleEncoder_encode : Z -> Z -> list Z -> list byte;
  RleEncoder_MaxBufferSize : Z -> Z -> Z;
  RleEncoder_MinBufferSize : Z -> Z;
  (* arrow/util/compression.h *)
  Codec : Type;
  GetCodecFromArrow : Compression.type -> option Codec;
  Codec_Compress : Codec -> list byte -> list byte;
  (* parquet/statistics.h *)
  TypedStats : Type;
  EncodedStatistics : Type;
  TypedStats_Make : ColumnDescriptor.t -> TypedStats;
  TypedStats_Update : TypedStats -> list Value -> Z -> Z -> TypedStats;
  TypedStats_Merge : TypedStats -> TypedStats -> TypedStats;
  TypedStats_Reset : TypedStats -> TypedStats;
  TypedStats_Encode : TypedStats -> EncodedStatistics;
  EncodedStatistics_default : EncodedStatistics;
  is_set : EncodedStatistics -> bool;
  ApplyStatSizeLimits : EncodedStatistics -> Z -> EncodedStatistics;
  set_is_signed : EncodedStatistics -> bool -> EncodedStatistics;
  ToThrift_Statistics : EncodedStatistics -> format.Statistics;
  (* the Thrift compact protocol *)
  sizeof_PageHeader : Z;
  write_PageHeader : format.PageHeader -> list byte;
  write_ColumnChunk : format.ColumnChunk -> list byte;
  write_ColumnMetaData : format.ColumnMetaData -> list byte;
  DeserializeThriftMsg_FileMetaData :
    list byte -> option InternalFileDecryptor.t -> option (format.FileMetaData * Z);
  DeserializeThriftMsg_FileCryptoMetaData :
    list byte -> option (format.FileCryptoMetaData * Z);
  (* AES, parquet/encryption_internal.h and internal_file_encryptor.cc *)
  Encryptor_CiphertextSizeDelta : Encryptor.t -> Z;
  Encryptor_Encrypt : Encryptor.t -> list byte -> list byte;
  CreateModuleAad : list byte -> encryption.module_type -> Z -> Z -> Z -> list byte;
  QuickUpdatePageAad : list byte -> Z -> list byte;
  VerifySignature :
    format.FileMetaData -> InternalFileDecryptor.t -> list byte -> bool
}.

(** Modelled from the spec: [BitUtil::Log2] of arrow/util/bit-util.h, which
    the spec gives as the bit width "ceil(log2(max_level + 1))". *)
Definition Log2 (x : Z) : Z := Z.log2_up x.

Section Model.

Context {env : Env}.

(** [Encryptor::Encrypt(plaintext, plaintext_len, ciphertext)]: the
    ciphertext and its length as the [int] the method returns. *)
Definition Encryptor_run (e : Encryptor.t) (plaintext : list byte) (plaintext_len : Z)
  : Z * list byte :=
  let ciphertext := Encryptor_Encrypt e (take plaintext_len plaintext) in
  (Int.int32 (len ciphertext), ciphertext).

(** ** ThriftSerializer (thrift.h:264-337) *)

(** thrift.h:322-334 *)
Definition SerializeEncryptedObj (out out_buffer : list byte) (out_length : Z)
    (encryptor : Encryptor.t) : Z * list byte :=
  let '(cipher_buffer_len, cipher_buffer) := Encryptor_run encryptor out_buffer out_length in
  (Int.int64 cipher_buffer_len, Write out cipher_buffer cipher_buffer_len).

(** thrift.h:289-308, with PARQUET_ENCRYPTION.  [write] is [obj->write(protocol)];
    the result is the returned byte count and the stream after the write. *)
Definition Serialize {T : Type} (write : T -> list byte) (obj : T) (out : list byte)
    (encryptor : option Encryptor.t) : Z * list byte :=
  let out_buffer := write obj in
  let out_length := Int.uint32 (len out_buffer) in
  match encryptor with
  | None => (Int.int64 out_length, Write out out_buffer out_length)
  | Some e => SerializeEncryptedObj out out_buffer out_length e
  end.

End Model.

(** ** ColumnChunkMetaDataBuilder (metadata.cc:931-1077) *)

Module ColumnChunkMetaDataBuilder.
Section Builder.
Context {env : Env}.

Record t := {
  column_chunk_ : format.ColumnChunk;
  properties_ : WriterProperties.t;
  column_ : ColumnDescriptor.t
}.

Definition with_chunk (b : t) (cc : format.ColumnChunk) : t :=
  {| column_chunk_ := cc; properties_ := properties_ b; column_ := column_ b |}.

Definition with_meta (cc : format.ColumnChunk) (md : format.ColumnMetaData)
  : format.ColumnChunk :=
  format.set_meta_data md cc.

(** metadata.cc:1064-1071 *)
Definition Init (props : WriterProperties.t) (column : ColumnDescriptor.t)
    (column_chunk : format.ColumnChunk) : t :=
  let md := format.meta_data column_chunk in
  let md := format.set_cm_type (ColumnDescriptor.physical_type column) md in
  let md := format.set_path_in_schema (ColumnDescriptor.path column) md in
  let md := format.set_codec (WriterProperties.compression props) md in
  {| column_chunk_ := with_meta column_chunk md; properties_ := props; column_ := column |}.

(** metadata.cc:933-939: the builder that owns a fresh [format::ColumnChunk]. *)
Definition Make (props : WriterProperties.t) (column : ColumnDescriptor.t) : t :=
  Init props column format.default_ColumnChunk.

Definition descr (b : t) : ColumnDescriptor.t := column_ b.

Definition total_compressed_size (b : t) : Z :=
  format.total_compressed_size (format.meta_data (column_chunk_ b)).

(** metadata.cc:954-956 *)
Definition SetStatistics (b : t) (val : EncodedStatistics) : t :=
  let cc := column_chunk_ b in
  let md := format.meta_data cc in
  let md := format.set_isset_statistics true
              (format.set_statistics (ToThrift_Statistics val) md) in
  with_chunk b (with_meta cc md).

(** metadata.cc:977-994 *)
Definition thrift_encodings (b : t) (has_dictionary dictionary_fallback : bool)
  : list Encoding.type :=
  let props := properties_ b in
  let e :=
    if has_dictionary then
      [WriterProperties.dictionary_index_encoding props]
      ++ (match WriterProperties.version props with
          | ParquetVersion.PARQUET_1_0 => [Encoding.PLAIN]
          | _ => [WriterProperties.dictionary_page_encoding props]
          end)
    else [WriterProperties.encoding props] in
  let e := e ++ [Encoding.RLE] in
  if dictionary_fallback then e ++ [Encoding.PLAIN] else e.

(** metadata.cc:958-1051, with PARQUET_ENCRYPTION.  [None] is returned where
    the C++ dereferences a null pointer ([encryptor] or the file encryption
    properties). *)
Definition Finish (b : t) (num_values dictionary_page_offset index_page_offset
    data_page_offset compressed_size uncompressed_size : Z)
    (has_dictionary dictionary_fallback : bool) (encryptor : option Encryptor.t)
  : option t :=
  let cc := column_chunk_ b in
  let md := format.meta_data cc in
  let '(cc, md) :=
    if 0 <? dictionary_page_offset then
      (format.set_file_offset (Int.int64 (dictionary_page_offset + compressed_size)) cc,
       format.set_isset_dictionary_page_offset true
         (format.set_dictionary_page_offset dictionary_page_offset md))
    else
      (format.set_file_offset (Int.int64 (data_page_offset + compressed_size)) cc, md) in
  let cc := format.set_isset_meta_data true cc in
  let md := format.set_num_values num_values md in
  let md :=
    if 0 <=? index_page_offset then
      format.set_isset_index_page_offset true
        (format.set_index_page_offset index_page_offset md)
    else md in
  let md := format.set_data_page_offset data_page_offset md in
  let md := format.set_total_uncompressed_size uncompressed_size md in
  let md := format.set_total_compressed_size compressed_size md in
  let md := format.set_encodings (thrift_encodings b has_dictionary dictionary_fallback) md in
  match WriterProperties.column_encryption_properties (properties_ b) with
  | Some encrypt_md =>
      if ColumnEncryptionProperties.is_encrypted encrypt_md then
        (* column is encrypted *)
        let ccmd :=
          if ColumnEncryptionProperties.is_encrypted_with_footer_key encrypt_md
          then format.ENCRYPTION_WITH_FOOTER_KEY
          else format.ENCRYPTION_WITH_COLUMN_KEY
                 (ColumnDescriptor.path (column_ b))
                 (ColumnEncryptionProperties.key_metadata encrypt_md) in
        let cc := format.set_crypto_metadata (Some ccmd) cc in
        match WriterProperties.file_encryption_properties (properties_ b) with
        | None => None
        | Some fep =>
            let encrypted_footer := FileEncryptionProperties.encrypted_footer fep in
            let encrypt_metadata :=
              negb encrypted_footer
              || negb (ColumnEncryptionProperties.is_encrypted_with_footer_key encrypt_md) in
            if encrypt_metadata then
              match encryptor with
              | None => None
              | Some e =>
                  let serialized_data := write_ColumnMetaData md in
                  let serialized_len := Int.uint32 (len serialized_data) in
                  let '(encrypted_len, encrypted_data) :=
                    Encryptor_run e serialized_data serialized_len in
                  let cc := format.set_encrypted_column_metadata
                              (Some (take (Int.uint32 encrypted_len) encrypted_data)) cc in
                  if encrypted_footer then
                    Some (with_chunk b (format.set_isset_meta_data false (with_meta cc md)))
                  else
                    (* Keep redacted metadata version for old readers *)
                    let md := format.set_isset_encoding_stats false
                                (format.set_isset_statistics false md) in
                    Some (with_chunk b (format.set_isset_meta_data true (with_meta cc md)))
              end
            else Some (with_chunk b (with_meta cc md))
        end
      else Some (with_chunk b (with_meta cc md))
  | None => Some (with_chunk b (with_meta cc md))
  end.

(** metadata.cc:1053-1056 *)
Definition WriteTo (b : t) (sink : list byte) : list byte :=
  snd (Serialize write_ColumnChunk (column_chunk_ b) sink None).

End Builder.
End ColumnChunkMetaDataBuilder.

(** ** ColumnChunkMetaData accessors (metadata.cc:222-290), for a chunk whose
       metadata is available in plaintext *)

Module ColumnChunkMetaData.

Definition file_offset (c : format.ColumnChunk) : Z := format.file_offset c.

Definition has_dictionary_page (c : format.ColumnChunk) : bool :=
  format.isset_dictionary_page_offset (format.meta_data c).

Definition dictionary_page_offset (c : format.ColumnChunk) : Z :=
  format.dictionary_page_offset (format.meta_data c).

Definition data_page_offset (c : format.ColumnChunk) : Z :=
  format.data_page_offset (format.meta_data c).

Definition total_compressed_size (c : format.ColumnChunk) : Z :=
  format.total_compressed_size (format.meta_data c).

Definition total_uncompressed_size (c : format.ColumnChunk) : Z :=
  format.total_uncompressed_size (format.meta_data c).

End ColumnChunkMetaData.

(** ** FileMetaData (metadata.cc:546, 732-743) *)

Module FileMetaData.

(** [FileMetaDataImpl::version()] returns the stored [int32_t]. *)
Definition impl_version (m : format.FileMetaData) : Z := format.version m.

Definition version (m : format.FileMetaData) : ParquetVersion.type :=
  match impl_version m with
  | 1 => ParquetVersion.PARQUET_1_0
  | 2 => ParquetVersion.PARQUET_2_0
  | _ =>
      (* Improperly set version, assuming Parquet 1.0 *)
      ParquetVersion.PARQUET_1_0
  end.

Definition is_encryption_algorithm_set (m : format.FileMetaData) : bool :=
  match format.encryption_algorithm m with Some _ => true | None => false end.

End FileMetaData.

(** ** Pages (parquet/column_page.h) *)

(** Modelled from the spec: a page of parquet/column_page.h is its buffer
    with the counts and encodings its header will carry; [size] is the byte
    length of the buffer. *)
Module DictionaryPage.
Record t := {
  buffer : list byte;
  num_values : Z;
  encoding : Encoding.type;
  is_sorted : bool
}.
Definition size (p : t) : Z := len (buffer p).
End DictionaryPage.

Module CompressedDataPage.
Section Page.
Context {env : Env}.
Record t := {
  buffer : list byte;
  num_values : Z;
  encoding : Encoding.type;
  definition_level_encoding : Encoding.type;
  repetition_level_encoding : Encoding.type;
  uncompressed_size : Z;
  statistics : EncodedStatistics
}.
Definition size (p : t) : Z := len (buffer p).
End Page.
End CompressedDataPage.

(** ** SerializedPageWriter (column_writer.cc:132-407), with PARQUET_ENCRYPTION *)

Module SerializedPageWriter.
Section Writer.
Context {env : Env}.

Record t := Build_t {
  sink_ : list byte;
  num_values_ : Z;
  dictionary_page_offset_ : Z;
  data_page_offset_ : Z;
  total_uncompressed_size_ : Z;
  total_compressed_size_ : Z;
  page_ordinal_ : Z;
  row_group_ordinal_ : Z;
  column_ordinal_ : Z;
  compressor_ : option Codec;
  data_pageAAD_ : list byte;
  data_page_headerAAD_ : list byte;
  meta_encryptor_ : option Encryptor.t;
  data_encryptor_ : option Encryptor.t
}.

Definition set_sink_ (v : list byte) (r : t) : t :=
  {| sink_ := v; num_values_ := num_values_ r;
     dictionary_page_offset_ := dictionary_page_offset_ r;
     data_page_offset_ := data_page_offset_ r;
     total_uncompressed_size_ := total_uncompressed_size_ r;
     total_compressed_size_ := total_compressed_size_ r;
     page_ordinal_ := page_ordinal_ r; row_group_ordinal_ := row_group_ordinal_ r;
     column_ordinal_ := column_ordinal_ r; compressor_ := compressor_ r;
     data_pageAAD_ := data_pageAAD_ r; data_page_headerAAD_ := data_page_headerAAD_ r;
     meta_encryptor_ := meta_encryptor_ r; data_encryptor_ := data_encryptor_ r |}.

Definition set_num_values_ (v : Z) (r : t) : t :=
  {| sink_ := sink_ r; num_values_ := v;
     dictionary_page_offset_ := dictionary_page_offset_ r;
     data_page_offset_ := data_page_offset_ r;
     total_uncompressed_size_ := total_uncompressed_size_ r;
     total_compressed_size_ := total_compressed_size_ r;
     page_ordinal_ := page_ordinal_ r; row_group_ordinal_ := row_group_ordinal_ r;
     column_ordinal_ := column_ordinal_ r; compressor_ := compressor_ r;
     data_pageAAD_ := data_pageAAD_ r; data_page_headerAAD_ := data_page_headerAAD_ r;
     meta_encryptor_ := meta_encryptor_ r; data_encryptor_ := data_encryptor_ r |}.

Definition set_dictionary_page_offset_ (v : Z) (r : t) : t :=
  {| sink_ := sink_ r; num_values_ := num_values_ r; dictionary_page_offset_ := v;
     data_page_offset_ := data_page_offset_ r;
     total_uncompressed_size_ := total_uncompressed_size_ r;
     total_compressed_size_ := total_compressed_size_ r;
     page_ordinal_ := page_ordinal_ r; row_group_ordinal_ := row_group_ordinal_ r;
     column_ordinal_ := column_ordinal_ r; compressor_ := compressor_ r;
     data_pageAAD_ := data_pageAAD_ r; data_page_headerAAD_ := data_page_headerAAD_ r;
     meta_encryptor_ := meta_encryptor_ r; data_encryptor_ := data_encryptor_ r |}.

Definition set_data_page_offset_ (v : Z) (r : t) : t :=
  {| sink_ := sink_ r; num_values_ := num_values_ r;
     dictionary_page_offset_ := dictionary_page_offset_ r; data_page_offset_ := v;
     total_uncompressed_size_ := total_uncompressed_size_ r;
     total_compressed_size_ := total_compressed_size_ r;
     page_ordinal_ := page_ordinal_ r; row_group_ordinal_ := row_group_ordinal_ r;
     column_ordinal_ := column_ordinal_ r; compressor_ := compressor_ r;
     data_pageAAD_ := data_pageAAD_ r; data_page_headerAAD_ := data_page_headerAAD_ r;
     meta_encryptor_ := meta_encryptor_ r; data_encryptor_ := data_encryptor_ r |}.

Definition set_total_uncompressed_size_ (v : Z) (r : t) : t :=
  {| sink_ := sink_ r; num_values_ := num_values_ r;
     dictionary_page_offset_ := dictionary_page_offset_ r;
     data_page_offset_ := data_page_offset_ r; total_uncompressed_size_ := v;
     total_compressed_size_ := total_compressed_size_ r;
     page_ordinal_ := page_ordinal_ r; row_group_ordinal_ := row_group_ordinal_ r;
     column_ordinal_ := column_ordinal_ r; compressor_ := compressor_ r;
     data_pageAAD_ := data_pageAAD_ r; data_page_headerAAD_ := data_page_headerAAD_ r;
     meta_encryptor_ := meta_encryptor_ r; data_encryptor_ := data_encryptor_ r |}.

Definition set_total_compressed_size_ (v : Z) (r : t) : t :=
  {| sink_ := sink_ r; num_values_ := num_values_ r;
     dictionary_page_offset_ := dictionary_page_offset_ r;
     data_page_offset_ := data_page_offset_ r;
     total_uncompressed_size_ := total_uncompressed_size_ r;
     total_compressed_size_ := v; page_ordinal_ := page_ordinal_ r;
     row_group_ordinal_ := row_group_ordinal_ r; column_ordinal_ := column_ordinal_ r;
     compressor_ := compressor_ r; data_pageAAD_ := data_pageAAD_ r;
     data_page_headerAAD_ := data_page_headerAAD_ r;
     meta_encryptor_ := meta_encryptor_ r; data_encryptor_ := data_encryptor_ r |}.

Definition set_page_ordinal_ (v : Z) (r : t) : t :=
  {| sink_ := sink_ r; num_values_ := num_values_ r;
     dictionary_page_offset_ := dictionary_page_offset_ r;
     data_page_offset_ := data_page_offset_ r;
     total_uncompressed_size_ := total_uncompressed_size_ r;
     total_compressed_size_ := total_compressed_size_ r; page_ordinal_ := v;
     row_group_ordinal_ := row_group_ordinal_ r; column_ordinal_ := column_ordinal_ r;
     compressor_ := compressor_ r; data_pageAAD_ := data_pageAAD_ r;
     data_page_headerAAD_ := data_page_headerAAD_ r;
     meta_encryptor_ := meta_encryptor_ r; data_encryptor_ := data_encryptor_ r |}.

Definition set_data_pageAAD_ (v : list byte) (r : t) : t :=
  {| sink_ := sink_ r; num_values_ := num_values_ r;
     dictionary_page_offset_ := dictionary_page_offset_ r;
     data_page_offset_ := data_page_offset_ r;
     total_uncompressed_size_ := total_uncompressed_size_ r;
     total_compressed_size_ := total_compressed_size_ r;
     page_ordinal_ := page_ordinal_ r; row_group_ordinal_ := row_group_ordinal_ r;
     column_ordinal_ := column_ordinal_ r; compressor_ := compressor_ r;
     data_pageAAD_ := v; data_page_headerAAD_ := data_page_headerAAD_ r;
     meta_encryptor_ := meta_encryptor_ r; data_encryptor_ := data_encryptor_ r |}.

Definition set_data_page_headerAAD_ (v : list byte) (r : t) : t :=
  {| sink_ := sink_ r; num_values_ := num_values_ r;
     dictionary_page_offset_ := dictionary_page_offset_ r;
     data_page_offset_ := data_page_offset_ r;
     total_uncompressed_size_ := total_uncompressed_size_ r;
     total_compressed_size_ := total_compressed_size_ r;
     page_ordinal_ := page_ordinal_ r; row_group_ordinal_ := row_group_ordinal_ r;
     column_ordinal_ := column_ordinal_ r; compressor_ := compressor_ r;
     data_pageAAD_ := data_pageAAD_ r; data_page_headerAAD_ := v;
     meta_encryptor_ := meta_encryptor_ r; data_encryptor_ := data_encryptor_ r |}.

Definition set_meta_encryptor_ (v : option Encryptor.t) (r : t) : t :=
  {| sink_ := sink_ r; num_values_ := num_values_ r;
     dictionary_page_offset_ := dictionary_page_offset_ r;
     data_page_offset_ := data_page_offset_ r;
     total_uncompressed_size_ := total_uncompressed_size_ r;
     total_compressed_size_ := total_compressed_size_ r;
     page_ordinal_ := page_ordinal_ r; row_group_ordinal_ := row_group_ordinal_ r;
     column_ordinal_ := column_ordinal_ r; compressor_ := compressor_ r;
     data_pageAAD_ := data_pageAAD_ r; data_page_headerAAD_ := data_page_headerAAD_ r;
     meta_encryptor_ := v; data_encryptor_ := data_encryptor_ r |}.

Definition set_data_encryptor_ (v : option Encryptor.t) (r : t) : t :=
  {| sink_ := sink_ r; num_values_ := num_values_ r;
     dictionary_page_offset_ := dictionary_page_offset_ r;
     data_page_offset_ := data_page_offset_ r;
     total_uncompressed_size_ := total_uncompressed_size_ r;
     total_compressed_size_ := total_compressed_size_ r;
     page_ordinal_ := page_ordinal_ r; row_group_ordinal_ := row_group_ordinal_ r;
     column_ordinal_ := column_ordinal_ r; compressor_ := compressor_ r;
     data_pageAAD_ := data_pageAAD_ r; data_page_headerAAD_ := data_page_headerAAD_ r;
     meta_encryptor_ := meta_encryptor_ r; data_encryptor_ := v |}.

(** column_writer.cc:333-345 *)
Definition InitEncryption (w : t) : t :=
  (* Prepare the AAD for quick update later. *)
  let w :=
    match data_encryptor_ w with
    | Some d =>
        set_data_pageAAD_
          (CreateModuleAad (Encryptor.file_aad d) encryption.kDataPage
             (row_group_ordinal_ w) (column_ordinal_ w) (Int.int16 (-1))) w
    | None => w
    end in
  match meta_encryptor_ w with
  | Some m =>
      set_data_page_headerAAD_
        (CreateModuleAad (Encryptor.file_aad m) encryption.kDataPageHeader
           (row_group_ordinal_ w) (column_ordinal_ w) (Int.int16 (-1))) w
  | None => w
  end.

(** column_writer.cc:134-160 *)
Definition Make (sink : list byte) (codec : Compression.type)
    (row_group_ordinal column_chunk_ordinal : Z)
    (meta_encryptor data_encryptor : option Encryptor.t) : t :=
  let w :=
    {| sink_ := sink; num_values_ := 0; dictionary_page_offset_ := 0;
       data_page_offset_ := 0; total_uncompressed_size_ := 0;
       total_compressed_size_ := 0; page_ordinal_ := 0;
       row_group_ordinal_ := row_group_ordinal; column_ordinal_ := column_chunk_ordinal;
       compressor_ := GetCodecFromArrow codec;
       data_pageAAD_ := []; data_page_headerAAD_ := [];
       meta_encryptor_ := meta_encryptor; data_encryptor_ := data_encryptor |} in
  match data_encryptor, meta_encryptor with
  | None, None => w
  | _, _ => InitEncryption w
  end.

(** column_writer.cc:347-380.  Every caller has checked that the encryptor it
    updates is not null. *)
Definition UpdateEncryption (w : t) (module_type : encryption.module_type) : t :=
  let module_aad (e : Encryptor.t) :=
    CreateModuleAad (Encryptor.file_aad e) module_type
      (row_group_ordinal_ w) (column_ordinal_ w) (Int.int16 (-1)) in
  match module_type with
  | encryption.kColumnMetaData | encryption.kDictionaryPageHeader =>
      set_meta_encryptor_
        (option_map (fun m => Encryptor.UpdateAad m (module_aad m)) (meta_encryptor_ w)) w
  | encryption.kDataPage =>
      let aad := QuickUpdatePageAad (data_pageAAD_ w) (page_ordinal_ w) in
      let w := set_data_pageAAD_ aad w in
      set_data_encryptor_
        (option_map (fun d => Encryptor.UpdateAad d aad) (data_encryptor_ w)) w
  | encryption.kDataPageHeader =>
      let aad := QuickUpdatePageAad (data_page_headerAAD_ w) (page_ordinal_ w) in
      let w := set_data_page_headerAAD_ aad w in
      set_meta_encryptor_
        (option_map (fun m => Encryptor.UpdateAad m aad) (meta_encryptor_ w)) w
  | encryption.kDictionaryPage =>
      set_data_encryptor_
        (option_map (fun d => Encryptor.UpdateAad d (module_aad d)) (data_encryptor_ w)) w
  end.

Definition has_compressor (w : t) : bool :=
  match compressor_ w with Some _ => true | None => false end.

(** column_writer.cc:242-258: the contents of [dest_buffer] on return. *)
Definition Compress (w : t) (src_buffer dest_buffer : list byte) : list byte :=
  match compressor_ w with
  | Some c => Codec_Compress c src_buffer
  | None => dest_buffer
  end.

(** What one [Write...Page] call produced: the Thrift page header it built,
    the [header_size] the serializer returned, the value the call returns
    and the writer afterwards. *)
Record written := {
  page_header : format.PageHeader;
  header_size : Z;
  bytes_written : Z;
  after : t
}.

(** The encryption step shared by both page kinds (column_writer.cc:182-192
    and 275-285): the bytes to write and their length. *)
Definition encrypt_page (w : t) (module_type : encryption.module_type)
    (compressed_data : list byte) (output_data_len : Z) : list byte * Z * t :=
  match data_encryptor_ w with
  | Some _ =>
      let w := UpdateEncryption w module_type in
      match data_encryptor_ w with
      | Some d =>
          let '(n, encrypted) := Encryptor_run d compressed_data output_data_len in
          (encrypted, n, w)
      | None => (compressed_data, output_data_len, w)
      end
  | None => (compressed_data, output_data_len, w)
  end.

(** column_writer.cc:162-223 *)
Definition WriteDictionaryPage' (w : t) (page : DictionaryPage.t) : written :=
  let uncompressed_size := DictionaryPage.size page in
  let compressed_data :=
    if has_compressor w then Compress w (DictionaryPage.buffer page) []
    else DictionaryPage.buffer page in
  let dict_page_header :=
    {| format.dict_num_values := DictionaryPage.num_values page;
       format.dict_encoding := DictionaryPage.encoding page;
       format.is_sorted := Some (DictionaryPage.is_sorted page) |} in
  let output_data_len := Int.int32 (len compressed_data) in
  let '(output_data_buffer, output_data_len, w) :=
    encrypt_page w encryption.kDictionaryPage compressed_data output_data_len in
  let page_header :=
    {| format.type := PageType.DICTIONARY_PAGE;
       format.uncompressed_page_size := Int.int32 uncompressed_size;
       format.compressed_page_size := Int.int32 output_data_len;
       format.data_page_header := None;
       format.dictionary_page_header := Some dict_page_header |} in
  let start_pos := Tell (sink_ w) in
  let w :=
    if dictionary_page_offset_ w =? 0
    then set_dictionary_page_offset_ start_pos w else w in
  let w :=
    match meta_encryptor_ w with
    | Some _ => UpdateEncryption w encryption.kDictionaryPageHeader
    | None => w
    end in
  let '(header_size, sink) :=
    Serialize write_PageHeader page_header (sink_ w) (meta_encryptor_ w) in
  let sink := Write sink output_data_buffer output_data_len in
  let w := set_sink_ sink w in
  let w := set_total_uncompressed_size_
             (Int.int64 (total_uncompressed_size_ w + (uncompressed_size + header_size))) w in
  let w := set_total_compressed_size_
             (Int.int64 (total_compressed_size_ w + (output_data_len + header_size))) w in
  let final_pos := Tell (sink_ w) in
  {| page_header := page_header; header_size := header_size;
     bytes_written := final_pos - start_pos; after := w |}.

Definition WriteDictionaryPage (w : t) (page : DictionaryPage.t) : Z * t :=
  let r := WriteDictionaryPage' w page in (bytes_written r, after r).

(** column_writer.cc:260-317 *)
Definition WriteDataPage' (w : t) (page : CompressedDataPage.t) : written :=
  let uncompressed_size := CompressedDataPage.uncompressed_size page in
  let compressed_data := CompressedDataPage.buffer page in
  let data_page_header :=
    {| format.dph_num_values := CompressedDataPage.num_values page;
       format.dph_encoding := CompressedDataPage.encoding page;
       format.definition_level_encoding :=
         CompressedDataPage.definition_level_encoding page;
       format.repetition_level_encoding :=
         CompressedDataPage.repetition_level_encoding page;
       format.dph_statistics :=
         Some (ToThrift_Statistics (CompressedDataPage.statistics page)) |} in
  let output_data_len := Int.int32 (len compressed_data) in
  let '(output_data_buffer, output_data_len, w) :=
    encrypt_page w encryption.kDataPage compressed_data output_data_len in
  let page_header :=
    {| format.type := PageType.DATA_PAGE;
       format.uncompressed_page_size := Int.int32 uncompressed_size;
       format.compressed_page_size := Int.int32 output_data_len;
       format.data_page_header := Some data_page_header;
       format.dictionary_page_header := None |} in
  let start_pos := Tell (sink_ w) in
  let w :=
    if data_page_offset_ w =? 0 then set_data_page_offset_ start_pos w else w in
  let w :=
    match meta_encryptor_ w with
    | Some _ => UpdateEncryption w encryption.kDataPageHeader
    | None => w
    end in
  let '(header_size, sink) :=
    Serialize write_PageHeader page_header (sink_ w) (meta_encryptor_ w) in
  let sink := Write sink output_data_buffer output_data_len in
  let w := set_sink_ sink w in
  let w := set_total_uncompressed_size_
             (Int.int64 (total_uncompressed_size_ w + (uncompressed_size + header_size))) w in
  let w := set_total_compressed_size_
             (Int.int64 (total_compressed_size_ w + (output_data_len + header_size))) w in
  let w := set_num_values_
             (Int.int64 (num_values_ w + CompressedDataPage.num_values page)) w in
  let w := set_page_ordinal_ (Int.int16 (page_ordinal_ w + 1)) w in
  let current_pos := Tell (sink_ w) in
  {| page_header := page_header; header_size := header_size;
     bytes_written := current_pos - start_pos; after := w |}.

Definition WriteDataPage (w : t) (page : CompressedDataPage.t) : Z * t :=
  let r := WriteDataPage' w page in (bytes_written r, after r).

(** column_writer.cc:225-237.  [metadata] is the builder behind the
    [metadata_] pointer; the result holds it after [Finish]. *)
Definition Close (w : t) (metadata : ColumnChunkMetaDataBuilder.t)
    (has_dictionary fallback : bool) : option (ColumnChunkMetaDataBuilder.t * t) :=
  let w :=
    match meta_encryptor_ w with
    | Some _ => UpdateEncryption w encryption.kColumnMetaData
    | None => w
    end in
  (* index_page_offset = -1 since they are not supported *)
  match ColumnChunkMetaDataBuilder.Finish metadata (num_values_ w)
          (dictionary_page_offset_ w) (-1) (data_page_offset_ w)
          (total_compressed_size_ w) (total_uncompressed_size_ w)
          has_dictionary fallback (meta_encryptor_ w) with
  | None => None
  | Some metadata =>
      (* Write metadata at end of column chunk *)
      Some (metadata, set_sink_ (ColumnChunkMetaDataBuilder.WriteTo metadata (sink_ w)) w)
  end.

(** The fields the encryption bookkeeping leaves alone. *)
Definition same_counters (w w' : t) : Prop :=
  sink_ w' = sink_ w
  /\ num_values_ w' = num_values_ w
  /\ dictionary_page_offset_ w' = dictionary_page_offset_ w
  /\ data_page_offset_ w' = data_page_offset_ w
  /\ total_uncompressed_size_ w' = total_uncompressed_size_ w
  /\ total_compressed_size_ w' = total_compressed_size_ w
  /\ page_ordinal_ w' = page_ordinal_ w.

End Writer.
End SerializedPageWriter.

(** ** BufferedPageWriter (column_writer.cc:409-463)

    [in_memory_sink_] is the very stream the inner [pager_] writes to, so the
    model reads it as [sink_ pager_]. *)

Module BufferedPageWriter.
Section Writer.
Context {env : Env}.

Record t := {
  final_sink_ : list byte;
  pager_ : SerializedPageWriter.t
}.

Definition in_memory_sink_ (w : t) : list byte := SerializedPageWriter.sink_ (pager_ w).

(** column_writer.cc:412-424 *)
Definition Make (sink : list byte) (codec : Compression.type)
    (row_group_ordinal current_column_ordinal : Z)
    (meta_encryptor data_encryptor : option Encryptor.t) : t :=
  {| final_sink_ := sink;
     pager_ := SerializedPageWriter.Make [] codec row_group_ordinal
                 current_column_ordinal meta_encryptor data_encryptor |}.

Definition WriteDictionaryPage (w : t) (page : DictionaryPage.t) : Z * t :=
  let '(n, p) := SerializedPageWriter.WriteDictionaryPage (pager_ w) page in
  (n, {| final_sink_ := final_sink_ w; pager_ := p |}).

Definition WriteDataPage (w : t) (page : CompressedDataPage.t) : Z * t :=
  let '(n, p) := SerializedPageWriter.WriteDataPage (pager_ w) page in
  (n, {| final_sink_ := final_sink_ w; pager_ := p |}).

Definition Compress (w : t) (src_buffer dest_buffer : list byte) : list byte :=
  SerializedPageWriter.Compress (pager_ w) src_buffer dest_buffer.

Definition has_compressor (w : t) : bool :=
  SerializedPageWriter.has_compressor (pager_ w).

(** column_writer.cc:430-446 *)
Definition Close (w : t) (metadata : ColumnChunkMetaDataBuilder.t)
    (has_dictionary fallback : bool) : option (ColumnChunkMetaDataBuilder.t * t) :=
  (* index_page_offset = -1 since they are not supported *)
  let final_position := Tell (final_sink_ w) in
  let p := pager_ w in
  match ColumnChunkMetaDataBuilder.Finish metadata
          (SerializedPageWriter.num_values_ p)
          (Int.int64 (SerializedPageWriter.dictionary_page_offset_ p + final_position))
          (-1)
          (Int.int64 (SerializedPageWriter.data_page_offset_ p + final_position))
          (SerializedPageWriter.total_compressed_size_ p)
          (SerializedPageWriter.total_uncompressed_size_ p)
          has_dictionary fallback None with
  | None => None
  | Some metadata =>
      (* Write metadata at end of column chunk *)
      let p := SerializedPageWriter.set_sink_
                 (ColumnChunkMetaDataBuilder.WriteTo metadata (in_memory_sink_ w)) p in
      (* flush everything to the serialized sink *)
      let buffer := SerializedPageWriter.sink_ p in
      Some (metadata,
            {| final_sink_ := Write (final_sink_ w) buffer (len buffer); pager_ := p |})
  end.

End Writer.
End BufferedPageWriter.

(** ** PageWriter: the interface and [PageWriter::Open] (column_writer.cc:465-480) *)

Module PageWriter.
Section Writer.
Context {env : Env}.

Inductive t :=
| Serialized (w : SerializedPageWriter.t)
| Buffered (w : BufferedPageWriter.t).

Definition Open (sink : list byte) (codec : Compression.type)
    (row_group_ordinal column_chunk_ordinal : Z) (buffered_row_group : bool)
    (meta_encryptor data_encryptor : option Encryptor.t) : t :=
  if buffered_row_group then
    Buffered (BufferedPageWriter.Make sink codec row_group_ordinal
                column_chunk_ordinal meta_encryptor data_encryptor)
  else
    Serialized (SerializedPageWriter.Make sink codec row_group_ordinal
                  column_chunk_ordinal meta_encryptor data_encryptor).

Definition WriteDictionaryPage (w : t) (page : DictionaryPage.t) : Z * t :=
  match w with
  | Serialized s =>
      let '(n, s) := SerializedPageWriter.WriteDictionaryPage s page in (n, Serialized s)
  | Buffered b =>
      let '(n, b) := BufferedPageWriter.WriteDictionaryPage b page in (n, Buffered b)
  end.

Definition WriteDataPage (w : t) (page : CompressedDataPage.t) : Z * t :=
  match w with
  | Serialized s =>
      let '(n, s) := SerializedPageWriter.WriteDataPage s page in (n, Serialized s)
  | Buffered b =>
      let '(n, b) := BufferedPageWriter.WriteDataPage b page in (n, Buffered b)
  end.

Definition Compress (w : t) (src_buffer dest_buffer : list byte) : list byte :=
  match w with
  | Serialized s => SerializedPageWriter.Compress s src_buffer dest_buffer
  | Buffered b => BufferedPageWriter.Compress b src_buffer dest_buffer
  end.

Definition has_compressor (w : t) : bool :=
  match w with
  | Serialized s => SerializedPageWriter.has_compressor s
  | Buffered b => BufferedPageWriter.has_compressor b
  end.

Definition Close (w : t) (metadata : ColumnChunkMetaDataBuilder.t)
    (has_dictionary fallback : bool) : option (ColumnChunkMetaDataBuilder.t * t) :=
  match w with
  | Serialized s =>
      match SerializedPageWriter.Close s metadata has_dictionary fallback with
      | Some (m, s) => Some (m, Serialized s)
      | None => None
      end
  | Buffered b =>
      match BufferedPageWriter.Close b metadata has_dictionary fallback with
      | Some (m, b) => Some (m, Buffered b)
      | None => None
      end
  end.

End Writer.
End PageWriter.

(** ** ColumnWriterImpl and TypedColumnWriterImpl (column_writer.cc:491-1102)

    [level_encoder_] is initialised afresh by every [RleEncodeLevels] call and
    read nowhere else, so it is not a field.  The level sinks are the
    [int16_t] levels appended so far. *)

Module ColumnWriter.
Section Writer.
Context {env : Env}.

Record t := Build_t {
  metadata_ : ColumnChunkMetaDataBuilder.t;
  descr_ : ColumnDescriptor.t;
  pager_ : PageWriter.t;
  has_dictionary_ : bool;
  encoding_ : Encoding.type;
  properties_ : WriterProperties.t;
  num_buffered_values_ : Z;
  num_buffered_encoded_values_ : Z;
  rows_written_ : Z;
  total_bytes_written_ : Z;
  total_compressed_bytes_ : Z;
  closed_ : bool;
  fallback_ : bool;
  definition_levels_sink_ : list Z;
  repetition_levels_sink_ : list Z;
  definition_levels_rle_ : list byte;
  repetition_levels_rle_ : list byte;
  uncompressed_data_ : list byte;
  compressed_data_ : list byte;
  data_pages_ : list CompressedDataPage.t;
  current_encoder_ : Encoder;
  page_statistics_ : option TypedStats;
  chunk_statistics_ : option TypedStats
}.

Definition set_metadata_ (v : ColumnChunkMetaDataBuilder.t) (r : t) : t :=
  {| metadata_ := v; descr_ := descr_ r; pager_ := pager_ r;
     has_dictionary_ := has_dictionary_ r; encoding_ := encoding_ r;
     properties_ := properties_ r; num_buffered_values_ := num_buffered_values_ r;
     num_buffered_encoded_values_ := num_buffered_encoded_values_ r;
     rows_written_ := rows_written_ r; total_bytes_written_ := total_bytes_written_ r;
     total_compressed_bytes_ := total_compressed_bytes_ r; closed_ := closed_ r;
     fallback_ := fallback_ r; definition_levels_sink_ := definition_levels_sink_ r;
     repetition_levels_sink_ := repetition_levels_sink_ r;
     definition_levels_rle_ := definition_levels_rle_ r;
     repetition_levels_rle_ := repetition_levels_rle_ r;
     uncompressed_data_ := uncompressed_data_ r;
     compressed_data_ := compressed_data_ r; data_pages_ := data_pages_ r;
     current_encoder_ := current_encoder_ r; page_statistics_ := page_statistics_ r;
     chunk_statistics_ := chunk_statistics_ r |}.

Definition set_pager_ (v : PageWriter.t) (r : t) : t :=
  {| metadata_ := metadata_ r; descr_ := descr_ r; pager_ := v;
     has_dictionary_ := has_dictionary_ r; encoding_ := encoding_ r;
     properties_ := properties_ r; num_buffered_values_ := num_buffered_values_ r;
     num_buffered_encoded_values_ := num_buffered_encoded_values_ r;
     rows_written_ := rows_written_ r; total_bytes_written_ := total_bytes_written_ r;
     total_compressed_bytes_ := total_compressed_bytes_ r; closed_ := closed_ r;
     fallback_ := fallback_ r; definition_levels_sink_ := definition_levels_sink_ r;
     repetition_levels_sink_ := repetition_levels_sink_ r;
     definition_levels_rle_ := definition_levels_rle_ r;
     repetition_levels_rle_ := repetition_levels_rle_ r;
     uncompressed_data_ := uncompressed_data_ r;
     compressed_data_ := compressed_data_ r; data_pages_ := data_pages_ r;
     current_encoder_ := current_encoder_ r; page_statistics_ := page_statistics_ r;
     chunk_statistics_ := chunk_statistics_ r |}.

Definition set_encoding_ (v : Encoding.type) (r : t) : t :=
  {| metadata_ := metadata_ r; descr_ := descr_ r; pager_ := pager_ r;
     has_dictionary_ := has_dictionary_ r; encoding_ := v;
     properties_ := properties_ r; num_buffered_values_ := num_buffered_values_ r;
     num_buffered_encoded_values_ := num_buffered_encoded_values_ r;
     rows_written_ := rows_written_ r; total_bytes_written_ := total_bytes_written_ r;
     total_compressed_bytes_ := total_compressed_bytes_ r; closed_ := closed_ r;
     fallback_ := fallback_ r; definition_levels_sink_ := definition_levels_sink_ r;
     repetition_levels_sink_ := repetition_levels_sink_ r;
     definition_levels_rle_ := definition_levels_rle_ r;
     repetition_levels_rle_ := repetition_levels_rle_ r;
     uncompressed_data_ := uncompressed_data_ r;
     compressed_data_ := compressed_data_ r; data_pages_ := data_pages_ r;
     current_encoder_ := current_encoder_ r; page_statistics_ := page_statistics_ r;
     chunk_statistics_ := chunk_statistics_ r |}.

Definition set_num_buffered_values_ (v : Z) (r : t) : t :=
  {| metadata_ := metadata_ r; descr_ := descr_ r; pager_ := pager_ r;
     has_dictionary_ := has_dictionary_ r; encoding_ := encoding_ r;
     properties_ := properties_ r; num_buffered_values_ := v;
     num_buffered_encoded_values_ := num_buffered_encoded_values_ r;
     rows_written_ := rows_written_ r; total_bytes_written_ := total_bytes_written_ r;
     total_compressed_bytes_ := total_compressed_bytes_ r; closed_ := closed_ r;
     fallback_ := fallback_ r; definition_levels_sink_ := definition_levels_sink_ r;
     repetition_levels_sink_ := repetition_levels_sink_ r;
     definition_levels_rle_ := definition_levels_rle_ r;
     repetition_levels_rle_ := repetition_levels_rle_ r;
     uncompressed_data_ := uncompressed_data_ r;
     compressed_data_ := compressed_data_ r; data_pages_ := data_pages_ r;
     current_encoder_ := current_encoder_ r; page_statistics_ := page_statistics_ r;
     chunk_statistics_ := chunk_statistics_ r |}.

Definition set_num_buffered_encoded_values_ (v : Z) (r : t) : t :=
  {| metadata_ := metadata_ r; descr_ := descr_ r; pager_ := pager_ r;
     has_dictionary_ := has_dictionary_ r; encoding_ := encoding_ r;
     properties_ := properties_ r; num_buffered_values_ := num_buffered_values_ r;
     num_buffered_encoded_values_ := v; rows_written_ := rows_written_ r;
     total_bytes_written_ := total_bytes_written_ r;
     total_compressed_bytes_ := total_compressed_bytes_ r; closed_ := closed_ r;
     fallback_ := fallback_ r; definition_levels_sink_ := definition_levels_sink_ r;
     repetition_levels_sink_ := repetition_levels_sink_ r;
     definition_levels_rle_ := definition_levels_rle_ r;
     repetition_levels_rle_ := repetition_levels_rle_ r;
     uncompressed_data_ := uncompressed_data_ r;
     compressed_data_ := compressed_data_ r; data_pages_ := data_pages_ r;
     current_encoder_ := current_encoder_ r; page_statistics_ := page_statistics_ r;
     chunk_statistics_ := chunk_statistics_ r |}.

Definition set_rows_written_ (v : Z) (r : t) : t :=
  {| metadata_ := metadata_ r; descr_ := descr_ r; pager_ := pager_ r;
     has_dictionary_ := has_dictionary_ r; encoding_ := encoding_ r;
     properties_ := properties_ r; num_buffered_values_ := num_buffered_values_ r;
     num_buffered_encoded_values_ := num_buffered_encoded_values_ r;
     rows_written_ := v; total_bytes_written_ := total_bytes_written_ r;
     total_compressed_bytes_ := total_compressed_bytes_ r; closed_ := closed_ r;
     fallback_ := fallback_ r; definition_levels_sink_ := definition_levels_sink_ r;
     repetition_levels_sink_ := repetition_levels_sink_ r;
     definition_levels_rle_ := definition_levels_rle_ r;
     repetition_levels_rle_ := repetition_levels_rle_ r;
     uncompressed_data_ := uncompressed_data_ r;
     compressed_data_ := compressed_data_ r; data_pages_ := data_pages_ r;
     current_encoder_ := current_encoder_ r; page_statistics_ := page_statistics_ r;
     chunk_statistics_ := chunk_statistics_ r |}.

Definition set_total_bytes_written_ (v : Z) (r : t) : t :=
  {| metadata_ := metadata_ r; descr_ := descr_ r; pager_ := pager_ r;
     has_dictionary_ := has_dictionary_ r; encoding_ := encoding_ r;
     properties_ := properties_ r; num_buffered_values_ := num_buffered_values_ r;
     num_buffered_encoded_values_ := num_buffered_encoded_values_ r;
     rows_written_ := rows_written_ r; total_bytes_written_ := v;
     total_compressed_bytes_ := total_compressed_bytes_ r; closed_ := closed_ r;
     fallback_ := fallback_ r; definition_levels_sink_ := definition_levels_sink_ r;
     repetition_levels_sink_ := repetition_levels_sink_ r;
     definition_levels_rle_ := definition_levels_rle_ r;
     repetition_levels_rle_ := repetition_levels_rle_ r;
     uncompressed_data_ := uncompressed_data_ r;
     compressed_data_ := compressed_data_ r; data_pages_ := data_pages_ r;
     current_encoder_ := current_encoder_ r; page_statistics_ := page_statistics_ r;
     chunk_statistics_ := chunk_statistics_ r |}.

Definition set_total_compressed_bytes_ (v : Z) (r : t) : t :=
  {| metadata_ := metadata_ r; descr_ := descr_ r; pager_ := pager_ r;
     has_dictionary_ := has_dictionary_ r; encoding_ := encoding_ r;
     properties_ := properties_ r; num_buffered_values_ := num_buffered_values_ r;
     num_buffered_encoded_values_ := num_buffered_encoded_values_ r;
     rows_written_ := rows_written_ r; total_bytes_written_ := total_bytes_written_ r;
     total_compressed_bytes_ := v; closed_ := closed_ r; fallback_ := fallback_ r;
     definition_levels_sink_ := definition_levels_sink_ r;
     repetition_levels_sink_ := repetition_levels_sink_ r;
     definition_levels_rle_ := definition_levels_rle_ r;
     repetition_levels_rle_ := repetition_levels_rle_ r;
     uncompressed_data_ := uncompressed_data_ r;
     compressed_data_ := compressed_data_ r; data_pages_ := data_pages_ r;
     current_encoder_ := current_encoder_ r; page_statistics_ := page_statistics_ r;
     chunk_statistics_ := chunk_statistics_ r |}.

Definition set_closed_ (v : bool) (r : t) : t :=
  {| metadata_ := metadata_ r; descr_ := descr_ r; pager_ := pager_ r;
     has_dictionary_ := has_dictionary_ r; encoding_ := encoding_ r;
     properties_ := properties_ r; num_buffered_values_ := num_buffered_values_ r;
     num_buffered_encoded_values_ := num_buffered_encoded_values_ r;
     rows_written_ := rows_written_ r; total_bytes_written_ := total_bytes_written_ r;
     total_compressed_bytes_ := total_compressed_bytes_ r; closed_ := v;
     fallback_ := fallback_ r; definition_levels_sink_ := definition_levels_sink_ r;
     repetition_levels_sink_ := repetition_levels_sink_ r;
     definition_levels_rle_ := definition_levels_rle_ r;
     repetition_levels_rle_ := repetition_levels_rle_ r;
     uncompressed_data_ := uncompressed_data_ r;
     compressed_data_ := compressed_data_ r; data_pages_ := data_pages_ r;
     current_encoder_ := current_encoder_ r; page_statistics_ := page_statistics_ r;
     chunk_statistics_ := chunk_statistics_ r |}.

Definition set_fallback_ (v : bool) (r : t) : t :=
  {| metadata_ := metadata_ r; descr_ := descr_ r; pager_ := pager_ r;
     has_dictionary_ := has_dictionary_ r; encoding_ := encoding_ r;
     properties_ := properties_ r; num_buffered_values_ := num_buffered_values_ r;
     num_buffered_encoded_values_ := num_buffered_encoded_values_ r;
     rows_written_ := rows_written_ r; total_bytes_written_ := total_bytes_written_ r;
     total_compressed_bytes_ := total_compressed_bytes_ r; closed_ := closed_ r;
     fallback_ := v; definition_levels_sink_ := definition_levels_sink_ r;
     repetition_levels_sink_ := repetition_levels_sink_ r;
     definition_levels_rle_ := definition_levels_rle_ r;
     repetition_levels_rle_ := repetition_levels_rle_ r;
     uncompressed_data_ := uncompressed_data_ r;
     compressed_data_ := compressed_data_ r; data_pages_ := data_pages_ r;
     current_encoder_ := current_encoder_ r; page_statistics_ := page_statistics_ r;
     chunk_statistics_ := chunk_statistics_ r |}.

Definition set_definition_levels_sink_ (v : list Z) (r : t) : t :=
  {| metadata_ := metadata_ r; descr_ := descr_ r; pager_ := pager_ r;
     has_dictionary_ := has_dictionary_ r; encoding_ := encoding_ r;
     properties_ := properties_ r; num_buffered_values_ := num_buffered_values_ r;
     num_buffered_encoded_values_ := num_buffered_encoded_values_ r;
     rows_written_ := rows_written_ r; total_bytes_written_ := total_bytes_written_ r;
     total_compressed_bytes_ := total_compressed_bytes_ r; closed_ := closed_ r;
     fallback_ := fallback_ r; definition_levels_sink_ := v;
     repetition_levels_sink_ := repetition_levels_sink_ r;
     definition_levels_rle_ := definition_levels_rle_ r;
     repetition_levels_rle_ := repetition_levels_rle_ r;
     uncompressed_data_ := uncompressed_data_ r;
     compressed_data_ := compressed_data_ r; data_pages_ := data_pages_ r;
     current_encoder_ := current_encoder_ r; page_statistics_ := page_statistics_ r;
     chunk_statistics_ := chunk_statistics_ r |}.

Definition set_repetition_levels_sink_ (v : list Z) (r : t) : t :=
  {| metadata_ := metadata_ r; descr_ := descr_ r; pager_ := pager_ r;
     has_dictionary_ := has_dictionary_ r; encoding_ := encoding_ r;
     properties_ := properties_ r; num_buffered_values_ := num_buffered_values_ r;
     num_buffered_encoded_values_ := num_buffered_encoded_values_ r;
     rows_written_ := rows_written_ r; total_bytes_written_ := total_bytes_written_ r;
     total_compressed_bytes_ := total_compressed_bytes_ r; closed_ := closed_ r;
     fallback_ := fallback_ r; definition_levels_sink_ := definition_levels_sink_ r;
     repetition_levels_sink_ := v; definition_levels_rle_ := definition_levels_rle_ r;
     repetition_levels_rle_ := repetition_levels_rle_ r;
     uncompressed_data_ := uncompressed_data_ r;
     compressed_data_ := compressed_data_ r; data_pages_ := data_pages_ r;
     current_encoder_ := current_encoder_ r; page_statistics_ := page_statistics_ r;
     chunk_statistics_ := chunk_statistics_ r |}.

Definition set_definition_levels_rle_ (v : list byte) (r : t) : t :=
  {| metadata_ := metadata_ r; descr_ := descr_ r; pager_ := pager_ r;
     has_dictionary_ := has_dictionary_ r; encoding_ := encoding_ r;
     properties_ := properties_ r; num_buffered_values_ := num_buffered_values_ r;
     num_buffered_encoded_values_ := num_buffered_encoded_values_ r;
     rows_written_ := rows_written_ r; total_bytes_written_ := total_bytes_written_ r;
     total_compressed_bytes_ := total_compressed_bytes_ r; closed_ := closed_ r;
     fallback_ := fallback_ r; definition_levels_sink_ := definition_levels_sink_ r;
     repetition_levels_sink_ := repetition_levels_sink_ r; definition_levels_rle_ := v;
     repetition_levels_rle_ := repetition_levels_rle_ r;
     uncompressed_data_ := uncompressed_data_ r;
     compressed_data_ := compressed_data_ r; data_pages_ := data_pages_ r;
     current_encoder_ := current_encoder_ r; page_statistics_ := page_statistics_ r;
     chunk_statistics_ := chunk_statistics_ r |}.

Definition set_repetition_levels_rle_ (v : list byte) (r : t) : t :=
  {| metadata_ := metadata_ r; descr_ := descr_ r; pager_ := pager_ r;
     has_dictionary_ := has_dictionary_ r; encoding_ := encoding_ r;
     properties_ := properties_ r; num_buffered_values_ := num_buffered_values_ r;
     num_buffered_encoded_values_ := num_buffered_encoded_values_ r;
     rows_written_ := rows_written_ r; total_bytes_written_ := total_bytes_written_ r;
     total_compressed_bytes_ := total_compressed_bytes_ r; closed_ := closed_ r;
     fallback_ := fallback_ r; definition_levels_sink_ := definition_levels_sink_ r;
     repetition_levels_sink_ := repetition_levels_sink_ r;
     definition_levels_rle_ := definition_levels_rle_ r; repetition_levels_rle_ := v;
     uncompressed_data_ := uncompressed_data_ r;
     compressed_data_ := compressed_data_ r; data_pages_ := data_pages_ r;
     current_encoder_ := current_encoder_ r; page_statistics_ := page_statistics_ r;
     chunk_statistics_ := chunk_statistics_ r |}.

Definition set_uncompressed_data_ (v : list byte) (r : t) : t :=
  {| metadata_ := metadata_ r; descr_ := descr_ r; pager_ := pager_ r;
     has_dictionary_ := has_dictionary_ r; encoding_ := encoding_ r;
     properties_ := properties_ r; num_buffered_values_ := num_buffered_values_ r;
     num_buffered_encoded_values_ := num_buffered_encoded_values_ r;
     rows_written_ := rows_written_ r; total_bytes_written_ := total_bytes_written_ r;
     total_compressed_bytes_ := total_compressed_bytes_ r; closed_ := closed_ r;
     fallback_ := fallback_ r; definition_levels_sink_ := definition_levels_sink_ r;
     repetition_levels_sink_ := repetition_levels_sink_ r;
     definition_levels_rle_ := definition_levels_rle_ r;
     repetition_levels_rle_ := repetition_levels_rle_ r; uncompressed_data_ := v;
     compressed_data_ := compressed_data_ r; data_pages_ := data_pages_ r;
     current_encoder_ := current_encoder_ r; page_statistics_ := page_statistics_ r;
     chunk_statistics_ := chunk_statistics_ r |}.

Definition set_compressed_data_ (v : list byte) (r : t) : t :=
  {| metadata_ := metadata_ r; descr_ := descr_ r; pager_ := pager_ r;
     has_dictionary_ := has_dictionary_ r; encoding_ := encoding_ r;
     properties_ := properties_ r; num_buffered_values_ := num_buffered_values_ r;
     num_buffered_encoded_values_ := num_buffered_encoded_values_ r;
     rows_written_ := rows_written_ r; total_bytes_written_ := total_bytes_written_ r;
     total_compressed_bytes_ := total_compressed_bytes_ r; closed_ := closed_ r;
     fallback_ := fallback_ r; definition_levels_sink_ := definition_levels_sink_ r;
     repetition_levels_sink_ := repetition_levels_sink_ r;
     definition_levels_rle_ := definition_levels_rle_ r;
     repetition_levels_rle_ := repetition_levels_rle_ r;
     uncompressed_data_ := uncompressed_data_ r; compressed_data_ := v;
     data_pages_ := data_pages_ r; current_encoder_ := current_encoder_ r;
     page_statistics_ := page_statistics_ r;
     chunk_statistics_ := chunk_statistics_ r |}.

Definition set_data_pages_ (v : list CompressedDataPage.t) (r : t) : t :=
  {| metadata_ := metadata_ r; descr_ := descr_ r; pager_ := pager_ r;
     has_dictionary_ := has_dictionary_ r; encoding_ := encoding_ r;
     properties_ := properties_ r; num_buffered_values_ := num_buffered_values_ r;
     num_buffered_encoded_values_ := num_buffered_encoded_values_ r;
     rows_written_ := rows_written_ r; total_bytes_written_ := total_bytes_written_ r;
     total_compressed_bytes_ := total_compressed_bytes_ r; closed_ := closed_ r;
     fallback_ := fallback_ r; definition_levels_sink_ := definition_levels_sink_ r;
     repetition_levels_sink_ := repetition_levels_sink_ r;
     definition_levels_rle_ := definition_levels_rle_ r;
     repetition_levels_rle_ := repetition_levels_rle_ r;
     uncompressed_data_ := uncompressed_data_ r;
     compressed_data_ := compressed_data_ r; data_pages_ := v;
     current_encoder_ := current_encoder_ r; page_statistics_ := page_statistics_ r;
     chunk_statistics_ := chunk_statistics_ r |}.

Definition set_current_encoder_ (v : Encoder) (r : t) : t :=
  {| metadata_ := metadata_ r; descr_ := descr_ r; pager_ := pager_ r;
     has_dictionary_ := has_dictionary_ r; encoding_ := encoding_ r;
     properties_ := properties_ r; num_buffered_values_ := num_buffered_values_ r;
     num_buffered_encoded_values_ := num_buffered_encoded_values_ r;
     rows_written_ := rows_written_ r; total_bytes_written_ := total_bytes_written_ r;
     total_compressed_bytes_ := total_compressed_bytes_ r; closed_ := closed_ r;
     fallback_ := fallback_ r; definition_levels_sink_ := definition_levels_sink_ r;
     repetition_levels_sink_ := repetition_levels_sink_ r;
     definition_levels_rle_ := definition_levels_rle_ r;
     repetition_levels_rle_ := repetition_levels_rle_ r;
     uncompressed_data_ := uncompressed_data_ r;
     compressed_data_ := compressed_data_ r; data_pages_ := data_pages_ r;
     current_encoder_ := v; page_statistics_ := page_statistics_ r;
     chunk_statistics_ := chunk_statistics_ r |}.

Definition set_page_statistics_ (v : option TypedStats) (r : t) : t :=
  {| metadata_ := metadata_ r; descr_ := descr_ r; pager_ := pager_ r;
     has_dictionary_ := has_dictionary_ r; encoding_ := encoding_ r;
     properties_ := properties_ r; num_buffered_values_ := num_buffered_values_ r;
     num_buffered_encoded_values_ := num_buffered_encoded_values_ r;
     rows_written_ := rows_written_ r; total_bytes_written_ := total_bytes_written_ r;
     total_compressed_bytes_ := total_compressed_bytes_ r; closed_ := closed_ r;
     fallback_ := fallback_ r; definition_levels_sink_ := definition_levels_sink_ r;
     repetition_levels_sink_ := repetition_levels_sink_ r;
     definition_levels_rle_ := definition_levels_rle_ r;
     repetition_levels_rle_ := repetition_levels_rle_ r;
     uncompressed_data_ := uncompressed_data_ r;
     compressed_data_ := compressed_data_ r; data_pages_ := data_pages_ r;
     current_encoder_ := current_encoder_ r; page_statistics_ := v;
     chunk_statistics_ := chunk_statistics_ r |}.

Definition set_chunk_statistics_ (v : option TypedStats) (r : t) : t :=
  {| metadata_ := metadata_ r; descr_ := descr_ r; pager_ := pager_ r;
     has_dictionary_ := has_dictionary_ r; encoding_ := encoding_ r;
     properties_ := properties_ r; num_buffered_values_ := num_buffered_values_ r;
     num_buffered_encoded_values_ := num_buffered_encoded_values_ r;
     rows_written_ := rows_written_ r; total_bytes_written_ := total_bytes_written_ r;
     total_compressed_bytes_ := total_compressed_bytes_ r; closed_ := closed_ r;
     fallback_ := fallback_ r; definition_levels_sink_ := definition_levels_sink_ r;
     repetition_levels_sink_ := repetition_levels_sink_ r;
     definition_levels_rle_ := definition_levels_rle_ r;
     repetition_levels_rle_ := repetition_levels_rle_ r;
     uncompressed_data_ := uncompressed_data_ r;
     compressed_data_ := compressed_data_ r; data_pages_ := data_pages_ r;
     current_encoder_ := current_encoder_ r; page_statistics_ := page_statistics_ r;
     chunk_statistics_ := v |}.
(** column_writer.cc:1107-1116 and 493-522, 771-784: [ColumnWriter::Make]
    followed by the constructors. *)
Definition Make (metadata : ColumnChunkMetaDataBuilder.t) (pager : PageWriter.t)
    (properties : WriterProperties.t) : t :=
  let descr := ColumnChunkMetaDataBuilder.descr metadata in
  let use_dictionary :=
    WriterProperties.dictionary_enabled properties
    && negb (Type_.is_boolean (ColumnDescriptor.physical_type descr)) in
  let encoding :=
    if use_dictionary then WriterProperties.dictionary_index_encoding properties
    else WriterProperties.encoding properties in
  let stats :=
    if WriterProperties.statistics_enabled properties
       && negb (SortOrder.eqb SortOrder.UNKNOWN (ColumnDescriptor.sort_order descr))
    then Some (TypedStats_Make descr) else None in
  {| metadata_ := metadata; descr_ := descr; pager_ := pager;
     has_dictionary_ := use_dictionary; encoding_ := encoding;
     properties_ := properties;
     num_buffered_values_ := 0; num_buffered_encoded_values_ := 0;
     rows_written_ := 0; total_bytes_written_ := 0; total_compressed_bytes_ := 0;
     closed_ := false; fallback_ := false;
     definition_levels_sink_ := []; repetition_levels_sink_ := [];
     definition_levels_rle_ := []; repetition_levels_rle_ := [];
     uncompressed_data_ := []; compressed_data_ := []; data_pages_ := [];
     current_encoder_ := MakeEncoder encoding use_dictionary;
     page_statistics_ := stats; chunk_statistics_ := stats |}.

(** column_writer.cc:551-562 *)
Definition WriteDefinitionLevels (w : t) (num_levels : Z) (levels : list Z) : t :=
  set_definition_levels_sink_ (definition_levels_sink_ w ++ take num_levels levels) w.

Definition WriteRepetitionLevels (w : t) (num_levels : Z) (levels : list Z) : t :=
  set_repetition_levels_sink_ (repetition_levels_sink_ w ++ take num_levels levels) w.

(** column_writer.cc:623-626 *)
Definition InitSinks (w : t) : t :=
  set_repetition_levels_sink_ [] (set_definition_levels_sink_ [] w).

(** [LevelEncoder::MaxBufferSize] (column_writer.cc:76-97) at [Encoding::RLE],
    the only encoding [RleEncodeLevels] passes. *)
Definition LevelEncoder_MaxBufferSize_RLE (max_level num_buffered_values : Z) : Z :=
  let bit_width := Log2 (max_level + 1) in
  (* TODO: Due to the way we currently check if the buffer is full enough,
     we need to have MinBufferSize as head room. *)
  Int.int32 (RleEncoder_MaxBufferSize bit_width num_buffered_values
             + RleEncoder_MinBufferSize bit_width).

(** [LevelEncoder::Init] and [Encode] (column_writer.cc:56-74, 99-124) at
    [Encoding::RLE]: the bytes the encoder left at [data] and [len()]. *)
Definition LevelEncoder_Encode_RLE (max_level data_size batch_size : Z)
    (levels : list Z) : list byte * Z :=
  let bit_width := Log2 (max_level + 1) in
  let encoded := RleEncoder_encode data_size bit_width (take batch_size levels) in
  (encoded, Int.int32 (len encoded)).

(** column_writer.cc:629-651: the encoded size and [dest_buffer] afterwards. *)
Definition RleEncodeLevels (w : t) (src_buffer : list Z) (dest_buffer : list byte)
    (max_level : Z) : Z * list byte :=
  (* TODO: This only works with due to some RLE specifics *)
  let rle_size :=
    Int.int64 (LevelEncoder_MaxBufferSize_RLE max_level
                 (Int.int32 (num_buffered_values_ w)) + 4) in
  let dest_buffer := Resize dest_buffer rle_size in
  let '(encoded, level_encoder_len) :=
    LevelEncoder_Encode_RLE max_level (Int.int32 (len dest_buffer - 4))
      (Int.int32 (num_buffered_values_ w)) src_buffer in
  let dest_buffer := memcpy dest_buffer 4 encoded level_encoder_len in
  let dest_buffer := memcpy dest_buffer 0 (store_int32 level_encoder_len) 4 in
  let encoded_size := Int.int64 (level_encoder_len + 4) in
  (encoded_size, dest_buffer).

(** column_writer.cc:810-820 *)
Definition GetPageStatistics (w : t) : EncodedStatistics :=
  match page_statistics_ w with
  | Some s => TypedStats_Encode s
  | None => EncodedStatistics_default
  end.

Definition GetChunkStatistics (w : t) : EncodedStatistics :=
  match chunk_statistics_ w with
  | Some s => TypedStats_Encode s
  | None => EncodedStatistics_default
  end.

(** column_writer.cc:893-899 *)
Definition ResetPageStatistics (w : t) : t :=
  match chunk_statistics_ w, page_statistics_ w with
  | Some chunk, Some page =>
      set_page_statistics_ (Some (TypedStats_Reset page))
        (set_chunk_statistics_ (Some (TypedStats_Merge chunk page)) w)
  | _, _ => w
  end.

(** column_writer.cc:723-725 *)
Definition WriteDataPage (w : t) (page : CompressedDataPage.t) : t :=
  let '(n, pager) := PageWriter.WriteDataPage (pager_ w) page in
  set_total_bytes_written_ (Int.int64 (total_bytes_written_ w + n)) (set_pager_ pager w).

(** column_writer.cc:653-697 and 705-713: the part of [AddDataPage] that
    assembles the page.  The result is the writer with its buffers, encoder
    and statistics updated, and the [CompressedDataPage] both branches of
    [AddDataPage] construct (the buffered branch constructs it over a copy of
    the same bytes). *)
Definition AssembleDataPage (w : t) : t * CompressedDataPage.t :=
  let '(values, encoder) := FlushValues (current_encoder_ w) in
  let w := set_current_encoder_ encoder w in
  let '(definition_levels_rle_size, w) :=
    if 0 <? ColumnDescriptor.max_definition_level (descr_ w) then
      let '(n, b) := RleEncodeLevels w (definition_levels_sink_ w)
                       (definition_levels_rle_ w)
                       (ColumnDescriptor.max_definition_level (descr_ w)) in
      (n, set_definition_levels_rle_ b w)
    else (0, w) in
  let '(repetition_levels_rle_size, w) :=
    if 0 <? ColumnDescriptor.max_repetition_level (descr_ w) then
      let '(n, b) := RleEncodeLevels w (repetition_levels_sink_ w)
                       (repetition_levels_rle_ w)
                       (ColumnDescriptor.max_repetition_level (descr_ w)) in
      (n, set_repetition_levels_rle_ b w)
    else (0, w) in
  let uncompressed_size :=
    Int.int64 (definition_levels_rle_size + repetition_levels_rle_size + len values) in
  let u := Resize (uncompressed_data_ w) uncompressed_size in
  (* Concatenate data into a single buffer *)
  let u := memcpy u 0 (repetition_levels_rle_ w) repetition_levels_rle_size in
  let u := memcpy u repetition_levels_rle_size
             (definition_levels_rle_ w) definition_levels_rle_size in
  let u := memcpy u (repetition_levels_rle_size + definition_levels_rle_size)
             values (len values) in
  let w := set_uncompressed_data_ u w in
  let page_stats := GetPageStatistics w in
  let page_stats :=
    ApplyStatSizeLimits page_stats (WriterProperties.max_statistics_size (properties_ w)) in
  let page_stats :=
    set_is_signed page_stats
      (SortOrder.eqb SortOrder.SIGNED (ColumnDescriptor.sort_order (descr_ w))) in
  let w := ResetPageStatistics w in
  let '(w, compressed_data) :=
    if PageWriter.has_compressor (pager_ w) then
      let c := PageWriter.Compress (pager_ w) (uncompressed_data_ w) (compressed_data_ w) in
      (set_compressed_data_ c w, c)
    else (w, uncompressed_data_ w) in
  (w,
   {| CompressedDataPage.buffer := compressed_data;
      CompressedDataPage.num_values := Int.int32 (num_buffered_values_ w);
      CompressedDataPage.encoding := encoding_ w;
      CompressedDataPage.definition_level_encoding := Encoding.RLE;
      CompressedDataPage.repetition_level_encoding := Encoding.RLE;
      CompressedDataPage.uncompressed_size := uncompressed_size;
      CompressedDataPage.statistics := page_stats |}).

(** column_writer.cc:653-721 *)
Definition AddDataPage (w : t) : t :=
  let '(w, page) := AssembleDataPage w in
  (* Write the page to OutputStream eagerly if there is no dictionary or
     if dictionary encoding has fallen back to PLAIN *)
  let w :=
    if has_dictionary_ w && negb (fallback_ w) then
      (* Save pages until end of dictionary encoding *)
      let w := set_total_compressed_bytes_
                 (Int.int64 (total_compressed_bytes_ w
                             + (CompressedDataPage.size page + sizeof_PageHeader))) w in
      set_data_pages_ (data_pages_ w ++ [page]) w
    else
      (* Eagerly write pages *)
      WriteDataPage w page in
  (* Re-initialize the sinks for next Page. *)
  let w := InitSinks w in
  set_num_buffered_encoded_values_ 0 (set_num_buffered_values_ 0 w).

(** The layout the format asks of a V1 data page, read off the writer before
    the page is assembled: each level block is the RLE bytes behind their
    4-byte little-endian length, repetition levels first, then definition
    levels, then the values the encoder flushes. *)
Definition framed_levels (num_buffered_values : Z) (sink : list Z) (max_level : Z)
  : list byte :=
  let capacity := LevelEncoder_MaxBufferSize_RLE max_level num_buffered_values in
  let rle := RleEncoder_encode capacity (Log2 (max_level + 1))
               (take num_buffered_values sink) in
  store_int32 (len rle) ++ rle.

Definition data_page_payload (w : t) : list byte :=
  (if 0 <? ColumnDescriptor.max_repetition_level (descr_ w)
   then framed_levels (num_buffered_values_ w) (repetition_levels_sink_ w)
          (ColumnDescriptor.max_repetition_level (descr_ w))
   else [])
  ++ (if 0 <? ColumnDescriptor.max_definition_level (descr_ w)
      then framed_levels (num_buffered_values_ w) (definition_levels_sink_ w)
             (ColumnDescriptor.max_definition_level (descr_ w))
      else [])
  ++ fst (FlushValues (current_encoder_ w)).

(** The RLE encoder kept within the buffer [RleEncodeLevels] sized for it,
    and that size is an [int]. *)
Definition levels_fit (num_buffered_values : Z) (sink : list Z) (max_level : Z) : Prop :=
  let bit_width := Log2 (max_level + 1) in
  let capacity := RleEncoder_MaxBufferSize bit_width num_buffered_values
                  + RleEncoder_MinBufferSize bit_width in
  0 <= capacity /\ capacity + 4 < 2 ^ 31
  /\ len (RleEncoder_encode capacity bit_width (take num_buffered_values sink))
     <= capacity.

(** column_writer.cc:882-889: the dictionary page [WriteDictionaryPage] builds. *)
Definition MakeDictionaryPage (w : t) : DictionaryPage.t :=
  let dict_encoder := current_encoder_ w in
  let n := dict_encoded_size dict_encoder in
  let buffer := memcpy (Resize [] n) 0 (WriteDict dict_encoder) n in
  {| DictionaryPage.buffer := buffer;
     DictionaryPage.num_values := num_entries dict_encoder;
     DictionaryPage.encoding := WriterProperties.dictionary_page_encoding (properties_ w);
     DictionaryPage.is_sorted := false |}.

(** column_writer.cc:878-891 *)
Definition WriteDictionaryPage (w : t) : t :=
  let page := MakeDictionaryPage w in
  let '(written, pager) := PageWriter.WriteDictionaryPage (pager_ w) page in
  set_total_bytes_written_ (Int.int64 (total_bytes_written_ w + written))
    (set_pager_ pager w).

(** column_writer.cc:751-761 *)
Definition FlushBufferedDataPages (w : t) : t :=
  (* Write all outstanding data to a new page *)
  let w := if 0 <? num_buffered_values_ w then AddDataPage w else w in
  let w := fold_left WriteDataPage (data_pages_ w) w in
  set_total_compressed_bytes_ 0 (set_data_pages_ [] w).

(** column_writer.cc:861-876 *)
Definition CheckDictionarySizeLimit (w : t) : t :=
  if WriterProperties.dictionary_pagesize_limit (properties_ w)
     <=? dict_encoded_size (current_encoder_ w)
  then
    let w := WriteDictionaryPage w in
    (* Serialize the buffered Dictionary Indicies *)
    let w := FlushBufferedDataPages w in
    let w := set_fallback_ true w in
    (* Only PLAIN encoding is supported for fallback in V1 *)
    let w := set_current_encoder_ (MakeEncoder Encoding.PLAIN false) w in
    set_encoding_ Encoding.PLAIN w
  else w.

(** column_writer.cc:727-749.  [None] where [PageWriter::Close] has none. *)
Definition Close (w : t) : option (Z * t) :=
  if closed_ w then Some (total_bytes_written_ w, w)
  else
    let w := set_closed_ true w in
    let w := if has_dictionary_ w && negb (fallback_ w) then WriteDictionaryPage w else w in
    let w := FlushBufferedDataPages w in
    let chunk_statistics := GetChunkStatistics w in
    let chunk_statistics :=
      ApplyStatSizeLimits chunk_statistics
        (WriterProperties.max_statistics_size (properties_ w)) in
    let chunk_statistics :=
      set_is_signed chunk_statistics
        (SortOrder.eqb SortOrder.SIGNED (ColumnDescriptor.sort_order (descr_ w))) in
    (* Write stats only if the column has at least one row written *)
    let w :=
      if (0 <? rows_written_ w) && is_set chunk_statistics
      then set_metadata_ (ColumnChunkMetaDataBuilder.SetStatistics (metadata_ w)
                            chunk_statistics) w
      else w in
    match PageWriter.Close (pager_ w) (metadata_ w) (has_dictionary_ w) (fallback_ w) with
    | None => None
    | Some (metadata, pager) =>
        let w := set_pager_ pager (set_metadata_ metadata w) in
        Some (total_bytes_written_ w, w)
    end.

(** [for (int64_t i = 0; i < n; ++i) s = body(i, s)] *)
Definition for_loop {S : Type} (n : Z) (body : Z -> S -> S) (s : S) : S :=
  fold_left (fun s i => body (Z.of_nat i) s) (seq 0 (Z.to_nat n)) s.

(** [levels[i]] *)
Definition at_index (levels : list Z) (i : Z) : Z := nth (Z.to_nat i) levels 0.

(** The number of positions [i < num_levels] with [levels[i] == target]. *)
Definition count_levels (target num_levels : Z) (levels : list Z) : Z :=
  len (filter (fun i => at_index levels (Z.of_nat i) =? target)
         (seq 0 (Z.to_nat num_levels))).

(** column_writer.cc:1089-1093 *)
Definition WriteValues (w : t) (num_values : Z) (values : list Value) : t :=
  set_current_encoder_ (Put (current_encoder_ w) values (Int.int32 num_values)) w.

(** column_writer.cc:909-952: [WriteMiniBatch] up to the point where the
    values are in the encoder and the counters are advanced. *)
Definition WriteMiniBatch_buffer (w : t) (num_values : Z)
    (def_levels rep_levels : list Z) (values : list Value) : Z * t :=
  (* If the field is required and non-repeated, there are no definition levels *)
  let '(values_to_write, w) :=
    if 0 <? ColumnDescriptor.max_definition_level (descr_ w) then
      let n := for_loop num_values
                 (fun i n =>
                    if at_index def_levels i
                       =? ColumnDescriptor.max_definition_level (descr_ w)
                    then Int.int64 (n + 1) else n) 0 in
      (n, WriteDefinitionLevels w num_values def_levels)
    else
      (* Required field, write all values *)
      (num_values, w) in
  (* Not present for non-repeated fields *)
  let w :=
    if 0 <? ColumnDescriptor.max_repetition_level (descr_ w) then
      (* A row could include more than one value
         Count the occasions where we start a new row *)
      let rows := for_loop num_values
                    (fun i rows =>
                       if at_index rep_levels i =? 0 then Int.int32 (rows + 1) else rows)
                    (rows_written_ w) in
      WriteRepetitionLevels (set_rows_written_ rows w) num_values rep_levels
    else
      (* Each value is exactly one row *)
      set_rows_written_ (Int.int32 (rows_written_ w + Int.int32 num_values)) w in
  let w := WriteValues w values_to_write values in
  let w :=
    match page_statistics_ w with
    | Some s =>
        set_page_statistics_
          (Some (TypedStats_Update s values values_to_write
                   (Int.int64 (num_values - values_to_write)))) w
    | None => w
    end in
  let w := set_num_buffered_values_ (Int.int64 (num_buffered_values_ w + num_values)) w in
  let w := set_num_buffered_encoded_values_
             (Int.int64 (num_buffered_encoded_values_ w + values_to_write)) w in
  (values_to_write, w).

(** column_writer.cc:904-962 *)
Definition WriteMiniBatch (w : t) (num_values : Z)
    (def_levels rep_levels : list Z) (values : list Value) : Z * t :=
  let '(values_to_write, w) :=
    WriteMiniBatch_buffer w num_values def_levels rep_levels values in
  let w :=
    if WriterProperties.data_pagesize (properties_ w)
       <=? EstimatedDataEncodedSize (current_encoder_ w)
    then AddDataPage w else w in
  let w :=
    if has_dictionary_ w && negb (fallback_ w) then CheckDictionarySizeLimit w else w in
  (values_to_write, w).

(** column_writer.cc:1035-1059.  [&levels[offset]] is [drop offset levels]. *)
Definition WriteBatch (w : t) (num_values : Z)
    (def_levels rep_levels : list Z) (values : list Value) : t :=
  let write_batch_size := WriterProperties.write_batch_size (properties_ w) in
  let num_batches := Int.int32 (Z.quot num_values write_batch_size) in
  let num_remaining := Z.rem num_values write_batch_size in
  let '(w, value_offset) :=
    for_loop num_batches
      (fun round '(w, value_offset) =>
         let offset := round * write_batch_size in
         let '(n, w) := WriteMiniBatch w write_batch_size (drop offset def_levels)
                          (drop offset rep_levels) (drop value_offset values) in
         (w, Int.int64 (value_offset + n)))
      (w, 0) in
  (* Write the remaining values *)
  let offset := num_batches * write_batch_size in
  snd (WriteMiniBatch w num_remaining (drop offset def_levels)
         (drop offset rep_levels) (drop value_offset values)).

(** A run of [WriteMiniBatch] calls, each with its own arguments. *)
Definition WriteMiniBatches (w : t)
    (batches : list (Z * list Z * list Z * list Value)) : t :=
  fold_left (fun w '(num_values, def_levels, rep_levels, values) =>
               snd (WriteMiniBatch w num_values def_levels rep_levels values))
    batches w.

Definition rows_written (w : t) : Z := rows_written_ w.
Definition total_bytes_written (w : t) : Z := total_bytes_written_ w.
Definition total_compressed_bytes (w : t) : Z := total_compressed_bytes_ w.

(** The fields that only [WriteMiniBatch], [CheckDictionarySizeLimit] and
    [Close] assign. *)
Definition same_mode (w w' : t) : Prop :=
  metadata_ w' = metadata_ w
  /\ descr_ w' = descr_ w
  /\ has_dictionary_ w' = has_dictionary_ w
  /\ encoding_ w' = encoding_ w
  /\ properties_ w' = properties_ w
  /\ rows_written_ w' = rows_written_ w
  /\ closed_ w' = closed_ w
  /\ fallback_ w' = fallback_ w.

(** What the call of [Close] that closes has done when it reaches
    [pager_->Close]: the dictionary page is out if the writer was still
    dictionary-encoding, the buffered pages are flushed, and the chunk
    statistics are installed if a row was written and they are set. *)
Definition before_pager_close (w : t) : t :=
  let w := set_closed_ true w in
  let w := if has_dictionary_ w && negb (fallback_ w) then WriteDictionaryPage w else w in
  let w := FlushBufferedDataPages w in
  let chunk_statistics :=
    set_is_signed
      (ApplyStatSizeLimits (GetChunkStatistics w)
         (WriterProperties.max_statistics_size (properties_ w)))
      (SortOrder.eqb SortOrder.SIGNED (ColumnDescriptor.sort_order (descr_ w))) in
  if (0 <? rows_written_ w) && is_set chunk_statistics
  then set_metadata_ (ColumnChunkMetaDataBuilder.SetStatistics (metadata_ w)
                        chunk_statistics) w
  else w.

End Writer.
End ColumnWriter.

(** ** SerializedFile::ParseMetaData (file_reader.cc:53-57, 231-487) *)

Module SerializedFile.

(** How a call ends: it returns, it throws [ParquetException], or it reads
    outside a buffer, which C++ leaves undefined. *)
Inductive result (A : Type) :=
| Ok (a : A)
| ParquetException (msg : string)
| OutOfBounds (offset length : Z).
Arguments Ok {A} a.
Arguments ParquetException {A} msg.
Arguments OutOfBounds {A} offset length.

Definition bind {A B : Type} (r : result A) (k : A -> result B) : result B :=
  match r with
  | Ok a => k a
  | ParquetException msg => ParquetException msg
  | OutOfBounds o l => OutOfBounds o l
  end.

Notation "x <- r ;; k" := (bind r (fun x => k))
  (at level 61, r at next level, right associativity).
Notation "' pat <- r ;; k" := (bind r (fun x => match x with pat => k end))
  (at level 61, pat pattern, r at next level, right associativity).

Definition throws {A : Type} (r : result A) : Prop :=
  exists msg, r = ParquetException msg.

Definition kDefaultFooterReadSize : Z := 64 * 1024.
Definition kFooterSize : Z := 8.

(** Modelled from the spec: the magic constants of parquet/file_writer.h,
    "PAR1 for unencrypted or plaintext-footer files, PARE for
    encrypted-footer files". *)
Definition kParquetMagic : list byte := [x50; x41; x52; x31].
Definition kParquetEMagic : list byte := [x50; x41; x52; x45].

(** [std::string::compare(...) == 0] *)
Fixpoint bytes_eqb (a b : list byte) : bool :=
  match a, b with
  | [], [] => true
  | x :: a, y :: b => Byte.eqb x y && bytes_eqb a b
  | _, _ => false
  end.

(** [memcmp(a, b, n) == 0] for buffers holding at least [n] bytes. *)
Definition memcmp_eq (a b : list byte) (n : Z) : bool :=
  forallb (fun i => Byte.eqb (nth i a x00) (nth i b x00)) (seq 0 (Z.to_nat n)).

(** Modelled from the spec: [SliceBuffer] of arrow/buffer.h, the view of
    [length] bytes at [offset] through which step 5 of the spec's
    ParseMetaData takes the footer out of the tail it has read.  A view that
    leaves the parent buffer is not checked by the C++ and has no defined
    contents. *)
Definition SliceBuffer (buffer : list byte) (offset length : Z) : result (list byte) :=
  if (0 <=? offset) && (offset + length <=? len buffer)
  then Ok (take length (drop offset buffer))
  else OutOfBounds offset length.

(** The tail window [ParseMetaData] reads. *)
Definition tail (source : list byte) : list byte :=
  let file_size := len source in
  let footer_read_size := Z.min file_size kDefaultFooterReadSize in
  ReadAt source (file_size - footer_read_size) footer_read_size.

Section Reader.
Context {env : Env}.

Record t := {
  file_metadata_ : format.FileMetaData;
  file_decryptor_ : option InternalFileDecryptor.t
}.

(** [FileMetaData::Make] (metadata.cc:681-692, 484-502): the metadata and the
    number of bytes the Thrift message took. *)
Definition FileMetaData_Make (metadata : list byte)
    (decryptor : option InternalFileDecryptor.t) : result (format.FileMetaData * Z) :=
  match DeserializeThriftMsg_FileMetaData metadata decryptor with
  | Some r => Ok r
  | None => ParquetException "Couldn't deserialize thrift"
  end.

(** file_reader.cc:331-358 *)
Definition ParseUnencryptedFileMetadata (source : list byte) (footer_buffer : list byte)
    (footer_read_size file_size : Z)
  : result (format.FileMetaData * list byte * Z * Z) :=
  let metadata_len := SafeLoadAs_uint32 footer_buffer (footer_read_size - kFooterSize) in
  let metadata_start := file_size - kFooterSize - metadata_len in
  if file_size <? Int.uint32 (kFooterSize + metadata_len) then
    ParquetException "Invalid parquet file. File is less than file metadata size."
  else
    metadata_buffer <-
      (* Check if the footer_buffer contains the entire metadata *)
      (if Int.uint32 (metadata_len + kFooterSize) <=? footer_read_size then
         SliceBuffer footer_buffer (footer_read_size - metadata_len - kFooterSize)
           metadata_len
       else
         let b := ReadAt source metadata_start metadata_len in
         if negb (len b =? metadata_len) then
           ParquetException "Invalid parquet file. Could not read metadata bytes."
         else Ok b) ;;
    ' (file_metadata, read_metadata_len) <- FileMetaData_Make metadata_buffer None ;;
    Ok (file_metadata, metadata_buffer, metadata_len, read_metadata_len).

(** file_reader.cc:447-487 *)
Definition HandleAadPrefix (file_decryption_properties : FileDecryptionProperties.t)
    (algo : format.EncryptionAlgorithm) : result (list byte) :=
  let aad_prefix_in_properties := FileDecryptionProperties.aad_prefix file_decryption_properties in
  let is_empty (l : list byte) := match l with [] => true | _ => false end in
  let file_has_aad_prefix := negb (is_empty (format.aad_prefix algo)) in
  let aad_prefix_in_file := format.aad_prefix algo in
  if format.supply_aad_prefix algo && is_empty aad_prefix_in_properties then
    ParquetException
      ("AAD prefix used for file encryption, but not stored in file "
       ++ "and not supplied in decryption properties")
  else
    aad_prefix <-
      (if file_has_aad_prefix then
         if negb (is_empty aad_prefix_in_properties)
            && negb (bytes_eqb aad_prefix_in_properties aad_prefix_in_file)
         then ParquetException "AAD Prefix in file and in properties is not the same"
         else
           match FileDecryptionProperties.aad_prefix_verifier file_decryption_properties with
           | Some verify =>
               match verify aad_prefix_in_file with
               | Some msg => ParquetException msg
               | None => Ok aad_prefix_in_file
               end
           | None => Ok aad_prefix_in_file
           end
       else
         if negb (format.supply_aad_prefix algo) && negb (is_empty aad_prefix_in_properties)
         then ParquetException
                "AAD Prefix set in decryption properties, but was not used for file encryption"
         else
           match FileDecryptionProperties.aad_prefix_verifier file_decryption_properties with
           | Some _ =>
               ParquetException
                 "AAD Prefix Verifier is set, but AAD Prefix not found in file"
           | None => Ok aad_prefix_in_properties
           end) ;;
    Ok (aad_prefix ++ format.aad_file_unique algo).

(** file_reader.cc:361-415 *)
Definition ParseMetaDataOfEncryptedFileWithEncryptedFooter
    (file_decryption_properties : option FileDecryptionProperties.t)
    (source footer_buffer : list byte) (footer_read_size file_size : Z) : result t :=
  (* encryption with encrypted footer
     both metadata & crypto metadata length *)
  let footer_len := SafeLoadAs_uint32 footer_buffer (footer_read_size - kFooterSize) in
  let crypto_metadata_start := file_size - kFooterSize - footer_len in
  if file_size <? Int.uint32 (kFooterSize + footer_len) then
    ParquetException "Invalid parquet file. File is less than file metadata size."
  else
    crypto_metadata_buffer <-
      (* Check if the footer_buffer contains the entire metadata *)
      (if Int.uint32 (footer_len + kFooterSize) <=? footer_read_size then
         SliceBuffer footer_buffer (footer_read_size - footer_len - kFooterSize) footer_len
       else
         let b := ReadAt source crypto_metadata_start footer_len in
         if negb (len b =? footer_len) then
           ParquetException "Invalid parquet file. Could not read metadata bytes."
         else Ok b) ;;
    match file_decryption_properties with
    | None =>
        ParquetException
          "No decryption properties are provided. Could not read encrypted footer metadata"
    | Some props =>
        ' (file_crypto_metadata, crypto_metadata_len) <-
          match DeserializeThriftMsg_FileCryptoMetaData crypto_metadata_buffer with
          | Some r => Ok r
          | None => ParquetException "Couldn't deserialize thrift"
          end ;;
        (* Handle AAD prefix *)
        let algo := format.fc_encryption_algorithm file_crypto_metadata in
        file_aad <- HandleAadPrefix props algo ;;
        let file_decryptor :=
          {| InternalFileDecryptor.properties := props;
             InternalFileDecryptor.file_aad := file_aad;
             InternalFileDecryptor.algorithm := format.algorithm algo;
             InternalFileDecryptor.footer_key_metadata :=
               format.fc_key_metadata file_crypto_metadata |} in
        let metadata_offset :=
          file_size - kFooterSize - footer_len + crypto_metadata_len in
        let metadata_len := Int.uint32 (footer_len - crypto_metadata_len) in
        let metadata_buffer := ReadAt source metadata_offset metadata_len in
        if negb (len metadata_buffer =? metadata_len) then
          ParquetException
            "Invalid encrypted parquet file. Could not read footer metadata bytes."
        else
          ' (file_metadata, _) <- FileMetaData_Make metadata_buffer (Some file_decryptor) ;;
          Ok {| file_metadata_ := file_metadata; file_decryptor_ := Some file_decryptor |}
    end.

(** file_reader.cc:417-445 *)
Definition ParseMetaDataOfEncryptedFileWithPlaintextFooter
    (file_metadata : format.FileMetaData)
    (file_decryption_properties : option FileDecryptionProperties.t)
    (metadata_buffer : list byte) (metadata_len read_metadata_len : Z)
  : result (option InternalFileDecryptor.t) :=
  (* Providing decryption properties in plaintext footer mode is not mendatory, for
     example when reading by legacy reader. *)
  match file_decryption_properties, format.encryption_algorithm file_metadata with
  | Some props, Some algo =>
      (* Handle AAD prefix *)
      file_aad <- HandleAadPrefix props algo ;;
      let file_decryptor :=
        {| InternalFileDecryptor.properties := props;
           InternalFileDecryptor.file_aad := file_aad;
           InternalFileDecryptor.algorithm := format.algorithm algo;
           InternalFileDecryptor.footer_key_metadata :=
             format.footer_signing_key_metadata file_metadata |} in
      if FileDecryptionProperties.check_plaintext_footer_integrity props then
        if negb (Int.uint32 (metadata_len - read_metadata_len) =? 28) then
          ParquetException "Invalid parquet file. Cannot verify plaintext mode footer."
        else if negb (VerifySignature file_metadata file_decryptor
                        (drop read_metadata_len metadata_buffer)) then
          ParquetException "Invalid parquet file. Could not verify plaintext footer metadata"
        else Ok (Some file_decryptor)
      else Ok (Some file_decryptor)
  | _, _ => Ok None
  end.

(** file_reader.cc:231-300.  [parquet_encryption] tells whether the build
    defines PARQUET_ENCRYPTION; [source] is the whole file. *)
Definition ParseMetaData (parquet_encryption : bool)
    (file_decryption_properties : option FileDecryptionProperties.t)
    (source : list byte) : result t :=
  let file_size := len source in
  if file_size =? 0 then
    ParquetException "Invalid Parquet file size is 0 bytes"
  else if file_size <? kFooterSize then
    ParquetException "Invalid Parquet file size is smaller than standard file footer"
  else
    let footer_read_size := Z.min file_size kDefaultFooterReadSize in
    let footer_buffer := ReadAt source (file_size - footer_read_size) footer_read_size in
    let magic := drop (footer_read_size - 4) footer_buffer in
    (* Check if all bytes are read. Check if last 4 bytes read have the magic bits *)
    if negb (len footer_buffer =? footer_read_size)
       || (negb (memcmp_eq magic kParquetMagic 4)
           && negb (memcmp_eq magic kParquetEMagic 4)) then
      ParquetException "Invalid parquet file. Corrupt footer."
    else if negb parquet_encryption then
      if memcmp_eq magic kParquetEMagic 4 then
        ParquetException
          "Encrypted parquet file. Should build with parquet encryption support."
      else
        ' (file_metadata, _, _, _) <-
          ParseUnencryptedFileMetadata source footer_buffer footer_read_size file_size ;;
        Ok {| file_metadata_ := file_metadata; file_decryptor_ := None |}
    else if memcmp_eq magic kParquetMagic 4 then
      (* No encryption or encryption with plaintext footer mode. *)
      ' (file_metadata, metadata_buffer, metadata_len, read_metadata_len) <-
        ParseUnencryptedFileMetadata source footer_buffer footer_read_size file_size ;;
      if negb (FileMetaData.is_encryption_algorithm_set file_metadata) then
        (* Non encrypted file. *)
        match file_decryption_properties with
        | Some props =>
            if negb (FileDecryptionProperties.plaintext_files_allowed props) then
              ParquetException "Applying decryption properties on plaintext file"
            else Ok {| file_metadata_ := file_metadata; file_decryptor_ := None |}
        | None => Ok {| file_metadata_ := file_metadata; file_decryptor_ := None |}
        end
      else
        (* Encrypted file with plaintext footer mode. *)
        file_decryptor <-
          ParseMetaDataOfEncryptedFileWithPlaintextFooter file_metadata
            file_decryption_properties metadata_buffer metadata_len read_metadata_len ;;
        Ok {| file_metadata_ := file_metadata; file_decryptor_ := file_decryptor |}
    else
      (* Encrypted file with Encrypted footer. *)
      ParseMetaDataOfEncryptedFileWithEncryptedFooter file_decryption_properties
        source footer_buffer footer_read_size file_size.

End Reader.
End SerializedFile.

(** ** The pages of a chunk, as the page writer sees them *)

Module Chunk.
Section Pages.
Context {env : Env}.

Inductive page :=
| Dictionary (p : DictionaryPage.t)
| Data (p : CompressedDataPage.t).

Definition write_page (w : SerializedPageWriter.t) (p : page)
  : SerializedPageWriter.written :=
  match p with
  | Dictionary d => SerializedPageWriter.WriteDictionaryPage' w d
  | Data d => SerializedPageWriter.WriteDataPage' w d
  end.

(** The calls [Write...Page] for [pages] in order: what each call produced,
    and the writer after the last. *)
Fixpoint write_pages (w : SerializedPageWriter.t) (pages : list page)
  : list SerializedPageWriter.written * SerializedPageWriter.t :=
  match pages with
  | [] => ([], w)
  | p :: pages =>
      let r := write_page w p in
      let '(rs, w') := write_pages (SerializedPageWriter.after r) pages in
      (r :: rs, w')
  end.

(** The size of the page payload before compression, as the caller hands it over. *)
Definition uncompressed_size (p : page) : Z :=
  match p with
  | Dictionary d => DictionaryPage.size d
  | Data d => CompressedDataPage.uncompressed_size d
  end.

Definition sum (f : SerializedPageWriter.written -> Z)
    (rs : list SerializedPageWriter.written) : Z :=
  fold_right (fun r acc => f r + acc) 0 rs.

(** The totals read as the sum of the page sizes the headers carry, without
    the headers themselves. *)
Definition totals_are_page_sizes (w : SerializedPageWriter.t) (pages : list page)
  : Prop :=
  let rs := fst (write_pages w pages) in
  let w' := snd (write_pages w pages) in
  SerializedPageWriter.total_uncompressed_size_ w'
  = sum (fun r => format.uncompressed_page_size (SerializedPageWriter.page_header r)) rs
  /\ SerializedPageWriter.total_compressed_size_ w'
     = sum (fun r => format.compressed_page_size (SerializedPageWriter.page_header r)) rs.

(** [data_page_offset_] read as the sink position at the first
    [WriteDataPage] call of a run. *)
Definition data_page_offset_is_first_position (w : SerializedPageWriter.t)
    (pages : list CompressedDataPage.t) : Prop :=
  SerializedPageWriter.data_page_offset_ (snd (write_pages w (map Data pages)))
  = Tell (SerializedPageWriter.sink_ w).

End Pages.
End Chunk.

(** ** A small instance of [Env]

    One byte per value and per level, a five-byte page header, a codec that
    prefixes one byte, a cipher that adds 12 + 16 bytes.  It is used to run
    the model on concrete inputs. *)

Module Sample.

Record encoder := {
  is_dict : bool;
  pending : list Z;
  dictionary : list Z
}.

Definition put (e : encoder) (values : list Z) (n : Z) : encoder :=
  {| is_dict := is_dict e;
     pending := pending e ++ take n values;
     dictionary := if is_dict e then dictionary e ++ take n values else dictionary e |}.

Definition flush (e : encoder) : list byte * encoder :=
  (map byte_of_Z (pending e),
   {| is_dict := is_dict e; pending := []; dictionary := dictionary e |}).

Definition write_header (h : format.PageHeader) : list byte :=
  [ x15; byte_of_Z (format.uncompressed_page_size h);
    x15; byte_of_Z (format.compressed_page_size h); x00 ].

Definition file_metadata (bytes : list byte) : option (format.FileMetaData * Z) :=
  match bytes with
  | [] => None
  | b :: _ =>
      Some ({| format.version := Z_of_byte b; format.num_rows := 0;
               format.created_by := None; format.encryption_algorithm := None;
               format.footer_signing_key_metadata := [] |}, len bytes)
  end.

Definition file_crypto_metadata (bytes : list byte)
  : option (format.FileCryptoMetaData * Z) :=
  match bytes with
  | [] => None
  | _ :: _ =>
      Some ({| format.fc_encryption_algorithm :=
                 {| format.algorithm := format.AES_GCM_V1; format.aad_prefix := [];
                    format.aad_file_unique := [x01]; format.supply_aad_prefix := false |};
               format.fc_key_metadata := [] |}, 1)
  end.

Definition env : Env :=
  {| Value := Z;
     Encoder := encoder;
     MakeEncoder := fun _ use_dictionary =>
       {| is_dict := use_dictionary; pending := []; dictionary := [] |};
     Put := put;
     FlushValues := flush;
     EstimatedDataEncodedSize := fun e => len (pending e);
     dict_encoded_size := fun e => len (dictionary e);
     num_entries := fun e => len (dictionary e);
     WriteDict := fun e => map byte_of_Z (dictionary e);
     RleEncoder_encode := fun _ _ levels => map byte_of_Z levels;
     RleEncoder_MaxBufferSize := fun _ n => n;
     RleEncoder_MinBufferSize := fun _ => 8;
     Codec := unit;
     GetCodecFromArrow := fun c =>
       match c with Compression.UNCOMPRESSED => None | _ => Some tt end;
     Codec_Compress := fun _ data => x01 :: data;
     TypedStats := Z;
     EncodedStatistics := Z;
     TypedStats_Make := fun _ => 0;
     TypedStats_Update := fun s _ n _ => s + n;
     TypedStats_Merge := fun chunk page => chunk + page;
     TypedStats_Reset := fun _ => 0;
     TypedStats_Encode := fun s => s;
     EncodedStatistics_default := 0;
     is_set := fun s => 0 <? s;
     ApplyStatSizeLimits := fun s _ => s;
     set_is_signed := fun s _ => s;
     ToThrift_Statistics := fun s =>
       {| format.max := None; format.min := None; format.null_count := Some 0;
          format.distinct_count := Some s; format.max_value := None;
          format.min_value := None |};
     sizeof_PageHeader := 72;
     write_PageHeader := write_header;
     write_ColumnChunk := fun _ => [x00];
     write_ColumnMetaData := fun _ => [x00];
     DeserializeThriftMsg_FileMetaData := fun bytes _ => file_metadata bytes;
     DeserializeThriftMsg_FileCryptoMetaData := file_crypto_metadata;
     Encryptor_CiphertextSizeDelta := fun _ => 28;
     Encryptor_Encrypt := fun _ plaintext =>
       repeat x00 12 ++ plaintext ++ repeat x00 16;
     CreateModuleAad := fun aad _ _ _ _ => aad;
     QuickUpdatePageAad := fun aad _ => aad;
     VerifySignature := fun _ _ _ => true |}.

Definition properties : WriterProperties.t :=
  {| WriterProperties.version := ParquetVersion.PARQUET_1_0;
     WriterProperties.data_pagesize := 4;
     WriterProperties.dictionary_pagesize_limit := 3;
     WriterProperties.write_batch_size := 2;
     WriterProperties.max_statistics_size := 4096;
     WriterProperties.dictionary_enabled := true;
     WriterProperties.statistics_enabled := true;
     WriterProperties.encoding := Encoding.PLAIN;
     WriterProperties.compression := Compression.UNCOMPRESSED;
     WriterProperties.dictionary_index_encoding := Encoding.PLAIN_DICTIONARY;
     WriterProperties.dictionary_page_encoding := Encoding.PLAIN_DICTIONARY;
     WriterProperties.column_encryption_properties := None;
     WriterProperties.file_encryption_properties := None |}.

Definition plain_properties : WriterProperties.t :=
  {| WriterProperties.version := ParquetVersion.PARQUET_1_0;
     WriterProperties.data_pagesize := 4;
     WriterProperties.dictionary_pagesize_limit := 3;
     WriterProperties.write_batch_size := 2;
     WriterProperties.max_statistics_size := 4096;
     WriterProperties.dictionary_enabled := false;
     WriterProperties.statistics_enabled := true;
     WriterProperties.encoding := Encoding.PLAIN;
     WriterProperties.compression := Compression.UNCOMPRESSED;
     WriterProperties.dictionary_index_encoding := Encoding.PLAIN_DICTIONARY;
     WriterProperties.dictionary_page_encoding := Encoding.PLAIN_DICTIONARY;
     WriterProperties.column_encryption_properties := None;
     WriterProperties.file_encryption_properties := None |}.

(** An optional, repeated INT32 leaf: D = 2, R = 1. *)
Definition column : ColumnDescriptor.t :=
  {| ColumnDescriptor.physical_type := Type_.INT32;
     ColumnDescriptor.max_definition_level := 2;
     ColumnDescriptor.max_repetition_level := 1;
     ColumnDescriptor.sort_order := SortOrder.SIGNED;
     ColumnDescriptor.path := ["a"%string; "b"%string] |}.

(** A twelve-byte file: four bytes, footer length 0xFFFFFFFF, magic PAR1. *)
Definition overlong_footer : list byte :=
  [x00; x00; x00; x00; xff; xff; xff; xff; x50; x41; x52; x31].

(** The four magic bytes every file starts with. *)
Definition file_start : list byte := [x50; x41; x52; x31].

Definition writer (props : WriterProperties.t) (buffered_row_group : bool)
  : @ColumnWriter.t env :=
  @ColumnWriter.Make env
    (ColumnChunkMetaDataBuilder.Make props column)
    (@PageWriter.Open env file_start (WriterProperties.compression props) 0 0
       buffered_row_group None None)
    props.

Definition data_page (payload : list byte) (n : Z) : @CompressedDataPage.t env :=
  {| CompressedDataPage.buffer := payload;
     CompressedDataPage.num_values := n;
     CompressedDataPage.encoding := Encoding.PLAIN;
     CompressedDataPage.definition_level_encoding := Encoding.RLE;
     CompressedDataPage.repetition_level_encoding := Encoding.RLE;
     CompressedDataPage.uncompressed_size := len payload;
     CompressedDataPage.statistics := @EncodedStatistics_default env |}.


(** The sample writer with one mini-batch of three values in its encoder:
    three levels buffered, three dictionary entries, nothing on the sink. *)
Definition three_values : @ColumnWriter.t env :=
  snd (@ColumnWriter.WriteMiniBatch_buffer env (writer properties false)
         3 [2; 2; 2] [0; 0; 0] [1; 2; 3]).

End Sample.

(** ** Statistics in their Thrift form (thrift.h:147-170) *)

(** Modelled from the spec: [EncodedStatistics] of parquet/statistics.h, the
    "min, max, null_count, distinct_count" a page or a chunk has accumulated,
    each behind its [has_] flag, and the flag telling that the sort order is
    SIGNED. *)
Module EncodedStatistics.

Record t := {
  has_min : bool;
  has_max : bool;
  has_null_count : bool;
  has_distinct_count : bool;
  min : list byte;
  max : list byte;
  null_count : Z;
  distinct_count : Z;
  is_signed : bool
}.

Definition set_min_value (v : list byte) (s : format.Statistics) : format.Statistics :=
  {| format.max := format.max s; format.min := format.min s;
     format.null_count := format.null_count s;
     format.distinct_count := format.distinct_count s;
     format.max_value := format.max_value s; format.min_value := Some v |}.

Definition set_max_value (v : list byte) (s : format.Statistics) : format.Statistics :=
  {| format.max := format.max s; format.min := format.min s;
     format.null_count := format.null_count s;
     format.distinct_count := format.distinct_count s;
     format.max_value := Some v; format.min_value := format.min_value s |}.

Definition set_min (v : list byte) (s : format.Statistics) : format.Statistics :=
  {| format.max := format.max s; format.min := Some v;
     format.null_count := format.null_count s;
     format.distinct_count := format.distinct_count s;
     format.max_value := format.max_value s; format.min_value := format.min_value s |}.

Definition set_max (v : list byte) (s : format.Statistics) : format.Statistics :=
  {| format.max := Some v; format.min := format.min s;
     format.null_count := format.null_count s;
     format.distinct_count := format.distinct_count s;
     format.max_value := format.max_value s; format.min_value := format.min_value s |}.

Definition set_null_count (v : Z) (s : format.Statistics) : format.Statistics :=
  {| format.max := format.max s; format.min := format.min s;
     format.null_count := Some v;
     format.distinct_count := format.distinct_count s;
     format.max_value := format.max_value s; format.min_value := format.min_value s |}.

Definition set_distinct_count (v : Z) (s : format.Statistics) : format.Statistics :=
  {| format.max := format.max s; format.min := format.min s;
     format.null_count := format.null_count s;
     format.distinct_count := Some v;
     format.max_value := format.max_value s; format.min_value := format.min_value s |}.

(** thrift.h:147-170 *)
Definition ToThrift (stats : t) : format.Statistics :=
  let statistics := format.default_Statistics in
  let statistics :=
    if has_min stats then
      let statistics := set_min_value (min stats) statistics in
      (* If the order is SIGNED, then the old min value must be set too.
         This for backward compatibility *)
      if is_signed stats then set_min (min stats) statistics else statistics
    else statistics in
  let statistics :=
    if has_max stats then
      let statistics := set_max_value (max stats) statistics in
      (* If the order is SIGNED, then the old max value must be set too.
         This for backward compatibility *)
      if is_signed stats then set_max (max stats) statistics else statistics
    else statistics in
  let statistics :=
    if has_null_count stats then set_null_count (null_count stats) statistics
    else statistics in
  if has_distinct_count stats then set_distinct_count (distinct_count stats) statistics
  else statistics.

End EncodedStatistics.

(** ** ApplicationVersion (metadata.h:56-107, metadata.cc:45-64, 821-927)

    The version as the four-argument constructor builds it; the constructor
    that parses a [created_by] string with regular expressions is not
    embedded. *)

Module ApplicationVersion.

Record t := {
  application_ : string;
  major : Z;
  minor : Z;
  patch : Z
}.

(** metadata.cc:45-64 *)
Definition PARQUET_251_FIXED_VERSION : t :=
  {| application_ := "parquet-mr"; major := 1; minor := 8; patch := 0 |}.

Definition PARQUET_816_FIXED_VERSION : t :=
  {| application_ := "parquet-mr"; major := 1; minor := 2; patch := 9 |}.

Definition PARQUET_CPP_FIXED_STATS_VERSION : t :=
  {| application_ := "parquet-cpp"; major := 1; minor := 3; patch := 0 |}.

Definition PARQUET_MR_FIXED_STATS_VERSION : t :=
  {| application_ := "parquet-mr"; major := 1; minor := 10; patch := 0 |}.

(** metadata.cc:867-877 *)
Definition VersionLt (v other_version : t) : bool :=
  if negb (String.eqb (application_ v) (application_ other_version)) then false
  else if major v <? major other_version then true
  else if major v >? major other_version then false
  else if minor v <? minor other_version then true
  else if minor v >? minor other_version then false
  else patch v <? patch other_version.

(** metadata.cc:879-884 *)
Definition VersionEq (v other_version : t) : bool :=
  String.eqb (application_ v) (application_ other_version)
  && (major v =? major other_version)
  && (minor v =? minor other_version)
  && (patch v =? patch other_version).

(** metadata.cc:889-927.  Reference:
    parquet-mr/parquet-column/src/main/java/org/apache/parquet/CorruptStatistics.java *)
Definition HasCorrectStatistics (v : t) (col_type : Type_.type)
    (statistics : EncodedStatistics.t) (sort_order : SortOrder.type) : bool :=
  let rest :=
    (* created_by is not populated, which could have been caused by
       parquet-mr during the same time as PARQUET-251, see PARQUET-297 *)
    if String.eqb (application_ v) "unknown" then true
    (* Unknown sort order has incorrect stats *)
    else if SortOrder.eqb SortOrder.UNKNOWN sort_order then false
    (* PARQUET-251 *)
    else if VersionLt v PARQUET_251_FIXED_VERSION then false
    else true in
  (* parquet-cpp version 1.3.0 and parquet-mr 1.10.0 onwards stats are computed
     correctly for all types *)
  if (String.eqb (application_ v) "parquet-cpp"
      && VersionLt v PARQUET_CPP_FIXED_STATS_VERSION)
     || (String.eqb (application_ v) "parquet-mr"
         && VersionLt v PARQUET_MR_FIXED_STATS_VERSION)
  then
    (* Only SIGNED are valid unless max and min are the same
       (in which case the sort order does not matter) *)
    let max_equals_min :=
      if EncodedStatistics.has_min statistics && EncodedStatistics.has_max statistics
      then SerializedFile.bytes_eqb (EncodedStatistics.min statistics)
             (EncodedStatistics.max statistics)
      else false in
    if negb (SortOrder.eqb SortOrder.SIGNED sort_order) && negb max_equals_min then false
    (* Statistics of other types are OK *)
    else
      match col_type with
      | Type_.FIXED_LEN_BYTE_ARRAY | Type_.BYTE_ARRAY => rest
      | _ => true
      end
  else rest.

End ApplicationVersion.

(** ** ColumnChunkMetaDataImpl, the reader's view of a chunk
       (metadata.cc:168-332), with PARQUET_ENCRYPTION *)

Module ColumnChunkMetaDataImpl.
Import SerializedFile.

Record t := {
  column_ : format.ColumnChunk;
  decrypted_metadata_ : format.ColumnMetaData;
  descr_ : ColumnDescriptor.t;
  writer_version_ : ApplicationVersion.t;
  is_metadata_set_ : bool
}.

(** metadata.cc:171-218.  [file_decryptor] is [None] when the pointer or its
    properties are null; otherwise it is what the column-metadata decryptor
    and [DeserializeThriftMsg] make of [encrypted_column_metadata], [None]
    when the message cannot be read. *)
Definition Make (column : format.ColumnChunk) (descr : ColumnDescriptor.t)
    (writer_version : ApplicationVersion.t)
    (file_decryptor : option (list byte -> option format.ColumnMetaData)) : result t :=
  let c (decrypted : format.ColumnMetaData) (is_metadata_set : bool) :=
    {| column_ := column; decrypted_metadata_ := decrypted; descr_ := descr;
       writer_version_ := writer_version; is_metadata_set_ := is_metadata_set |} in
  match format.crypto_metadata column with
  | Some (format.ENCRYPTION_WITH_COLUMN_KEY _ _) =>
      (* column metadata is encrypted *)
      match file_decryptor with
      | Some decrypt =>
          (* should decrypt metadata *)
          let encrypted :=
            match format.encrypted_column_metadata column with
            | Some e => e
            | None => []
            end in
          match decrypt encrypted with
          | Some decrypted => Ok (c decrypted true)
          | None => ParquetException "Couldn't deserialize thrift"
          end
      | None => Ok (c format.default_ColumnMetaData false)
      end
  | _ => Ok (c format.default_ColumnMetaData true)
  end.

(** metadata.cc:312-331 *)
Definition GetMetadataIfSet (c : t) : result format.ColumnMetaData :=
  match format.crypto_metadata (column_ c) with
  | Some (format.ENCRYPTION_WITH_COLUMN_KEY _ _) =>
      if negb (is_metadata_set_ c) then
        ParquetException
          "Cannot decrypt ColumnMetadata. FileDecryptionProperties must be provided."
      else Ok (decrypted_metadata_ c)
  | _ => Ok (format.meta_data (column_ c))
  end.

Definition file_offset (c : t) : Z := format.file_offset (column_ c).

Definition is_metadata_set (c : t) : bool := is_metadata_set_ c.

Definition type (c : t) : result Type_.type :=
  m <- GetMetadataIfSet c ;; Ok (format.cm_type m).

Definition num_values (c : t) : result Z :=
  m <- GetMetadataIfSet c ;; Ok (format.num_values m).

(** metadata.cc:238-252.  [encodedStatistics] is what
    [possible_stats_->Encode()] returns for the statistics in the metadata;
    it is asked for only where the C++ asks. *)
Definition is_stats_set (c : t) (encodedStatistics : EncodedStatistics.t) : result bool :=
  (* If the column statistics don't exist or column sort order is unknown
     we cannot use the column stats *)
  meta_data <- GetMetadataIfSet c ;;
  if negb (format.isset_statistics meta_data)
     || SortOrder.eqb (ColumnDescriptor.sort_order (descr_ c)) SortOrder.UNKNOWN
  then Ok false
  else
    col_type <- type c ;;
    Ok (ApplicationVersion.HasCorrectStatistics (writer_version_ c) col_type
          encodedStatistics (ColumnDescriptor.sort_order (descr_ c))).

Definition has_dictionary_page (c : t) : result bool :=
  m <- GetMetadataIfSet c ;; Ok (format.isset_dictionary_page_offset m).

Definition dictionary_page_offset (c : t) : result Z :=
  m <- GetMetadataIfSet c ;; Ok (format.dictionary_page_offset m).

Definition data_page_offset (c : t) : result Z :=
  m <- GetMetadataIfSet c ;; Ok (format.data_page_offset m).

Definition has_index_page (c : t) : result bool :=
  m <- GetMetadataIfSet c ;; Ok (format.isset_index_page_offset m).

Definition index_page_offset (c : t) : result Z :=
  m <- GetMetadataIfSet c ;; Ok (format.index_page_offset m).

Definition total_compressed_size (c : t) : result Z :=
  m <- GetMetadataIfSet c ;; Ok (format.total_compressed_size m).

Definition total_uncompressed_size (c : t) : result Z :=
  m <- GetMetadataIfSet c ;; Ok (format.total_uncompressed_size m).

Definition crypto_metadata (c : t) : option format.ColumnCryptoMetaData :=
  format.crypto_metadata (column_ c).

End ColumnChunkMetaDataImpl.

(** ** SerializedRowGroup::GetColumnPageReader (file_reader.cc:60, 109-132):
       the byte range of the file it opens for a column chunk *)

Module SerializedRowGroup.
Import SerializedFile.

Definition kMaxDictHeaderSize : Z := 100.

(** file_reader.cc:113-132: the [col_start] and [col_length] handed to
    [properties_.GetStream]; [col] is the chunk's metadata, [version] the
    file's writer version and [source] the file. *)
Definition GetColumnPageReader (col : ColumnChunkMetaDataImpl.t)
    (version : ApplicationVersion.t) (source : list byte) : result (Z * Z) :=
  col_start <- ColumnChunkMetaDataImpl.data_page_offset col ;;
  has_dictionary_page <- ColumnChunkMetaDataImpl.has_dictionary_page col ;;
  dictionary_page_offset <- ColumnChunkMetaDataImpl.dictionary_page_offset col ;;
  let col_start :=
    if has_dictionary_page && (0 <? dictionary_page_offset)
       && (dictionary_page_offset <? col_start)
    then dictionary_page_offset else col_start in
  col_length <- ColumnChunkMetaDataImpl.total_compressed_size col ;;
  (* PARQUET-816 workaround for old files created by older parquet-mr *)
  let col_length :=
    if ApplicationVersion.VersionLt version ApplicationVersion.PARQUET_816_FIXED_VERSION
    then
      (* The Parquet MR writer had a bug in 1.2.8 and below where it didn't include the
         dictionary page header size in total_compressed_size and total_uncompressed_size
         (see IMPALA-694). We add padding to compensate. *)
      let size := len source in
      let bytes_remaining := Int.int64 (size - Int.int64 (col_start + col_length)) in
      let padding := Z.min kMaxDictHeaderSize bytes_remaining in
      Int.int64 (col_length + padding)
    else col_length in
  Ok (col_start, col_length).

End SerializedRowGroup.

(** ** RowGroupMetaDataBuilder (metadata.cc:1136-1229)

    [row_group_->columns[i]] is the very [format::ColumnChunk] the [i]-th
    column builder writes to, so the model reads it as the builder's
    [column_chunk_]; the columns past [current_column_] are still the
    default-constructed chunks [InitializeColumns] made.  The schema is its
    list of leaf columns. *)

Module RowGroupMetaDataBuilder.
Import SerializedFile.

Record t := {
  properties_ : WriterProperties.t;
  schema_ : list ColumnDescriptor.t;
  column_builders_ : list ColumnChunkMetaDataBuilder.t;
  current_column_ : Z;
  rg_num_rows : Z;
  rg_file_offset : Z;
  rg_total_compressed_size : Z;
  rg_total_byte_size : Z;
  rg_ordinal : option Z
}.

Definition Make (props : WriterProperties.t) (schema : list ColumnDescriptor.t) : t :=
  {| properties_ := props; schema_ := schema; column_builders_ := [];
     current_column_ := 0; rg_num_rows := 0; rg_file_offset := 0;
     rg_total_compressed_size := 0; rg_total_byte_size := 0; rg_ordinal := None |}.

Definition num_columns (b : t) : Z := len (schema_ b).

Definition current_column (b : t) : Z := current_column_ b.

Definition num_rows (b : t) : Z := rg_num_rows b.

Definition set_num_rows (b : t) (num_rows : Z) : t :=
  {| properties_ := properties_ b; schema_ := schema_ b;
     column_builders_ := column_builders_ b; current_column_ := current_column_ b;
     rg_num_rows := num_rows; rg_file_offset := rg_file_offset b;
     rg_total_compressed_size := rg_total_compressed_size b;
     rg_total_byte_size := rg_total_byte_size b; rg_ordinal := rg_ordinal b |}.

(** [row_group_->columns[i]], for [0 <= i < num_columns()]. *)
Definition columns (b : t) (i : Z) : format.ColumnChunk :=
  match nth_error (column_builders_ b) (Z.to_nat i) with
  | Some cb => ColumnChunkMetaDataBuilder.column_chunk_ cb
  | None => format.default_ColumnChunk
  end.

Definition to_string (z : Z) : string := NilZero.string_of_int (Z.to_int z).

(** metadata.cc:1150-1162: the builder handed out and the row group builder
    afterwards. *)
Definition NextColumnChunk (b : t) : result (ColumnChunkMetaDataBuilder.t * t) :=
  if negb (current_column_ b <? num_columns b) then
    ParquetException
      ("The schema only has " ++ to_string (num_columns b)
       ++ " columns, requested metadata for column: " ++ to_string (current_column_ b))
  else
    match nth_error (schema_ b) (Z.to_nat (current_column_ b)) with
    | None => OutOfBounds (current_column_ b) 1
    | Some column =>
        let column_builder :=
          ColumnChunkMetaDataBuilder.Init (properties_ b) column
            (columns b (current_column_ b)) in
        Ok (column_builder,
            {| properties_ := properties_ b; schema_ := schema_ b;
               column_builders_ := column_builders_ b ++ [column_builder];
               current_column_ := Int.int32 (current_column_ b + 1);
               rg_num_rows := rg_num_rows b; rg_file_offset := rg_file_offset b;
               rg_total_compressed_size := rg_total_compressed_size b;
               rg_total_byte_size := rg_total_byte_size b; rg_ordinal := rg_ordinal b |})
    end.

(** The loop of [Finish] (metadata.cc:1188-1201) from column [i] on, with
    [remaining] columns to go: [file_offset] and [total_compressed_size] at
    its end. *)
Fixpoint Finish_loop (b : t) (remaining : nat) (i file_offset total_compressed_size : Z)
  : result (Z * Z) :=
  match remaining with
  | O => Ok (file_offset, total_compressed_size)
  | S remaining =>
      if negb (0 <=? format.file_offset (columns b i)) then
        ParquetException ("Column " ++ to_string i ++ " is not complete.")
      else
        let file_offset :=
          if i =? 0 then format.file_offset (columns b 0) else file_offset in
        (* sometimes column metadata is encrypted and not available to read,
           so we must get total_compressed_size from column builder *)
        match nth_error (column_builders_ b) (Z.to_nat i) with
        | None => OutOfBounds i 1
        | Some cb =>
            Finish_loop b remaining (i + 1) file_offset
              (Int.int64 (total_compressed_size
                          + ColumnChunkMetaDataBuilder.total_compressed_size cb))
        end
  end.

(** metadata.cc:1166-1208 *)
Definition Finish (b : t) (total_bytes_written row_group_ordinal : Z) : result t :=
  if negb (current_column_ b =? num_columns b) then
    ParquetException
      ("Only " ++ to_string (current_column_ b - 1) ++ " out of "
       ++ to_string (num_columns b) ++ " columns are initialized")
  else
    ' (file_offset, total_compressed_size) <-
      Finish_loop b (Z.to_nat (num_columns b)) 0 0 0 ;;
    Ok {| properties_ := properties_ b; schema_ := schema_ b;
          column_builders_ := column_builders_ b; current_column_ := current_column_ b;
          rg_num_rows := rg_num_rows b; rg_file_offset := file_offset;
          rg_total_compressed_size := total_compressed_size;
          rg_total_byte_size := total_bytes_written;
          rg_ordinal := Some row_group_ordinal |}.

(** [NextColumnChunk] called [n] times in a row. *)
Fixpoint NextColumnChunks (b : t) (n : nat) : result t :=
  match n with
  | O => Ok b
  | S n => ' (_, b) <- NextColumnChunk b ;; NextColumnChunks b n
  end.

End RowGroupMetaDataBuilder.
(** ** FileMetaDataBuilder::Finish (metadata.cc:1262-1345)

    [format.EncryptionAlgorithm] is the Thrift union as [FromThrift]
    (thrift.h:106-119) reads it, so [ToThrift] (thrift.h:172-203) is the
    identity on it: an empty prefix is left unset and reads back empty.
    Key/value metadata, column orders and the schema are not embedded. *)

Module FileMetaDataBuilder.

(** [created_by_], [algorithm_] and [footer_key_metadata_] are what
    [properties_->created_by()], [file_encryption_properties->algorithm()]
    and [file_encryption_properties->footer_key_metadata()] return;
    [row_groups_] holds the row group behind each builder [AppendRowGroup]
    handed out. *)
Record t := {
  properties_ : WriterProperties.t;
  schema_ : list ColumnDescriptor.t;
  created_by_ : string;
  algorithm_ : format.EncryptionAlgorithm;
  footer_key_metadata_ : list byte;
  row_groups_ : list RowGroupMetaDataBuilder.t
}.

(** metadata.cc:1278-1283 *)
Definition AppendRowGroup (b : t) : RowGroupMetaDataBuilder.t * t :=
  let current_row_group_builder := RowGroupMetaDataBuilder.Make (properties_ b) (schema_ b) in
  (current_row_group_builder,
   {| properties_ := properties_ b; schema_ := schema_ b; created_by_ := created_by_ b;
      algorithm_ := algorithm_ b; footer_key_metadata_ := footer_key_metadata_ b;
      row_groups_ := row_groups_ b ++ [current_row_group_builder] |}).

(** metadata.cc:1285-1345 *)
Definition Finish (b : t) : format.FileMetaData :=
  let total_rows :=
    fold_left (fun total_rows row_group =>
                 Int.int64 (total_rows + RowGroupMetaDataBuilder.rg_num_rows row_group))
      (row_groups_ b) 0 in
  let file_version :=
    match WriterProperties.version (properties_ b) with
    | ParquetVersion.PARQUET_1_0 => 1
    | ParquetVersion.PARQUET_2_0 => 2
    end in
  let '(encryption_algorithm, footer_signing_key_metadata) :=
    (* if plaintext footer, set footer signing algorithm *)
    match WriterProperties.file_encryption_properties (properties_ b) with
    | Some file_encryption_properties =>
        if negb (FileEncryptionProperties.encrypted_footer file_encryption_properties) then
          let algo := algorithm_ b in
          let signing_algorithm :=
            {| format.algorithm := format.AES_GCM_V1;
               format.aad_prefix :=
                 if negb (format.supply_aad_prefix algo) then format.aad_prefix algo
                 else [];
               format.aad_file_unique := format.aad_file_unique algo;
               format.supply_aad_prefix := format.supply_aad_prefix algo |} in
          (Some signing_algorithm,
           if 0 <? len (footer_key_metadata_ b) then footer_key_metadata_ b else [])
        else (None, [])
    | None => (None, [])
    end in
  {| format.version := file_version; format.num_rows := total_rows;
     format.created_by := Some (created_by_ b);
     format.encryption_algorithm := encryption_algorithm;
     format.footer_signing_key_metadata := footer_signing_key_metadata |}.

End FileMetaDataBuilder.

(** ** FileMetaDataImpl::WriteTo (metadata.cc:568-598), with PARQUET_ENCRYPTION *)

Module FileMetaDataImpl.
Section Writer.
Context {env : Env}.

(** [metadata_->write(protocol)] of the Thrift compact protocol. *)
Variable write_FileMetaData : format.FileMetaData -> list byte.

Definition kNonceLength : Z := 12.
Definition kGcmTagLength : Z := 16.

(** The stream after the call; [None] where the C++ dereferences the null
    [encryptor] or reads or writes outside [encrypted_data]. *)
Definition WriteTo (metadata_ : format.FileMetaData) (dst : list byte)
    (encryptor : option Encryptor.t) : option (list byte) :=
  (* Only in encrypted files with plaintext footers the
     encryption_algorithm is set in footer *)
  if FileMetaData.is_encryption_algorithm_set metadata_ then
    match encryptor with
    | None => None
    | Some e =>
        let serialized_data := write_FileMetaData metadata_ in
        let serialized_len := Int.uint32 (len serialized_data) in
        (* encrypt the footer key *)
        let size := Int.uint32 (Encryptor_CiphertextSizeDelta e + serialized_len) in
        let '(n, ciphertext) := Encryptor_run e serialized_data serialized_len in
        let encrypted_len := Int.uint32 n in
        if (len ciphertext <=? size) && (4 + kNonceLength <=? size)
           && (kGcmTagLength <=? encrypted_len) && (encrypted_len <=? size) then
          let encrypted_data := ciphertext ++ repeat x00 (Z.to_nat (size - len ciphertext)) in
          (* write unencrypted footer *)
          let dst := Write dst serialized_data serialized_len in
          (* Write signature (nonce and tag) *)
          let dst := Write dst (drop 4 encrypted_data) kNonceLength in
          Some (Write dst (drop (encrypted_len - kGcmTagLength) encrypted_data)
                  kGcmTagLength)
        else None
    end
  else
    (* either plaintext file (when encryptor is null)
       or encrypted file with encrypted footer *)
    Some (snd (Serialize write_FileMetaData metadata_ dst encryptor)).

End Writer.
End FileMetaDataImpl.
(** ** The pages of a chunk through the buffering page writer *)

Module BufferedChunk.
Section Pages.
Context {env : Env}.

Definition write_page (b : BufferedPageWriter.t) (p : Chunk.page)
  : Z * BufferedPageWriter.t :=
  match p with
  | Chunk.Dictionary d => BufferedPageWriter.WriteDictionaryPage b d
  | Chunk.Data d => BufferedPageWriter.WriteDataPage b d
  end.

(** The calls [Write...Page] for [pages] in order: the value each call
    returned, and the writer after the last. *)
Fixpoint write_pages (b : BufferedPageWriter.t) (pages : list Chunk.page)
  : list Z * BufferedPageWriter.t :=
  match pages with
  | [] => ([], b)
  | p :: pages =>
      let '(n, b) := write_page b p in
      let '(ns, b') := write_pages b pages in
      (n :: ns, b')
  end.

(** The data pages among [pages]. *)
Definition data_pages (pages : list Chunk.page) : list CompressedDataPage.t :=
  flat_map (fun p => match p with Chunk.Data d => [d] | Chunk.Dictionary _ => [] end) pages.

(** Two page writers that differ in the stream they write to, [s] being
    [prefix] ahead of [p], and in the page offsets they recorded. *)
Definition same_but_stream (prefix : list byte) (s p : SerializedPageWriter.t) : Prop :=
  SerializedPageWriter.sink_ s = prefix ++ SerializedPageWriter.sink_ p
  /\ SerializedPageWriter.num_values_ s = SerializedPageWriter.num_values_ p
  /\ SerializedPageWriter.total_uncompressed_size_ s
     = SerializedPageWriter.total_uncompressed_size_ p
  /\ SerializedPageWriter.total_compressed_size_ s
     = SerializedPageWriter.total_compressed_size_ p
  /\ SerializedPageWriter.page_ordinal_ s = SerializedPageWriter.page_ordinal_ p
  /\ SerializedPageWriter.row_group_ordinal_ s = SerializedPageWriter.row_group_ordinal_ p
  /\ SerializedPageWriter.column_ordinal_ s = SerializedPageWriter.column_ordinal_ p
  /\ SerializedPageWriter.compressor_ s = SerializedPageWriter.compressor_ p
  /\ SerializedPageWriter.data_pageAAD_ s = SerializedPageWriter.data_pageAAD_ p
  /\ SerializedPageWriter.data_page_headerAAD_ s
     = SerializedPageWriter.data_page_headerAAD_ p
  /\ SerializedPageWriter.meta_encryptor_ s = SerializedPageWriter.meta_encryptor_ p
  /\ SerializedPageWriter.data_encryptor_ s = SerializedPageWriter.data_encryptor_ p.

End Pages.
End BufferedChunk.
(** ** Sample inputs for the reader, the row group and the footer *)

Module SampleFile.

Definition dictionary_page : DictionaryPage.t :=
  {| DictionaryPage.buffer := [x07; x08]; DictionaryPage.num_values := 2;
     DictionaryPage.encoding := Encoding.PLAIN; DictionaryPage.is_sorted := false |}.

(** A dictionary page and two data pages. *)
Definition pages : list (@Chunk.page Sample.env) :=
  [Chunk.Dictionary dictionary_page;
   Chunk.Data (Sample.data_page [x01; x02; x03] 3);
   Chunk.Data (Sample.data_page [x04] 1)].

(** A page writer about to start a chunk right after the magic bytes. *)
Definition page_writer : @SerializedPageWriter.t Sample.env :=
  @SerializedPageWriter.Make Sample.env Sample.file_start Compression.UNCOMPRESSED
    0 0 None None.

Definition version (application : string) (major minor patch : Z) : ApplicationVersion.t :=
  {| ApplicationVersion.application_ := application; ApplicationVersion.major := major;
     ApplicationVersion.minor := minor; ApplicationVersion.patch := patch |}.

(** The reader's view of an unencrypted chunk with metadata [md]. *)
Definition chunk (md : format.ColumnMetaData) (v : ApplicationVersion.t)
  : ColumnChunkMetaDataImpl.t :=
  {| ColumnChunkMetaDataImpl.column_ := format.set_meta_data md format.default_ColumnChunk;
     ColumnChunkMetaDataImpl.decrypted_metadata_ := format.default_ColumnMetaData;
     ColumnChunkMetaDataImpl.descr_ := Sample.column;
     ColumnChunkMetaDataImpl.writer_version_ := v;
     ColumnChunkMetaDataImpl.is_metadata_set_ := true |}.

(** Metadata of a chunk with a dictionary page at 4, data pages from 11 and
    21 bytes in all. *)
Definition metadata : format.ColumnMetaData :=
  format.set_total_compressed_size 21
    (format.set_isset_dictionary_page_offset true
       (format.set_dictionary_page_offset 4
          (format.set_data_page_offset 11 format.default_ColumnMetaData))).


Definition statistics : EncodedStatistics.t :=
  {| EncodedStatistics.has_min := true; EncodedStatistics.has_max := true;
     EncodedStatistics.has_null_count := false;
     EncodedStatistics.has_distinct_count := false;
     EncodedStatistics.min := [x01]; EncodedStatistics.max := [x02];
     EncodedStatistics.null_count := 0; EncodedStatistics.distinct_count := 0;
     EncodedStatistics.is_signed := true |}.

(** A column builder whose chunk ends at [file_offset] and holds [total]
    compressed bytes. *)
Definition column_builder (file_offset total : Z) : ColumnChunkMetaDataBuilder.t :=
  ColumnChunkMetaDataBuilder.with_chunk
    (ColumnChunkMetaDataBuilder.Make Sample.plain_properties Sample.column)
    (format.set_file_offset file_offset
       (format.set_meta_data
          (format.set_total_compressed_size total format.default_ColumnMetaData)
          format.default_ColumnChunk)).

(** A row group builder of two columns, both handed out and finished. *)
Definition row_group : RowGroupMetaDataBuilder.t :=
  {| RowGroupMetaDataBuilder.properties_ := Sample.plain_properties;
     RowGroupMetaDataBuilder.schema_ := [Sample.column; Sample.column];
     RowGroupMetaDataBuilder.column_builders_ := [column_builder 25 21; column_builder 40 15];
     RowGroupMetaDataBuilder.current_column_ := 2;
     RowGroupMetaDataBuilder.rg_num_rows := 3;
     RowGroupMetaDataBuilder.rg_file_offset := 0;
     RowGroupMetaDataBuilder.rg_total_compressed_size := 0;
     RowGroupMetaDataBuilder.rg_total_byte_size := 0;
     RowGroupMetaDataBuilder.rg_ordinal := None |}.

(** Writer properties of a file encrypted with a plaintext footer, the
    column encrypted with the footer key or not at all. *)
Definition signed_properties (column_encrypted : bool) : WriterProperties.t :=
  {| WriterProperties.version := ParquetVersion.PARQUET_2_0;
     WriterProperties.data_pagesize := 4;
     WriterProperties.dictionary_pagesize_limit := 3;
     WriterProperties.write_batch_size := 2;
     WriterProperties.max_statistics_size := 4096;
     WriterProperties.dictionary_enabled := false;
     WriterProperties.statistics_enabled := true;
     WriterProperties.encoding := Encoding.PLAIN;
     WriterProperties.compression := Compression.UNCOMPRESSED;
     WriterProperties.dictionary_index_encoding := Encoding.PLAIN_DICTIONARY;
     WriterProperties.dictionary_page_encoding := Encoding.PLAIN_DICTIONARY;
     WriterProperties.column_encryption_properties :=
       if column_encrypted then
         Some {| ColumnEncryptionProperties.is_encrypted := true;
                 ColumnEncryptionProperties.is_encrypted_with_footer_key := true;
                 ColumnEncryptionProperties.key_metadata := [] |}
       else None;
     WriterProperties.file_encryption_properties :=
       Some {| FileEncryptionProperties.encrypted_footer := false |} |}.

(** The file builder of such a file, its AAD prefix to be supplied by the
    reader. *)
Definition file_builder : FileMetaDataBuilder.t :=
  {| FileMetaDataBuilder.properties_ := signed_properties false;
     FileMetaDataBuilder.schema_ := [Sample.column];
     FileMetaDataBuilder.created_by_ := "parquet-cpp version 1.5.1-SNAPSHOT";
     FileMetaDataBuilder.algorithm_ :=
       {| format.algorithm := format.AES_GCM_CTR_V1; format.aad_prefix := [x0a; x0b];
          format.aad_file_unique := [x01]; format.supply_aad_prefix := true |};
     FileMetaDataBuilder.footer_key_metadata_ := [];
     FileMetaDataBuilder.row_groups_ := [] |}.

Definition decryption_properties : FileDecryptionProperties.t :=
  {| FileDecryptionProperties.aad_prefix := [x0a; x0b];
     FileDecryptionProperties.aad_prefix_verifier := None;
     FileDecryptionProperties.plaintext_files_allowed := false;
     FileDecryptionProperties.check_plaintext_footer_integrity := true |}.

Definition encryptor : Encryptor.t :=
  {| Encryptor.key_ := [x00]; Encryptor.file_aad_ := [x0a; x0b; x01]; Encryptor.aad_ := [] |}.

(** A stand-in for the Thrift serialization of the file metadata. *)
Definition write_FileMetaData (m : format.FileMetaData) : list byte :=
  [byte_of_Z (format.version m); x00; x00; x00].

(** A nine-byte file: a one-byte footer, footer length 1, magic PAR1. *)
Definition small_file : list byte :=
  [x01; x01; x00; x00; x00; x50; x41; x52; x31].

End SampleFile.

(** * Properties *)

(** ** Integer conversions *)

Lemma wrap_small (bits z : Z) :
  0 < bits -> - 2 ^ (bits - 1) <= z < 2 ^ (bits - 1) -> Int.wrap bits z = z.
Proof.
  intros Hb Hz. unfold Int.wrap.
  assert (E : 2 ^ bits = 2 * 2 ^ (bits - 1)).
  { replace bits with (Z.succ (bits - 1)) at 1 by lia.
    rewrite Z.pow_succ_r by lia. reflexivity. }
  rewrite Z.mod_small; lia.
Qed.

Lemma int32_small z : Int.in_int32 z -> Int.int32 z = z.
Proof. intros H. apply wrap_small; [lia | exact H]. Qed.

Lemma int64_small z : Int.in_int64 z -> Int.int64 z = z.
Proof. intros H. apply wrap_small; [lia | exact H]. Qed.

Lemma wrap_add_l (bits a b : Z) :
  0 < bits -> Int.wrap bits (Int.wrap bits a + b) = Int.wrap bits (a + b).
Proof.
  intros Hb. unfold Int.wrap.
  assert (P : 0 < 2 ^ bits) by (apply Z.pow_pos_nonneg; lia).
  f_equal.
  replace ((a + 2 ^ (bits - 1)) mod 2 ^ bits - 2 ^ (bits - 1) + b + 2 ^ (bits - 1))
    with ((a + 2 ^ (bits - 1)) mod 2 ^ bits + b) by lia.
  rewrite Zplus_mod_idemp_l. f_equal. lia.
Qed.

Lemma int64_add_l a b : Int.int64 (Int.int64 a + b) = Int.int64 (a + b).
Proof. apply wrap_add_l; lia. Qed.

Lemma wrap_idem bits a : 0 < bits -> Int.wrap bits (Int.wrap bits a) = Int.wrap bits a.
Proof.
  intros Hb. replace (Int.wrap bits a) with (Int.wrap bits a + 0) at 1 by lia.
  rewrite wrap_add_l by lia. f_equal. lia.
Qed.

Lemma int32_idem a : Int.int32 (Int.int32 a) = Int.int32 a.
Proof. apply wrap_idem; lia. Qed.

Lemma wrap_range (bits z : Z) :
  0 < bits -> - 2 ^ (bits - 1) <= Int.wrap bits z < 2 ^ (bits - 1).
Proof.
  intros Hb. unfold Int.wrap.
  assert (E : 2 ^ bits = 2 * 2 ^ (bits - 1)).
  { replace bits with (Z.succ (bits - 1)) at 1 by lia.
    rewrite Z.pow_succ_r by lia. reflexivity. }
  assert (P : 0 < 2 ^ (bits - 1)) by (apply Z.pow_pos_nonneg; lia).
  pose proof (Z.mod_pos_bound (z + 2 ^ (bits - 1)) (2 ^ bits)). lia.
Qed.

Lemma int64_range z : Int.in_int64 (Int.int64 z).
Proof. apply (wrap_range 64); lia. Qed.

Lemma int32_range z : Int.in_int32 (Int.int32 z).
Proof. apply (wrap_range 32); lia. Qed.

(** ** Lists as buffers *)

Lemma len_nonneg {A} (l : list A) : 0 <= len l.
Proof. unfold len. lia. Qed.

Lemma len_app {A} (l1 l2 : list A) : len (l1 ++ l2) = len l1 + len l2.
Proof. unfold len. rewrite length_app. lia. Qed.

Lemma take_all {A} (l : list A) n : len l <= n -> take n l = l.
Proof. unfold take, len. intros H. apply firstn_all2. lia. Qed.

Lemma take_app_exact {A} (l1 l2 : list A) : take (len l1) (l1 ++ l2) = l1.
Proof.
  unfold take, len. rewrite Nat2Z.id.
  rewrite firstn_app, Nat.sub_diag, firstn_all. simpl. apply app_nil_r.
Qed.

Lemma drop_app_exact {A} (l1 l2 : list A) : drop (len l1) (l1 ++ l2) = l2.
Proof.
  unfold drop, len. rewrite Nat2Z.id.
  rewrite skipn_app, Nat.sub_diag, skipn_all. reflexivity.
Qed.

Lemma len_take {A} (l : list A) n : 0 <= n <= len l -> len (take n l) = n.
Proof. unfold take, len. intros H. rewrite length_firstn. lia. Qed.

(** Claim C9.  [EncryptColumnMetaData] returns true exactly when the
    column's encryption properties exist and mark the column as encrypted,
    and the footer is plaintext or the column is not encrypted with the
    footer key. *)
Theorem EncryptColumnMetaData_iff (encrypted_footer : bool)
    (column_encryption_properties : option ColumnEncryptionProperties.t) :
  Encryptor.EncryptColumnMetaData encrypted_footer column_encryption_properties = true
  <-> exists p,
        column_encryption_properties = Some p
        /\ ColumnEncryptionProperties.is_encrypted p = true
        /\ (encrypted_footer = false
            \/ ColumnEncryptionProperties.is_encrypted_with_footer_key p = false).
Proof.
  unfold Encryptor.EncryptColumnMetaData. split.
  - destruct column_encryption_properties as [p|]; [|discriminate].
    destruct (ColumnEncryptionProperties.is_encrypted p) eqn:He; simpl; [|discriminate].
    destruct encrypted_footer; simpl; intros H.
    + exists p. repeat split; auto. right. now apply negb_true_iff.
    + exists p. repeat split; auto.
  - intros (p & -> & He & [Hf | Hk]); rewrite He; simpl.
    + now rewrite Hf.
    + destruct encrypted_footer; simpl; [now rewrite Hk | reflexivity].
Qed.

(** Claim C10.  [FileMetaData::version] is total: it is PARQUET_2_0 exactly
    when the stored version is 2, and PARQUET_1_0 for every other stored
    value. *)
Theorem version_total (m : format.FileMetaData) :
  FileMetaData.version m
  = (if format.version m =? 2 then ParquetVersion.PARQUET_2_0
     else ParquetVersion.PARQUET_1_0)
  /\ (FileMetaData.version m = ParquetVersion.PARQUET_2_0 <-> format.version m = 2).
Proof.
  unfold FileMetaData.version, FileMetaData.impl_version.
  destruct (format.version m) as [|p|p].
  - split; [reflexivity | split; discriminate].
  - destruct p as [p|p|]; try destruct p; simpl;
      (split; [reflexivity | split; (discriminate || reflexivity)]).
  - split; [reflexivity | split; discriminate].
Qed.

Section Metadata.
Context {env : Env}.

Import ColumnChunkMetaDataBuilder.

(** What [Finish] leaves in the column chunk, whenever it returns. *)
Lemma Finish_fields (b b' : t)
    (num_values dictionary_page_offset index_page_offset data_page_offset
       compressed_size uncompressed_size : Z)
    (has_dictionary dictionary_fallback : bool) (encryptor : option Encryptor.t) :
  Finish b num_values dictionary_page_offset index_page_offset data_page_offset
    compressed_size uncompressed_size has_dictionary dictionary_fallback encryptor
  = Some b' ->
  let c := column_chunk_ b in
  let c' := column_chunk_ b' in
  ColumnChunkMetaData.file_offset c'
  = Int.int64 ((if 0 <? dictionary_page_offset then dictionary_page_offset
                else data_page_offset) + compressed_size)
  /\ ColumnChunkMetaData.has_dictionary_page c'
     = (0 <? dictionary_page_offset) || ColumnChunkMetaData.has_dictionary_page c
  /\ ColumnChunkMetaData.dictionary_page_offset c'
     = (if 0 <? dictionary_page_offset then dictionary_page_offset
        else ColumnChunkMetaData.dictionary_page_offset c)
  /\ ColumnChunkMetaData.data_page_offset c' = data_page_offset
  /\ ColumnChunkMetaData.total_compressed_size c' = compressed_size
  /\ ColumnChunkMetaData.total_uncompressed_size c' = uncompressed_size.
Proof.
  unfold Finish. intros H.
  destruct (0 <? dictionary_page_offset) eqn:Hd;
    destruct (0 <=? index_page_offset);
    destruct (WriterProperties.column_encryption_properties (properties_ b)) as [e|];
    try destruct (ColumnEncryptionProperties.is_encrypted e);
    try destruct (WriterProperties.file_encryption_properties (properties_ b)) as [f|];
    try destruct (FileEncryptionProperties.encrypted_footer f);
    try destruct (ColumnEncryptionProperties.is_encrypted_with_footer_key e);
    try destruct encryptor as [k|];
    cbn in H;
    try discriminate H;
    try destruct (Encryptor_run _ _ _);
    inversion H; subst b'; cbn; repeat split; reflexivity.
Qed.

(** [Finish] returns unless it needs a pointer that is null. *)
Lemma Finish_returns (b : t)
    (num_values dictionary_page_offset index_page_offset data_page_offset
       compressed_size uncompressed_size : Z)
    (has_dictionary dictionary_fallback : bool) (encryptor : option Encryptor.t) :
  WriterProperties.column_encryption_properties (properties_ b) = None
  \/ (WriterProperties.file_encryption_properties (properties_ b) <> None
      /\ encryptor <> None) ->
  exists b',
    Finish b num_values dictionary_page_offset index_page_offset data_page_offset
      compressed_size uncompressed_size has_dictionary dictionary_fallback encryptor
    = Some b'.
Proof.
  unfold Finish. intros H.
  destruct (0 <? dictionary_page_offset);
    destruct (0 <=? index_page_offset);
    destruct (WriterProperties.column_encryption_properties (properties_ b)) as [e|];
    try destruct (ColumnEncryptionProperties.is_encrypted e);
    try destruct (WriterProperties.file_encryption_properties (properties_ b)) as [f|];
    try destruct (FileEncryptionProperties.encrypted_footer f);
    try destruct (ColumnEncryptionProperties.is_encrypted_with_footer_key e);
    try destruct encryptor as [k|];
    cbn;
    try destruct (Encryptor_run _ _ _);
    try (eexists; reflexivity);
    destruct H as [H | [H1 H2]]; congruence.
Qed.

(** Claim C1.  For a column chunk whose builder is fresh, once [Finish]
    returns the [file_offset] it installed is the dictionary page offset if
    the chunk metadata has a dictionary page, else the data page offset,
    plus the total compressed size; that is, [dictionary_page_offset +
    compressed_size] when [dictionary_page_offset > 0] and [data_page_offset
    + compressed_size] otherwise.  [Finish] returns whenever the column is
    not encrypted or the encryptor and the file encryption properties are
    there; the sums are taken within [int64_t]. *)
Theorem Finish_file_offset (props : WriterProperties.t) (column : ColumnDescriptor.t)
    (num_values dictionary_page_offset index_page_offset data_page_offset
       compressed_size uncompressed_size : Z)
    (has_dictionary dictionary_fallback : bool) (encryptor : option Encryptor.t) :
  WriterProperties.column_encryption_properties props = None
  \/ (WriterProperties.file_encryption_properties props <> None /\ encryptor <> None) ->
  Int.in_int64 (dictionary_page_offset + compressed_size) ->
  Int.in_int64 (data_page_offset + compressed_size) ->
  exists b',
    Finish (Make props column) num_values dictionary_page_offset index_page_offset
      data_page_offset compressed_size uncompressed_size has_dictionary
      dictionary_fallback encryptor = Some b'
    /\ let c := column_chunk_ b' in
       ColumnChunkMetaData.file_offset c
       = (if ColumnChunkMetaData.has_dictionary_page c
          then ColumnChunkMetaData.dictionary_page_offset c
          else ColumnChunkMetaData.data_page_offset c)
         + ColumnChunkMetaData.total_compressed_size c
       /\ ColumnChunkMetaData.file_offset c
          = (if 0 <? dictionary_page_offset
             then dictionary_page_offset + compressed_size
             else data_page_offset + compressed_size).
Proof.
  intros Hp Hd Ha.
  destruct (Finish_returns (Make props column) num_values dictionary_page_offset
              index_page_offset data_page_offset compressed_size uncompressed_size
              has_dictionary dictionary_fallback encryptor Hp) as [b' Hb].
  exists b'. split; [exact Hb|].
  destruct (Finish_fields _ _ _ _ _ _ _ _ _ _ _ Hb) as (Hf & Hh & Ho & Hq & Hc & _).
  cbn zeta. rewrite Hf, Hh, Ho, Hq, Hc.
  change (ColumnChunkMetaData.has_dictionary_page (column_chunk_ (Make props column)))
    with false.
  rewrite orb_false_r.
  destruct (0 <? dictionary_page_offset); rewrite int64_small by assumption; auto.
Qed.

End Metadata.

Section Footer.
Context {env : Env}.
Import SerializedFile.

(** Claim C2, at the input where the code leaves it.  The twelve-byte file
    [00 00 00 00 FF FF FF FF 'P' 'A' 'R' '1'] ends in the magic PAR1 and
    its footer length 4294967295 plus 8 exceeds the file size, yet
    [ParseMetaData] does not throw: [kFooterSize + metadata_len] is a
    [uint32_t] sum and wraps to 7, so the check passes and the footer is
    sliced out of the tail at offset -4294967291. *)
Theorem ParseMetaData_footer_length_wraps (parquet_encryption : bool)
    (file_decryption_properties : option FileDecryptionProperties.t) :
  let footer_length := SafeLoadAs_uint32 Sample.overlong_footer (len Sample.overlong_footer - 8) in
  footer_length + 8 > len Sample.overlong_footer
  /\ drop (len Sample.overlong_footer - 4) Sample.overlong_footer = kParquetMagic
  /\ ParseMetaData parquet_encryption file_decryption_properties Sample.overlong_footer
     = OutOfBounds (-4294967291) 4294967295.
Proof.
  cbv zeta. split; [vm_compute; reflexivity|]. split; [reflexivity|].
  destruct parquet_encryption; vm_compute; reflexivity.
Qed.

Lemma Z_of_byte_range b : 0 <= Z_of_byte b < 256.
Proof.
  unfold Z_of_byte. pose proof (Byte.to_N_bounded b) as H.
  split; [apply N2Z.is_nonneg|].
  change 256 with (Z.of_N 256). apply N2Z.inj_lt. lia.
Qed.

Lemma SafeLoadAs_uint32_range data off : 0 <= SafeLoadAs_uint32 data off < 2 ^ 32.
Proof.
  unfold SafeLoadAs_uint32.
  pose proof (Z_of_byte_range (nth (Z.to_nat (off + 0)) data x00)).
  pose proof (Z_of_byte_range (nth (Z.to_nat (off + 1)) data x00)).
  pose proof (Z_of_byte_range (nth (Z.to_nat (off + 2)) data x00)).
  pose proof (Z_of_byte_range (nth (Z.to_nat (off + 3)) data x00)).
  rewrite !Z.shiftl_mul_pow2 by lia.
  change (2 ^ 8) with 256. change (2 ^ 16) with 65536.
  change (2 ^ 24) with 16777216. change (2 ^ 32) with 4294967296. lia.
Qed.

Lemma tail_eq source :
  tail source = drop (len source - Z.min (len source) kDefaultFooterReadSize) source.
Proof.
  unfold tail, ReadAt. apply take_all.
  unfold drop, len. rewrite length_skipn.
  unfold kDefaultFooterReadSize. lia.
Qed.

Lemma len_tail source : len (tail source) = Z.min (len source) kDefaultFooterReadSize.
Proof.
  rewrite tail_eq. unfold drop, len. rewrite length_skipn.
  unfold kDefaultFooterReadSize. lia.
Qed.

Lemma drop_tail source k :
  0 <= k <= Z.min (len source) kDefaultFooterReadSize ->
  drop (Z.min (len source) kDefaultFooterReadSize - k) (tail source)
  = drop (len source - k) source.
Proof.
  intros Hk. rewrite tail_eq. unfold drop. rewrite skipn_skipn. f_equal.
  unfold len in *. unfold kDefaultFooterReadSize in *. lia.
Qed.

Lemma nth_drop (l : list byte) n i :
  0 <= n -> nth i (drop n l) x00 = nth (Z.to_nat n + i) l x00.
Proof. intros Hn. unfold drop. apply nth_skipn. Qed.

Lemma SafeLoadAs_tail source :
  8 <= len source ->
  SafeLoadAs_uint32 (tail source) (Z.min (len source) kDefaultFooterReadSize - kFooterSize)
  = SafeLoadAs_uint32 source (len source - 8).
Proof.
  intros H8. unfold SafeLoadAs_uint32, kFooterSize. rewrite tail_eq.
  assert (E : forall i, 0 <= i ->
    nth (Z.to_nat (Z.min (len source) kDefaultFooterReadSize - 8 + i))
      (drop (len source - Z.min (len source) kDefaultFooterReadSize) source) x00
    = nth (Z.to_nat (len source - 8 + i)) source x00).
  { intros i Hi. rewrite nth_drop by (unfold kDefaultFooterReadSize; lia).
    f_equal. unfold kDefaultFooterReadSize. unfold len in *. lia. }
  rewrite !E by lia. reflexivity.
Qed.

Lemma memcmp_eq_4 (a b : list byte) :
  len a = 4 -> len b = 4 -> memcmp_eq a b 4 = true -> a = b.
Proof.
  unfold len. intros Ha Hb.
  destruct a as [|a0 [|a1 [|a2 [|a3 [|]]]]]; simpl in Ha; try lia.
  destruct b as [|b0 [|b1 [|b2 [|b3 [|]]]]]; simpl in Hb; try lia.
  unfold memcmp_eq. simpl. rewrite !andb_true_iff.
  intros (H0 & H1 & H2 & H3 & _).
  apply Byte.byte_dec_bl in H0, H1, H2, H3. congruence.
Qed.

(** The three rejections of [ParseMetaData]: a file shorter than the fixed
    footer, a magic that is neither PAR1 nor PARE, and a footer length that
    does not fit the file.  The last is reached only while
    [footer_length + 8] fits in 32 bits: the sum is computed in [uint32_t]. *)
Lemma ParseMetaData_rejects (parquet_encryption : bool)
    (file_decryption_properties : option FileDecryptionProperties.t)
    (source : list byte) :
  let file_size := len source in
  let magic := drop (file_size - 4) source in
  let footer_length := SafeLoadAs_uint32 source (file_size - 8) in
  file_size < 8
  \/ (magic <> kParquetMagic /\ magic <> kParquetEMagic)
  \/ (footer_length + 8 > file_size /\ footer_length + 8 < 2 ^ 32) ->
  throws (ParseMetaData parquet_encryption file_decryption_properties source).
Proof.
  cbv zeta. intros H. unfold ParseMetaData.
  destruct (len source =? 0) eqn:H0; [eexists; reflexivity|].
  destruct (len source <? kFooterSize) eqn:H8; [eexists; reflexivity|].
  apply Z.eqb_neq in H0. apply Z.ltb_ge in H8. unfold kFooterSize in H8.
  fold (tail source). rewrite len_tail, Z.eqb_refl. cbn [negb orb].
  rewrite (drop_tail source 4) by (unfold kDefaultFooterReadSize; lia).
  assert (Hm : len (drop (len source - 4) source) = 4).
  { unfold drop, len in *. rewrite length_skipn. lia. }
  destruct (memcmp_eq (drop (len source - 4) source) kParquetMagic 4) eqn:M1;
    destruct (memcmp_eq (drop (len source - 4) source) kParquetEMagic 4) eqn:M2;
    cbn [negb andb];
    try (apply memcmp_eq_4 in M1; [|assumption|reflexivity]);
    try (apply memcmp_eq_4 in M2; [|assumption|reflexivity]).
  - rewrite M1 in M2. discriminate.
  - (* PAR1 *)
    assert (HL : SafeLoadAs_uint32 source (len source - 8) + 8 > len source
                 /\ SafeLoadAs_uint32 source (len source - 8) + 8 < 2 ^ 32).
    { destruct H as [H | [[H _] | H]]; [lia | contradiction | exact H]. }
    assert (T : forall A (k : _ -> result A),
      throws (bind (ParseUnencryptedFileMetadata source (tail source)
                      (Z.min (len source) kDefaultFooterReadSize) (len source)) k)).
    { intros A k. unfold ParseUnencryptedFileMetadata.
      rewrite SafeLoadAs_tail by lia.
      pose proof (SafeLoadAs_uint32_range source (len source - 8)) as R.
      unfold Int.uint32, kFooterSize. rewrite Z.mod_small by lia.
      replace (len source <? 8 + SafeLoadAs_uint32 source (len source - 8)) with true
        by (symmetry; apply Z.ltb_lt; lia).
      eexists; reflexivity. }
    destruct parquet_encryption; cbn [negb]; apply T.
  - (* PARE *)
    assert (HL : SafeLoadAs_uint32 source (len source - 8) + 8 > len source
                 /\ SafeLoadAs_uint32 source (len source - 8) + 8 < 2 ^ 32).
    { destruct H as [H | [[_ H] | H]]; [lia | contradiction | exact H]. }
    destruct parquet_encryption; cbn [negb]; [|eexists; reflexivity].
    unfold ParseMetaDataOfEncryptedFileWithEncryptedFooter.
    rewrite SafeLoadAs_tail by lia.
    pose proof (SafeLoadAs_uint32_range source (len source - 8)) as R.
    unfold Int.uint32, kFooterSize. rewrite Z.mod_small by lia.
    replace (len source <? 8 + SafeLoadAs_uint32 source (len source - 8)) with true
      by (symmetry; apply Z.ltb_lt; lia).
    eexists; reflexivity.
  - eexists; reflexivity.
Qed.

(** Every file of exactly eight bytes is rejected, provided the Thrift
    reader rejects an empty buffer and [footer_length + 8] fits in 32 bits:
    a wrong magic and a non-zero footer length are caught by the checks; with
    footer length 0 the checks pass and the empty footer reaches the Thrift
    reader. *)
Lemma ParseMetaData_eight_bytes (parquet_encryption : bool)
    (file_decryption_properties : option FileDecryptionProperties.t)
    (source : list byte) :
  len source = 8 ->
  SafeLoadAs_uint32 source 0 + 8 < 2 ^ 32 ->
  DeserializeThriftMsg_FileMetaData [] None = None ->
  DeserializeThriftMsg_FileCryptoMetaData [] = None ->
  throws (ParseMetaData parquet_encryption file_decryption_properties source).
Proof.
  intros H8 Hw HM HC.
  pose proof (SafeLoadAs_uint32_range source 0) as R.
  destruct (Z.eq_dec (SafeLoadAs_uint32 source 0) 0) as [L0 | L0].
  2:{ apply ParseMetaData_rejects. cbv zeta. rewrite H8. right. right.
      change (8 - 8) with 0. lia. }
  assert (T : tail source = source).
  { rewrite tail_eq, H8. reflexivity. }
  unfold ParseMetaData. fold (tail source). rewrite T, H8.
  change (8 =? 0) with false. change (8 <? kFooterSize) with false.
  change (Z.min 8 kDefaultFooterReadSize) with 8.
  change (negb (8 =? 8)) with false. cbv iota. cbn [orb].
  assert (U : forall A (k : _ -> result A),
    throws (bind (ParseUnencryptedFileMetadata source source 8 8) k)).
  { intros A k. unfold ParseUnencryptedFileMetadata, kFooterSize.
    change (8 - 8) with 0. rewrite L0.
    change (8 <? Int.uint32 (8 + 0)) with false.
    change (Int.uint32 (0 + 8) <=? 8) with true. cbv iota.
    unfold SliceBuffer. change (8 - 0 - 8) with 0. rewrite H8.
    change ((0 <=? 0) && (0 + 0 <=? 8)) with true. cbv iota.
    change (take 0 (drop 0 source)) with (@nil byte).
    unfold FileMetaData_Make. cbn [bind]. rewrite HM. eexists; reflexivity. }
  destruct (negb (memcmp_eq (drop (8 - 4) source) kParquetMagic 4)
            && negb (memcmp_eq (drop (8 - 4) source) kParquetEMagic 4));
    [eexists; reflexivity|].
  destruct parquet_encryption; cbn [negb].
  - destruct (memcmp_eq (drop (8 - 4) source) kParquetMagic 4); [apply U|].
    unfold ParseMetaDataOfEncryptedFileWithEncryptedFooter, kFooterSize.
    change (8 - 8) with 0. rewrite L0.
    change (8 <? Int.uint32 (8 + 0)) with false.
    change (Int.uint32 (0 + 8) <=? 8) with true. cbv iota.
    unfold SliceBuffer. change (8 - 0 - 8) with 0. rewrite H8.
    change ((0 <=? 0) && (0 + 0 <=? 8)) with true. cbv iota.
    change (take 0 (drop 0 source)) with (@nil byte).
    cbn [bind]. destruct file_decryption_properties; [|eexists; reflexivity].
    rewrite HC. eexists; reflexivity.
  - destruct (memcmp_eq (drop (8 - 4) source) kParquetEMagic 4);
      [eexists; reflexivity | apply U].
Qed.

End Footer.

Section PageWriters.
Context {env : Env}.
Import SerializedPageWriter.

Lemma same_counters_refl w : same_counters w w.
Proof. repeat split. Qed.

Lemma UpdateEncryption_counters w m : same_counters w (UpdateEncryption w m).
Proof. destruct m; repeat split. Qed.

Lemma encrypt_page_counters w m data n :
  same_counters w (snd (encrypt_page w m data n)).
Proof.
  unfold encrypt_page.
  destruct (data_encryptor_ w); [|apply same_counters_refl].
  destruct (data_encryptor_ (UpdateEncryption w m)).
  - destruct (Encryptor_run _ _ _). apply UpdateEncryption_counters.
  - apply UpdateEncryption_counters.
Qed.

Lemma encrypt_page_length w m data n :
  Int.int32 (snd (fst (encrypt_page w m data (Int.int32 n))))
  = snd (fst (encrypt_page w m data (Int.int32 n))).
Proof.
  unfold encrypt_page.
  destruct (data_encryptor_ w); [|apply int32_idem].
  destruct (data_encryptor_ (UpdateEncryption w m)); [|apply int32_idem].
  unfold Encryptor_run. cbn. apply int32_idem.
Qed.

(** Runs one page write symbolically: the encryption step is replaced by what
    it is known to keep, then the branches of the call are taken in turn. *)
Ltac page_write_counters offset :=
  match goal with
  | |- context [encrypt_page ?w ?m ?d ?n] =>
      let C := fresh "C" in
      let L := fresh "L" in
      let E0 := fresh "E" in
      let EM := fresh "E" in
      pose proof (encrypt_page_counters w m d n) as C;
      pose proof (encrypt_page_length w m d (len d)) as L;
      destruct (encrypt_page w m d n) as [[? ?] ?];
      cbn [fst snd] in *;
      destruct C as (Cs & Cn & Cd & Ca & Cu & Cc & Co);
      cbv zeta;
      destruct (offset w =? 0) eqn:E0; rewrite ?Ca, ?Cd, E0;
      cbn [meta_encryptor_ set_data_page_offset_ set_dictionary_page_offset_];
      destruct (meta_encryptor_ _) eqn:EM;
      unfold UpdateEncryption;
      cbn [meta_encryptor_ set_data_page_offset_ set_dictionary_page_offset_
           set_data_page_headerAAD_ set_meta_encryptor_ option_map sink_
           data_page_headerAAD_ page_ordinal_];
      try rewrite EM; cbn [option_map];
      destruct (Serialize _ _ _ _);
      cbn; rewrite ?Cs, ?Cu, ?Cc, ?Ca, ?Cd, ?L; repeat split; try reflexivity
  end.

(** What [WriteDataPage] does to the counters. *)
Lemma WriteDataPage_counters w page :
  let r := WriteDataPage' w page in
  format.uncompressed_page_size (page_header r)
  = Int.int32 (CompressedDataPage.uncompressed_size page)
  /\ total_uncompressed_size_ (after r)
     = Int.int64 (total_uncompressed_size_ w
                  + (CompressedDataPage.uncompressed_size page + header_size r))
  /\ total_compressed_size_ (after r)
     = Int.int64 (total_compressed_size_ w
                  + (format.compressed_page_size (page_header r) + header_size r))
  /\ data_page_offset_ (after r)
     = (if data_page_offset_ w =? 0 then Tell (sink_ w) else data_page_offset_ w)
  /\ dictionary_page_offset_ (after r) = dictionary_page_offset_ w
  /\ bytes_written r = Tell (sink_ (after r)) - Tell (sink_ w).
Proof.
  unfold WriteDataPage'. page_write_counters data_page_offset_.
Qed.

(** What [WriteDictionaryPage] does to the counters. *)
Lemma WriteDictionaryPage_counters w page :
  let r := WriteDictionaryPage' w page in
  format.uncompressed_page_size (page_header r)
  = Int.int32 (DictionaryPage.size page)
  /\ total_uncompressed_size_ (after r)
     = Int.int64 (total_uncompressed_size_ w
                  + (DictionaryPage.size page + header_size r))
  /\ total_compressed_size_ (after r)
     = Int.int64 (total_compressed_size_ w
                  + (format.compressed_page_size (page_header r) + header_size r))
  /\ data_page_offset_ (after r) = data_page_offset_ w
  /\ dictionary_page_offset_ (after r)
     = (if dictionary_page_offset_ w =? 0 then Tell (sink_ w)
        else dictionary_page_offset_ w)
  /\ bytes_written r = Tell (sink_ (after r)) - Tell (sink_ w).
Proof.
  unfold WriteDictionaryPage'. page_write_counters dictionary_page_offset_.
Qed.

(** Both page kinds add the payload size before compression plus the
    serialized header to [total_uncompressed_size_], and the bytes written
    after the header plus the header to [total_compressed_size_]. *)
Lemma write_page_totals w (p : Chunk.page) :
  let r := Chunk.write_page w p in
  format.uncompressed_page_size (page_header r) = Int.int32 (Chunk.uncompressed_size p)
  /\ total_uncompressed_size_ (after r)
     = Int.int64 (total_uncompressed_size_ w + (Chunk.uncompressed_size p + header_size r))
  /\ total_compressed_size_ (after r)
     = Int.int64 (total_compressed_size_ w
                  + (format.compressed_page_size (page_header r) + header_size r)).
Proof.
  destruct p as [d|d]; cbn [Chunk.write_page Chunk.uncompressed_size].
  - destruct (WriteDictionaryPage_counters w d) as (H1 & H2 & H3 & _). auto.
  - destruct (WriteDataPage_counters w d) as (H1 & H2 & H3 & _). auto.
Qed.

Lemma write_pages_cons w p ps :
  Chunk.write_pages w (p :: ps)
  = (Chunk.write_page w p :: fst (Chunk.write_pages (after (Chunk.write_page w p)) ps),
     snd (Chunk.write_pages (after (Chunk.write_page w p)) ps)).
Proof. cbn [Chunk.write_pages]. destruct (Chunk.write_pages _ ps). reflexivity. Qed.

Lemma write_pages_totals pages : forall w,
  Int.in_int64 (total_uncompressed_size_ w) ->
  Int.in_int64 (total_compressed_size_ w) ->
  Forall (fun p => Int.in_int32 (Chunk.uncompressed_size p)) pages ->
  let rs := fst (Chunk.write_pages w pages) in
  let w' := snd (Chunk.write_pages w pages) in
  total_uncompressed_size_ w'
  = Int.int64 (total_uncompressed_size_ w
               + Chunk.sum (fun r => format.uncompressed_page_size (page_header r)
                                     + header_size r) rs)
  /\ total_compressed_size_ w'
     = Int.int64 (total_compressed_size_ w
                  + Chunk.sum (fun r => format.compressed_page_size (page_header r)
                                        + header_size r) rs).
Proof.
  induction pages as [|p ps IH]; intros w Hu Hc HF.
  - cbn. rewrite !Z.add_0_r, !int64_small by assumption. auto.
  - inversion HF as [|? ? Hp Hps]; subst. rewrite write_pages_cons. cbn [fst snd].
    destruct (write_page_totals w p) as (Eh & Eu & Ec).
    destruct (IH (after (Chunk.write_page w p))) as [IHu IHc];
      [rewrite Eu; apply int64_range | rewrite Ec; apply int64_range | exact Hps |].
    cbv zeta in IHu, IHc. rewrite IHu, IHc, Eu, Ec. cbn [Chunk.sum fold_right].
    fold (Chunk.sum (fun r => format.uncompressed_page_size (page_header r) + header_size r)
            (fst (Chunk.write_pages (after (Chunk.write_page w p)) ps))).
    fold (Chunk.sum (fun r => format.compressed_page_size (page_header r) + header_size r)
            (fst (Chunk.write_pages (after (Chunk.write_page w p)) ps))).
    rewrite Eh, (int32_small _ Hp), !int64_add_l. split; f_equal; lia.
Qed.

(** Claim C6, amended.  After all pages of a chunk are written,
    [total_uncompressed_size_] is the sum over the pages of
    [uncompressed_page_size] plus the size of the serialized page header,
    and [total_compressed_size_] is the sum over the pages of
    [compressed_page_size] plus the size of the serialized page header: both
    totals include the page headers. *)
Theorem totals_include_page_headers (w : t) (pages : list Chunk.page) :
  let rs := fst (Chunk.write_pages w pages) in
  let w' := snd (Chunk.write_pages w pages) in
  let uncompressed :=
    Chunk.sum (fun r => format.uncompressed_page_size (page_header r) + header_size r) rs in
  let compressed :=
    Chunk.sum (fun r => format.compressed_page_size (page_header r) + header_size r) rs in
  total_uncompressed_size_ w = 0 ->
  total_compressed_size_ w = 0 ->
  Forall (fun p => Int.in_int32 (Chunk.uncompressed_size p)) pages ->
  Int.in_int64 uncompressed ->
  Int.in_int64 compressed ->
  total_uncompressed_size_ w' = uncompressed
  /\ total_compressed_size_ w' = compressed.
Proof.
  cbv zeta. intros Hu Hc HF Ru Rc.
  destruct (write_pages_totals pages w) as [Eu Ec];
    [rewrite Hu; unfold Int.in_int64; lia | rewrite Hc; unfold Int.in_int64; lia
     | exact HF |].
  cbv zeta in Eu, Ec. rewrite Eu, Ec, Hu, Hc, !Z.add_0_l.
  rewrite !int64_small by assumption. auto.
Qed.

(** [data_page_offset_] through a run of data pages. *)
Lemma data_page_offset_kept pages : forall w,
  data_page_offset_ w <> 0 ->
  data_page_offset_ (snd (Chunk.write_pages w (map Chunk.Data pages)))
  = data_page_offset_ w.
Proof.
  induction pages as [|p ps IH]; intros w H; [reflexivity|].
  cbn [map]. rewrite write_pages_cons. cbn [fst snd Chunk.write_page].
  destruct (WriteDataPage_counters w p) as (_ & _ & _ & Ho & _).
  cbv zeta in Ho. apply Z.eqb_neq in H. rewrite H in Ho.
  rewrite IH; rewrite Ho; [reflexivity | now apply Z.eqb_neq].
Qed.

Lemma data_page_offset_first (w : t) (p : CompressedDataPage.t)
    (ps : list CompressedDataPage.t) :
  data_page_offset_ w = 0 ->
  Tell (sink_ w) <> 0 ->
  data_page_offset_ (snd (Chunk.write_pages w (map Chunk.Data (p :: ps))))
  = Tell (sink_ w).
Proof.
  intros H0 Hs. cbn [map]. rewrite write_pages_cons. cbn [fst snd Chunk.write_page].
  destruct (WriteDataPage_counters w p) as (_ & _ & _ & Ho & _).
  cbv zeta in Ho. rewrite H0 in Ho. cbn in Ho.
  rewrite data_page_offset_kept; rewrite Ho; auto.
Qed.

End PageWriters.

Section Closing.
Context {env : Env}.

(** [SerializedPageWriter::Close] hands its own counters to [Finish]. *)
Lemma SerializedPageWriter_Close_file_offset (w w' : SerializedPageWriter.t)
    (metadata metadata' : ColumnChunkMetaDataBuilder.t) (has_dictionary fallback : bool) :
  SerializedPageWriter.Close w metadata has_dictionary fallback = Some (metadata', w') ->
  let c := ColumnChunkMetaDataBuilder.column_chunk_ metadata' in
  ColumnChunkMetaData.file_offset c
  = Int.int64 ((if 0 <? SerializedPageWriter.dictionary_page_offset_ w
                then SerializedPageWriter.dictionary_page_offset_ w
                else SerializedPageWriter.data_page_offset_ w)
               + SerializedPageWriter.total_compressed_size_ w)
  /\ ColumnChunkMetaData.data_page_offset c = SerializedPageWriter.data_page_offset_ w
  /\ ColumnChunkMetaData.total_compressed_size c
     = SerializedPageWriter.total_compressed_size_ w
  /\ ColumnChunkMetaData.total_uncompressed_size c
     = SerializedPageWriter.total_uncompressed_size_ w.
Proof.
  unfold SerializedPageWriter.Close. intros H.
  set (u := match SerializedPageWriter.meta_encryptor_ w with
            | Some _ => SerializedPageWriter.UpdateEncryption w encryption.kColumnMetaData
            | None => w end) in H.
  assert (C : SerializedPageWriter.same_counters w u).
  { subst u. destruct (SerializedPageWriter.meta_encryptor_ w);
      [apply UpdateEncryption_counters | apply same_counters_refl]. }
  destruct C as (Cs & Cn & Cd & Ca & Cu & Cc & Co).
  destruct (ColumnChunkMetaDataBuilder.Finish _ _ _ _ _ _ _ _ _ _) as [m|] eqn:F;
    [|discriminate].
  inversion H; subst metadata' w'.
  destruct (Finish_fields _ _ _ _ _ _ _ _ _ _ _ F) as (Hf & _ & _ & Hq & Hc & Hu).
  cbv zeta. rewrite Hf, Hq, Hc, Hu, Cd, Ca, Cu, Cc. auto.
Qed.

(** [BufferedPageWriter::Close] rebases the two page offsets by the position
    of the final sink before it calls [Finish]. *)
Lemma BufferedPageWriter_Close_rebases (b b' : BufferedPageWriter.t)
    (metadata metadata' : ColumnChunkMetaDataBuilder.t) (has_dictionary fallback : bool) :
  BufferedPageWriter.Close b metadata has_dictionary fallback = Some (metadata', b') ->
  let c := ColumnChunkMetaDataBuilder.column_chunk_ metadata' in
  let final_position := Tell (BufferedPageWriter.final_sink_ b) in
  ColumnChunkMetaData.data_page_offset c
  = Int.int64 (SerializedPageWriter.data_page_offset_ (BufferedPageWriter.pager_ b)
               + final_position)
  /\ BufferedPageWriter.final_sink_ b'
     = BufferedPageWriter.final_sink_ b
       ++ ColumnChunkMetaDataBuilder.WriteTo metadata'
            (BufferedPageWriter.in_memory_sink_ b).
Proof.
  unfold BufferedPageWriter.Close. intros H.
  destruct (ColumnChunkMetaDataBuilder.Finish _ _ _ _ _ _ _ _ _ _) as [m|] eqn:F;
    [|discriminate].
  inversion H; subst metadata' b'.
  destruct (Finish_fields _ _ _ _ _ _ _ _ _ _ _ F) as (_ & _ & _ & Hq & _).
  cbv zeta. rewrite Hq. split; [reflexivity|].
  cbn. unfold Write. f_equal. apply take_all. lia.
Qed.

(** When the first page of a run is written at sink position 0, the second
    [WriteDataPage] call finds [data_page_offset_] still 0 and overwrites it
    with its own position. *)
Lemma data_page_offset_reset_at_zero (w : SerializedPageWriter.t)
    (p1 p2 : CompressedDataPage.t) :
  SerializedPageWriter.data_page_offset_ w = 0 ->
  Tell (SerializedPageWriter.sink_ w) = 0 ->
  let w1 := SerializedPageWriter.after (SerializedPageWriter.WriteDataPage' w p1) in
  let w2 := SerializedPageWriter.after (SerializedPageWriter.WriteDataPage' w1 p2) in
  SerializedPageWriter.data_page_offset_ w2 = Tell (SerializedPageWriter.sink_ w1).
Proof.
  intros H0 HT. cbv zeta.
  destruct (WriteDataPage_counters w p1) as (_ & _ & _ & Ho & _).
  destruct (WriteDataPage_counters
              (SerializedPageWriter.after (SerializedPageWriter.WriteDataPage' w p1)) p2)
    as (_ & _ & _ & Ho2 & _).
  cbv zeta in Ho, Ho2. rewrite Ho2, Ho, H0. cbn. rewrite HT. reflexivity.
Qed.

End Closing.

(** Claim C8, at the input where the code leaves it.  A buffered page writer
    behind a file that holds the four magic bytes, and two data pages of
    three bytes each, no dictionary page.  The first [WriteDataPage] call
    sees the in-memory sink at position 0; after the second call
    [data_page_offset_] is 8, the position of the second page; [Close]
    rebases it by the final sink's position 4 and the chunk metadata says
    12, while the first data page lies at 4. *)
Theorem data_page_offset_moves_to_second_page :
  let b0 := @BufferedPageWriter.Make Sample.env Sample.file_start
              Compression.UNCOMPRESSED 0 0 None None in
  let p := Sample.data_page [x01; x02; x03] 3 in
  let b1 := snd (BufferedPageWriter.WriteDataPage b0 p) in
  let b2 := snd (BufferedPageWriter.WriteDataPage b1 p) in
  let closed := BufferedPageWriter.Close b2
                  (ColumnChunkMetaDataBuilder.Make Sample.plain_properties Sample.column)
                  false false in
  Tell (BufferedPageWriter.in_memory_sink_ b0) = 0
  /\ Tell (BufferedPageWriter.final_sink_ b0) = 4
  /\ SerializedPageWriter.data_page_offset_ (BufferedPageWriter.pager_ b1) = 0
  /\ SerializedPageWriter.data_page_offset_ (BufferedPageWriter.pager_ b2) = 8
  /\ option_map (fun r => ColumnChunkMetaData.data_page_offset
                            (ColumnChunkMetaDataBuilder.column_chunk_ (fst r))) closed
     = Some 12
  /\ ~ Chunk.data_page_offset_is_first_position (BufferedPageWriter.pager_ b0) [p; p].
Proof.
  cbv zeta. repeat split; try (vm_compute; reflexivity).
  unfold Chunk.data_page_offset_is_first_position. vm_compute. discriminate.
Qed.

(** Claim C6 as the spec states it fails: one data page of three bytes
    through a streaming writer.  The totals are 8 = 3 + 5, payload and
    header, while the page sizes in the header are 3. *)
Lemma totals_exceed_page_sizes :
  ~ Chunk.totals_are_page_sizes
      (@SerializedPageWriter.Make Sample.env Sample.file_start
         Compression.UNCOMPRESSED 0 0 None None)
      [Chunk.Data (Sample.data_page [x01; x02; x03] 3)].
Proof.
  unfold Chunk.totals_are_page_sizes. vm_compute. intros [H _]. discriminate H.
Qed.

Lemma totals_include_page_headers_witness :
  let w := @SerializedPageWriter.Make Sample.env Sample.file_start
             Compression.UNCOMPRESSED 0 0 None None in
  let pages := [Chunk.Data (Sample.data_page [x01; x02; x03] 3);
                Chunk.Data (Sample.data_page [x04] 1)] in
  SerializedPageWriter.total_uncompressed_size_ (snd (Chunk.write_pages w pages)) = 14
  /\ SerializedPageWriter.total_compressed_size_ (snd (Chunk.write_pages w pages)) = 14.
Proof.
  cbv zeta.
  refine (totals_include_page_headers
            (@SerializedPageWriter.Make Sample.env Sample.file_start
               Compression.UNCOMPRESSED 0 0 None None)
            [Chunk.Data (Sample.data_page [x01; x02; x03] 3);
             Chunk.Data (Sample.data_page [x04] 1)] _ _ _ _ _).
  - reflexivity.
  - reflexivity.
  - repeat (apply Forall_cons; [vm_compute; split; [discriminate | reflexivity]|]).
    apply Forall_nil.
  - vm_compute. split; [discriminate | reflexivity].
  - vm_compute. split; [discriminate | reflexivity].
Defined.

(** Case analysis on every scrutinee of the goal, innermost first. *)
Ltac break_match :=
  repeat match goal with
         | |- context [match ?x with _ => _ end] =>
             lazymatch x with
             | context [match _ with _ => _ end] => fail
             | _ => destruct x eqn:?
             end
         end.

Section ColumnWriterFrames.
Context {env : Env}.
Import ColumnWriter.

Lemma same_mode_refl w : same_mode w w.
Proof. repeat split. Qed.

Lemma same_mode_trans w1 w2 w3 : same_mode w1 w2 -> same_mode w2 w3 -> same_mode w1 w3.
Proof.
  unfold same_mode. intros (A1 & A2 & A3 & A4 & A5 & A6 & A7 & A8)
    (B1 & B2 & B3 & B4 & B5 & B6 & B7 & B8).
  repeat split; congruence.
Qed.



Lemma WriteDataPage_mode w page : same_mode w (WriteDataPage w page).
Proof. unfold WriteDataPage. break_match. repeat split. Qed.

Lemma WriteDataPage_pager w page :
  pager_ (WriteDataPage w page) = snd (PageWriter.WriteDataPage (pager_ w) page)
  /\ data_pages_ (WriteDataPage w page) = data_pages_ w
  /\ current_encoder_ (WriteDataPage w page) = current_encoder_ w
  /\ uncompressed_data_ (WriteDataPage w page) = uncompressed_data_ w.
Proof. unfold WriteDataPage. break_match. repeat split. Qed.

Lemma WriteDataPages_mode pages : forall w, same_mode w (fold_left WriteDataPage pages w).
Proof.
  induction pages as [|p ps IH]; intros w; [apply same_mode_refl|].
  cbn [fold_left]. eapply same_mode_trans; [apply WriteDataPage_mode | apply IH].
Qed.

Lemma WriteDataPages_pager pages : forall w,
  pager_ (fold_left WriteDataPage pages w)
  = fold_left (fun p page => snd (PageWriter.WriteDataPage p page)) pages (pager_ w)
  /\ current_encoder_ (fold_left WriteDataPage pages w) = current_encoder_ w.
Proof.
  induction pages as [|p ps IH]; intros w; [split; reflexivity|].
  cbn [fold_left]. destruct (IH (WriteDataPage w p)) as [I1 I2].
  destruct (WriteDataPage_pager w p) as (E1 & _ & E2 & _).
  rewrite I1, I2, E1, E2. split; reflexivity.
Qed.

Lemma AssembleDataPage_mode w :
  let w' := fst (AssembleDataPage w) in
  same_mode w w'
  /\ pager_ w' = pager_ w
  /\ data_pages_ w' = data_pages_ w
  /\ total_bytes_written_ w' = total_bytes_written_ w.
Proof.
  unfold AssembleDataPage, ResetPageStatistics. break_match; cbn; repeat split.
Qed.

Lemma WriteDictionaryPage_mode w : same_mode w (WriteDictionaryPage w).
Proof. unfold WriteDictionaryPage. break_match. repeat split. Qed.

Lemma AddDataPage_mode w : same_mode w (AddDataPage w).
Proof.
  unfold AddDataPage.
  destruct (AssembleDataPage_mode w) as (M & _).
  destruct (AssembleDataPage w) as [u page]. cbn [fst] in M.
  eapply same_mode_trans; [exact M|].
  destruct (has_dictionary_ u && negb (fallback_ u)).
  - repeat split.
  - destruct (WriteDataPage_mode u page) as (A1 & A2 & A3 & A4 & A5 & A6 & A7 & A8).
    repeat split; assumption.
Qed.

Lemma FlushBufferedDataPages_mode w : same_mode w (FlushBufferedDataPages w).
Proof.
  unfold FlushBufferedDataPages.
  set (u := if 0 <? num_buffered_values_ w then AddDataPage w else w).
  assert (M : same_mode w u).
  { subst u. destruct (0 <? num_buffered_values_ w);
      [apply AddDataPage_mode | apply same_mode_refl]. }
  eapply same_mode_trans; [exact M|].
  destruct (WriteDataPages_mode (data_pages_ u) u)
    as (A1 & A2 & A3 & A4 & A5 & A6 & A7 & A8).
  repeat split; assumption.
Qed.

End ColumnWriterFrames.

Section MiniBatch.
Context {env : Env}.
Import ColumnWriter.

(** The counting loops of [WriteMiniBatch], for a counter type whose
    conversion [cast] is the identity below [hi]. *)
Lemma count_loop (cast : Z -> Z) (hi target : Z) (levels : list Z) :
  (forall z, 0 <= z < hi -> cast z = z) ->
  forall (k : nat) (a : Z),
    let c := len (filter (fun i => at_index levels (Z.of_nat i) =? target) (seq 0 k)) in
    0 <= a -> a + c < hi ->
    fold_left (fun s i => if at_index levels (Z.of_nat i) =? target
                          then cast (s + 1) else s) (seq 0 k) a
    = a + c
    /\ 0 <= c <= Z.of_nat k.
Proof.
  intros Hcast. induction k as [|k IH]; intros a c Ha Hc.
  - subst c. cbn. split; lia.
  - subst c. rewrite seq_S, filter_app, fold_left_app in *. cbn [Nat.add] in *.
    rewrite len_app in *. cbn [filter fold_left] in *.
    pose proof (len_nonneg (if at_index levels (Z.of_nat k) =? target
                            then [k] else [])) as Hn.
    destruct (IH a Ha) as [E B]; [lia|].
    rewrite E.
    destruct (at_index levels (Z.of_nat k) =? target); cbn in *.
    + rewrite Hcast by lia. split; lia.
    + split; lia.
Qed.

Lemma count_levels_range target n levels :
  0 <= n -> 0 <= count_levels target n levels <= n.
Proof.
  intros Hn. unfold count_levels.
  destruct (count_loop (fun z => z) (n + 1) target levels (fun z _ => eq_refl)
              (Z.to_nat n) 0) as [_ B]; [lia | | lia].
  assert (G : forall (f : nat -> bool) l, len (filter f l) <= len l).
  { intros f l. induction l as [|x l IH]; cbn; [lia|].
    destruct (f x); unfold len in *; cbn [List.length]; lia. }
  pose proof (G (fun i => at_index levels (Z.of_nat i) =? target) (seq 0 (Z.to_nat n))) as H.
  unfold len in H at 2. rewrite length_seq in H. lia.
Qed.

Lemma for_loop_count (cast : Z -> Z) (hi target n a : Z) (levels : list Z) :
  (forall z, 0 <= z < hi -> cast z = z) ->
  0 <= a -> a + count_levels target n levels < hi ->
  for_loop n (fun i s => if at_index levels i =? target then cast (s + 1) else s) a
  = a + count_levels target n levels.
Proof.
  intros Hcast Ha Hc. unfold for_loop.
  apply (count_loop cast hi target levels Hcast (Z.to_nat n) a Ha Hc).
Qed.

(** [WriteMiniBatch] up to the encoder: what it returns and what it leaves
    in the fields, with the two loops still as loops. *)
Lemma WriteMiniBatch_buffer_fields w num_values def_levels rep_levels values :
  let r := WriteMiniBatch_buffer w num_values def_levels rep_levels values in
  let D := ColumnDescriptor.max_definition_level (descr_ w) in
  let R := ColumnDescriptor.max_repetition_level (descr_ w) in
  fst r
  = (if 0 <? D
     then for_loop num_values
            (fun i n => if at_index def_levels i =? D then Int.int64 (n + 1) else n) 0
     else num_values)
  /\ rows_written_ (snd r)
     = (if 0 <? R
        then for_loop num_values
               (fun i rows => if at_index rep_levels i =? 0 then Int.int32 (rows + 1)
                              else rows) (rows_written_ w)
        else Int.int32 (rows_written_ w + Int.int32 num_values))
  /\ current_encoder_ (snd r) = Put (current_encoder_ w) values (Int.int32 (fst r))
  /\ num_buffered_values_ (snd r) = Int.int64 (num_buffered_values_ w + num_values)
  /\ descr_ (snd r) = descr_ w
  /\ properties_ (snd r) = properties_ w
  /\ has_dictionary_ (snd r) = has_dictionary_ w
  /\ fallback_ (snd r) = fallback_ w
  /\ encoding_ (snd r) = encoding_ w
  /\ closed_ (snd r) = closed_ w
  /\ pager_ (snd r) = pager_ w
  /\ data_pages_ (snd r) = data_pages_ w.
Proof.
  unfold WriteMiniBatch_buffer, WriteValues, WriteDefinitionLevels, WriteRepetitionLevels.
  destruct (0 <? ColumnDescriptor.max_definition_level (descr_ w));
    cbn -[for_loop Int.int32 Int.int64];
    destruct (0 <? ColumnDescriptor.max_repetition_level (descr_ w));
    cbn -[for_loop Int.int32 Int.int64];
    destruct (page_statistics_ w);
    cbn -[for_loop Int.int32 Int.int64]; repeat split; reflexivity.
Qed.

Lemma CheckDictionarySizeLimit_keeps w :
  let w' := CheckDictionarySizeLimit w in
  rows_written_ w' = rows_written_ w
  /\ descr_ w' = descr_ w
  /\ properties_ w' = properties_ w
  /\ has_dictionary_ w' = has_dictionary_ w
  /\ closed_ w' = closed_ w
  /\ metadata_ w' = metadata_ w.
Proof.
  unfold CheckDictionarySizeLimit.
  destruct (_ <=? _); [|repeat split].
  pose proof (same_mode_trans _ _ _ (WriteDictionaryPage_mode w)
                (FlushBufferedDataPages_mode (WriteDictionaryPage w)))
    as (A1 & A2 & A3 & A4 & A5 & A6 & A7 & A8).
  cbn. repeat split; assumption.
Qed.

(** What the page-flush tail of [WriteMiniBatch] keeps. *)
Lemma WriteMiniBatch_fields w num_values def_levels rep_levels values :
  let b := WriteMiniBatch_buffer w num_values def_levels rep_levels values in
  let r := WriteMiniBatch w num_values def_levels rep_levels values in
  fst r = fst b
  /\ rows_written_ (snd r) = rows_written_ (snd b)
  /\ descr_ (snd r) = descr_ w
  /\ properties_ (snd r) = properties_ w
  /\ has_dictionary_ (snd r) = has_dictionary_ w
  /\ closed_ (snd r) = closed_ w.
Proof.
  unfold WriteMiniBatch.
  destruct (WriteMiniBatch_buffer_fields w num_values def_levels rep_levels values)
    as (_ & _ & _ & _ & Bd & Bp & Bh & _ & _ & Bc & _).
  destruct (WriteMiniBatch_buffer w num_values def_levels rep_levels values) as [v u].
  cbn [fst snd] in *.
  set (u1 := if _ <=? _ then AddDataPage u else u).
  assert (M : same_mode u u1).
  { subst u1. destruct (_ <=? _); [apply AddDataPage_mode | apply same_mode_refl]. }
  destruct M as (A1 & A2 & A3 & A4 & A5 & A6 & A7 & A8).
  set (u2 := if has_dictionary_ u1 && negb (fallback_ u1)
             then CheckDictionarySizeLimit u1 else u1).
  assert (K : rows_written_ u2 = rows_written_ u1 /\ descr_ u2 = descr_ u1
              /\ properties_ u2 = properties_ u1
              /\ has_dictionary_ u2 = has_dictionary_ u1 /\ closed_ u2 = closed_ u1).
  { subst u2. destruct (has_dictionary_ u1 && negb (fallback_ u1));
      [|repeat split].
    destruct (CheckDictionarySizeLimit_keeps u1) as (K1 & K2 & K3 & K4 & K5 & _).
    repeat split; assumption. }
  destruct K as (K1 & K2 & K3 & K4 & K5).
  cbn [fst snd]. repeat split; congruence.
Qed.

(** Claim C3.  For a mini-batch of [num_levels] levels, the value encoder is
    handed as many values as there are positions with [def_level = D] when
    [D > 0], and [num_levels] values when [D = 0]; that number is also what
    [WriteMiniBatch] returns; and [rows_written_] grows by the number of
    positions with [rep_level = 0] when [R > 0], and by [num_levels] when
    [R = 0].  The counts are taken within the [int] that holds
    [rows_written_]. *)
Theorem WriteMiniBatch_counts (w : t) (num_levels : Z)
    (def_levels rep_levels : list Z) (values : list Value) :
  let D := ColumnDescriptor.max_definition_level (descr_ w) in
  let R := ColumnDescriptor.max_repetition_level (descr_ w) in
  let values_to_write :=
    if 0 <? D then count_levels D num_levels def_levels else num_levels in
  let rows :=
    if 0 <? R then count_levels 0 num_levels rep_levels else num_levels in
  0 <= num_levels < 2 ^ 31 ->
  0 <= rows_written_ w ->
  rows_written_ w + rows < 2 ^ 31 ->
  current_encoder_ (snd (WriteMiniBatch_buffer w num_levels def_levels rep_levels values))
  = Put (current_encoder_ w) values values_to_write
  /\ fst (WriteMiniBatch w num_levels def_levels rep_levels values) = values_to_write
  /\ rows_written_ (snd (WriteMiniBatch w num_levels def_levels rep_levels values))
     = rows_written_ w + rows.
Proof.
  cbv zeta. intros Hn Hr Hrows.
  destruct (WriteMiniBatch_fields w num_levels def_levels rep_levels values)
    as (Ef & Er & _).
  destruct (WriteMiniBatch_buffer_fields w num_levels def_levels rep_levels values)
    as (Bf & Br & Be & _).
  cbv zeta in Ef, Er, Bf, Br, Be.
  assert (V : fst (WriteMiniBatch_buffer w num_levels def_levels rep_levels values)
              = (if 0 <? ColumnDescriptor.max_definition_level (descr_ w)
                 then count_levels (ColumnDescriptor.max_definition_level (descr_ w))
                        num_levels def_levels
                 else num_levels)).
  { rewrite Bf.
    destruct (0 <? ColumnDescriptor.max_definition_level (descr_ w)); [|reflexivity].
    pose proof (count_levels_range (ColumnDescriptor.max_definition_level (descr_ w))
                  num_levels def_levels (proj1 Hn)).
    rewrite (for_loop_count Int.int64 (2 ^ 63)); [lia | | lia | lia].
    intros z Hz. apply int64_small. unfold Int.in_int64. lia. }
  assert (V32 : Int.int32 (fst (WriteMiniBatch_buffer w num_levels def_levels
                                  rep_levels values))
                = fst (WriteMiniBatch_buffer w num_levels def_levels rep_levels values)).
  { apply int32_small. rewrite V. unfold Int.in_int32.
    pose proof (count_levels_range (ColumnDescriptor.max_definition_level (descr_ w))
                  num_levels def_levels (proj1 Hn)).
    destruct (0 <? ColumnDescriptor.max_definition_level (descr_ w)); lia. }
  split; [rewrite Be, V32, V; reflexivity|].
  split; [rewrite Ef; exact V|].
  rewrite Er, Br. destruct (0 <? ColumnDescriptor.max_repetition_level (descr_ w)).
  - apply (for_loop_count Int.int32 (2 ^ 31)); [|lia|lia].
    intros z Hz. apply int32_small. unfold Int.in_int32. lia.
  - rewrite (int32_small num_levels) by (unfold Int.in_int32; lia).
    apply int32_small. unfold Int.in_int32. lia.
Qed.

End MiniBatch.

Section Buffers.

Lemma len_repeat (x : byte) n : len (repeat x n) = Z.of_nat n.
Proof. unfold len. now rewrite repeat_length. Qed.

Lemma len_Resize buf n : 0 <= n -> len (Resize buf n) = n.
Proof.
  intros Hn. unfold Resize, take. rewrite len_app, len_repeat.
  unfold len. rewrite length_firstn. lia.
Qed.

Lemma len_store_int32 v : len (store_int32 v) = 4.
Proof. reflexivity. Qed.

(** [memcpy] into the middle of a buffer replaces exactly that middle. *)
Lemma memcpy_middle (pre mid post src : list byte) (off n : Z) :
  len pre = off -> len mid = n -> n <= len src ->
  memcpy (pre ++ mid ++ post) off src n = pre ++ take n src ++ post.
Proof.
  intros Hp Hm Hs. unfold memcpy. subst off n.
  rewrite take_app_exact. f_equal. f_equal.
  unfold drop. rewrite <- len_app. rewrite app_assoc.
  apply (drop_app_exact (pre ++ mid) post).
Qed.

Lemma split_buffer (u : list byte) (a b : Z) :
  0 <= a -> 0 <= b -> a + b <= len u ->
  exists x y z, u = x ++ y ++ z /\ len x = a /\ len y = b.
Proof.
  intros Ha Hb Hu.
  exists (take a u), (take b (drop a u)), (drop b (drop a u)).
  unfold take, drop. rewrite !firstn_skipn. split; [reflexivity|].
  unfold len in *. rewrite !length_firstn, length_skipn. lia.
Qed.

End Buffers.

Section Payload.
Context {env : Env}.
Import ColumnWriter.

Lemma len_framed_levels n sink max_level :
  len (framed_levels n sink max_level)
  = len (RleEncoder_encode (LevelEncoder_MaxBufferSize_RLE max_level n)
           (Log2 (max_level + 1)) (take n sink)) + 4.
Proof. unfold framed_levels. cbv zeta. rewrite len_app, len_store_int32. lia. Qed.

(** [RleEncodeLevels] leaves the framed block at the front of its buffer and
    returns the length of that block. *)
Lemma RleEncodeLevels_framed (w : t) (sink : list Z) (dest : list byte) (max_level : Z) :
  let n := num_buffered_values_ w in
  0 <= n < 2 ^ 31 ->
  levels_fit n sink max_level ->
  exists rest,
    RleEncodeLevels w sink dest max_level
    = (len (framed_levels n sink max_level), framed_levels n sink max_level ++ rest).
Proof.
  cbv zeta. intros Hn (Hc0 & Hc1 & Hfit).
  unfold RleEncodeLevels, LevelEncoder_Encode_RLE, framed_levels.
  rewrite (int32_small (num_buffered_values_ w)) by (unfold Int.in_int32; lia).
  unfold LevelEncoder_MaxBufferSize_RLE in *.
  set (bw := Log2 (max_level + 1)) in *.
  set (cap := RleEncoder_MaxBufferSize bw (num_buffered_values_ w)
              + RleEncoder_MinBufferSize bw) in *.
  rewrite (int32_small cap) by (unfold Int.in_int32; lia).
  rewrite (int64_small (cap + 4)) by (unfold Int.in_int64; lia).
  rewrite len_Resize by lia.
  replace (cap + 4 - 4) with cap by lia.
  rewrite (int32_small cap) by (unfold Int.in_int32; lia).
  set (rle := RleEncoder_encode cap bw (take (num_buffered_values_ w) sink)) in *.
  pose proof (len_nonneg rle) as Hr.
  rewrite (int32_small (len rle)) by (unfold Int.in_int32; lia).
  rewrite (int64_small (len rle + 4)) by (unfold Int.in_int64; lia).
  destruct (split_buffer (Resize dest (cap + 4)) 4 (len rle)) as (x & y & z & E & Lx & Ly);
    [lia | lia | rewrite len_Resize; lia |].
  rewrite E.
  rewrite (memcpy_middle x y z rle 4 (len rle) Lx Ly) by lia.
  rewrite (take_all rle) by lia.
  exists z. f_equal; [rewrite len_app, len_store_int32; lia|].
  change (x ++ rle ++ z) with ([] ++ x ++ (rle ++ z)).
  rewrite (memcpy_middle [] x (rle ++ z) (store_int32 (len rle)) 0 4 eq_refl Lx)
    by (rewrite len_store_int32; lia).
  rewrite take_all by (rewrite len_store_int32; lia).
  cbn [app]. rewrite <- app_assoc. reflexivity.
Qed.

(** The three [memcpy] calls of [AddDataPage]: [a] and [b] are the blocks at
    the front of the two level buffers. *)
Lemma concatenate (old a rest_a b rest_b values : list byte) :
  len b + len a + len values < 2 ^ 63 ->
  memcpy
    (memcpy
       (memcpy (Resize old (Int.int64 (len b + len a + len values)))
          0 (a ++ rest_a) (len a))
       (len a) (b ++ rest_b) (len b))
    (len a + len b) values (len values)
  = a ++ b ++ values.
Proof.
  intros H.
  pose proof (len_nonneg a). pose proof (len_nonneg b). pose proof (len_nonneg values).
  rewrite int64_small by (unfold Int.in_int64; lia).
  destruct (split_buffer (Resize old (len b + len a + len values)) (len a) (len b))
    as (x & y & z & E & Lx & Ly); [lia | lia | rewrite len_Resize; lia |].
  assert (Lz : len z = len values).
  { pose proof (f_equal len E) as L. rewrite len_Resize, !len_app in L by lia. lia. }
  rewrite E.
  change (x ++ y ++ z) with ([] ++ x ++ (y ++ z)).
  rewrite (memcpy_middle [] x (y ++ z) (a ++ rest_a) 0 (len a) eq_refl Lx)
    by (rewrite len_app; pose proof (len_nonneg rest_a); lia).
  rewrite take_app_exact. cbn [app].
  rewrite (memcpy_middle a y z (b ++ rest_b) (len a) (len b) eq_refl Ly)
    by (rewrite len_app; pose proof (len_nonneg rest_b); lia).
  rewrite take_app_exact.
  replace (a ++ b ++ z) with ((a ++ b) ++ z ++ []) by (now rewrite app_nil_r, app_assoc).
  rewrite (memcpy_middle (a ++ b) z [] values (len a + len b) (len values))
    by (rewrite ?len_app; lia).
  rewrite take_all by lia. rewrite app_nil_r, app_assoc. reflexivity.
Qed.

Lemma AssembleDataPage_payload (w : t) :
  let D := ColumnDescriptor.max_definition_level (descr_ w) in
  let R := ColumnDescriptor.max_repetition_level (descr_ w) in
  let n := num_buffered_values_ w in
  0 <= n < 2 ^ 31 ->
  (0 < R -> levels_fit n (repetition_levels_sink_ w) R) ->
  (0 < D -> levels_fit n (definition_levels_sink_ w) D) ->
  len (data_page_payload w) < 2 ^ 63 ->
  uncompressed_data_ (fst (AssembleDataPage w)) = data_page_payload w
  /\ CompressedDataPage.uncompressed_size (snd (AssembleDataPage w))
     = len (data_page_payload w)
  /\ CompressedDataPage.buffer (snd (AssembleDataPage w))
     = (if PageWriter.has_compressor (pager_ w)
        then PageWriter.Compress (pager_ w) (data_page_payload w) (compressed_data_ w)
        else data_page_payload w).
Proof.
  cbv zeta. intros Hn HR HD Hlen.
  unfold AssembleDataPage, data_page_payload in *.
  destruct (FlushValues (current_encoder_ w)) as [values e].
  cbn [fst] in *.
  cbn [descr_ set_current_encoder_ definition_levels_sink_ definition_levels_rle_].
  (* definition levels *)
  assert (ED : exists rest_d,
    (if 0 <? ColumnDescriptor.max_definition_level (descr_ w)
     then
       let '(n, b) := RleEncodeLevels (set_current_encoder_ e w) (definition_levels_sink_ w)
                        (definition_levels_rle_ w)
                        (ColumnDescriptor.max_definition_level (descr_ w)) in
       (n, set_definition_levels_rle_ b (set_current_encoder_ e w))
     else (0, set_current_encoder_ e w))
    = (len (if 0 <? ColumnDescriptor.max_definition_level (descr_ w)
            then framed_levels (num_buffered_values_ w) (definition_levels_sink_ w)
                   (ColumnDescriptor.max_definition_level (descr_ w))
            else []),
       set_definition_levels_rle_
         ((if 0 <? ColumnDescriptor.max_definition_level (descr_ w)
           then framed_levels (num_buffered_values_ w) (definition_levels_sink_ w)
                  (ColumnDescriptor.max_definition_level (descr_ w))
           else []) ++ rest_d)
         (set_current_encoder_ e w))).
  { destruct (0 <? ColumnDescriptor.max_definition_level (descr_ w)) eqn:E.
    - apply Z.ltb_lt in E.
      destruct (RleEncodeLevels_framed (set_current_encoder_ e w)
                  (definition_levels_sink_ w) (definition_levels_rle_ w)
                  (ColumnDescriptor.max_definition_level (descr_ w)) Hn (HD E))
        as [rest Hrest].
      exists rest. rewrite Hrest. reflexivity.
    - exists (definition_levels_rle_ w). destruct w; reflexivity. }
  destruct ED as [rest_d ED]. rewrite ED. clear ED.
  set (a_d := if 0 <? ColumnDescriptor.max_definition_level (descr_ w)
              then framed_levels (num_buffered_values_ w) (definition_levels_sink_ w)
                     (ColumnDescriptor.max_definition_level (descr_ w))
              else []) in *.
  cbn [descr_ set_current_encoder_ set_definition_levels_rle_ repetition_levels_sink_
       repetition_levels_rle_].
  set (w1 := set_definition_levels_rle_ (a_d ++ rest_d) (set_current_encoder_ e w)).
  (* repetition levels *)
  assert (ER : exists rest_r,
    (if 0 <? ColumnDescriptor.max_repetition_level (descr_ w)
     then
       let '(n, b) := RleEncodeLevels w1 (repetition_levels_sink_ w)
                        (repetition_levels_rle_ w)
                        (ColumnDescriptor.max_repetition_level (descr_ w)) in
       (n, set_repetition_levels_rle_ b w1)
     else (0, w1))
    = (len (if 0 <? ColumnDescriptor.max_repetition_level (descr_ w)
            then framed_levels (num_buffered_values_ w) (repetition_levels_sink_ w)
                   (ColumnDescriptor.max_repetition_level (descr_ w))
            else []),
       set_repetition_levels_rle_
         ((if 0 <? ColumnDescriptor.max_repetition_level (descr_ w)
           then framed_levels (num_buffered_values_ w) (repetition_levels_sink_ w)
                  (ColumnDescriptor.max_repetition_level (descr_ w))
           else []) ++ rest_r)
         w1)).
  { destruct (0 <? ColumnDescriptor.max_repetition_level (descr_ w)) eqn:E.
    - apply Z.ltb_lt in E.
      destruct (RleEncodeLevels_framed w1
                  (repetition_levels_sink_ w) (repetition_levels_rle_ w)
                  (ColumnDescriptor.max_repetition_level (descr_ w)) Hn (HR E))
        as [rest Hrest].
      exists rest. rewrite Hrest. reflexivity.
    - exists (repetition_levels_rle_ w). destruct w; reflexivity. }
  destruct ER as [rest_r ER]. rewrite ER. clear ER.
  set (a_r := if 0 <? ColumnDescriptor.max_repetition_level (descr_ w)
              then framed_levels (num_buffered_values_ w) (repetition_levels_sink_ w)
                     (ColumnDescriptor.max_repetition_level (descr_ w))
              else []) in *.
  subst w1.
  cbn [uncompressed_data_ repetition_levels_rle_ definition_levels_rle_
       set_repetition_levels_rle_ set_definition_levels_rle_ set_current_encoder_].
  rewrite !len_app in Hlen.
  rewrite concatenate by lia.
  assert (L : Int.int64 (len a_d + len a_r + len values)
              = len (a_r ++ a_d ++ values)).
  { pose proof (len_nonneg a_d). pose proof (len_nonneg a_r).
    pose proof (len_nonneg values).
    rewrite !len_app, int64_small; [lia | unfold Int.in_int64; lia]. }
  rewrite L. clear L Hlen. clearbody a_r a_d.
  unfold ResetPageStatistics.
  cbn -[len PageWriter.has_compressor PageWriter.Compress].
  destruct (chunk_statistics_ w); destruct (page_statistics_ w);
    cbn -[len PageWriter.has_compressor PageWriter.Compress];
    destruct (PageWriter.has_compressor (pager_ w));
    cbn -[len PageWriter.has_compressor PageWriter.Compress];
    repeat split; reflexivity.
Qed.

End Payload.

Section Fallback.
Context {env : Env}.
Import ColumnWriter.

(** Where [AddDataPage] sends the page it assembled. *)
Lemma AddDataPage_dispatch (w : t) :
  let page := snd (AssembleDataPage w) in
  uncompressed_data_ (AddDataPage w) = uncompressed_data_ (fst (AssembleDataPage w))
  /\ num_buffered_values_ (AddDataPage w) = 0
  /\ (if has_dictionary_ w && negb (fallback_ w)
      then data_pages_ (AddDataPage w) = data_pages_ w ++ [page]
           /\ pager_ (AddDataPage w) = pager_ w
      else data_pages_ (AddDataPage w) = data_pages_ w
           /\ pager_ (AddDataPage w)
              = snd (PageWriter.WriteDataPage (pager_ w) page)).
Proof.
  unfold AddDataPage.
  destruct (AssembleDataPage_mode w) as ((_ & _ & Mh & _ & _ & _ & _ & Mf) & Mp & Md & _).
  destruct (AssembleDataPage w) as [u page]. cbn [fst snd] in *.
  rewrite Mh, Mf. destruct (has_dictionary_ w && negb (fallback_ w)).
  - cbn. rewrite Md, Mp. auto.
  - destruct (WriteDataPage_pager u page) as (E1 & E2 & _ & E4).
    cbn. rewrite E1, E2, E4, Md, Mp. auto.
Qed.

Lemma WriteDictionaryPage_fields (w : t) :
  let w' := WriteDictionaryPage w in
  pager_ w' = snd (PageWriter.WriteDictionaryPage (pager_ w) (MakeDictionaryPage w))
  /\ data_pages_ w' = data_pages_ w
  /\ num_buffered_values_ w' = num_buffered_values_ w.
Proof.
  unfold WriteDictionaryPage.
  destruct (PageWriter.WriteDictionaryPage (pager_ w) (MakeDictionaryPage w)).
  repeat split.
Qed.

(** [FlushBufferedDataPages] while pages are being buffered: the buffered
    pages go out in the order they were buffered, after them the page made
    of the values still in the encoder. *)
Lemma FlushBufferedDataPages_order (w : t) :
  has_dictionary_ w = true -> fallback_ w = false ->
  let buffered :=
    data_pages_ w
    ++ (if 0 <? num_buffered_values_ w then [snd (AssembleDataPage w)] else []) in
  pager_ (FlushBufferedDataPages w)
  = fold_left (fun p page => snd (PageWriter.WriteDataPage p page)) buffered (pager_ w)
  /\ data_pages_ (FlushBufferedDataPages w) = [].
Proof.
  intros Hd Hf. cbv zeta. unfold FlushBufferedDataPages.
  split; [|reflexivity]. cbn [pager_ set_total_compressed_bytes_ set_data_pages_].
  destruct (0 <? num_buffered_values_ w).
  - destruct (AddDataPage_dispatch w) as (_ & _ & D). rewrite Hd, Hf in D.
    cbn [negb andb] in D. destruct D as [D1 D2].
    destruct (WriteDataPages_pager (data_pages_ (AddDataPage w)) (AddDataPage w)) as [P _].
    rewrite P, D1, D2. reflexivity.
  - rewrite app_nil_r.
    destruct (WriteDataPages_pager (data_pages_ w) w) as [P _]. exact P.
Qed.

(** Once fallen back, a mini-batch leaves the writer fallen back, with no
    buffered page and its encoding unchanged. *)
Lemma WriteMiniBatch_after_fallback (w : t) n d r (v : list Value) :
  fallback_ w = true -> data_pages_ w = [] ->
  let w' := snd (WriteMiniBatch w n d r v) in
  fallback_ w' = true /\ data_pages_ w' = [] /\ encoding_ w' = encoding_ w.
Proof.
  intros Hf Hp. cbv zeta. unfold WriteMiniBatch.
  destruct (WriteMiniBatch_buffer_fields w n d r v)
    as (_ & _ & _ & _ & _ & _ & _ & Bf & Be & _ & _ & Bp).
  destruct (WriteMiniBatch_buffer w n d r v) as [k u]. cbn [fst snd] in *.
  rewrite Hf in Bf. rewrite Hp in Bp.
  set (u1 := if _ <=? _ then AddDataPage u else u).
  assert (K : fallback_ u1 = true /\ data_pages_ u1 = [] /\ encoding_ u1 = encoding_ w).
  { subst u1. destruct (_ <=? _); [|auto].
    destruct (AddDataPage_mode u) as (_ & _ & _ & A4 & _ & _ & _ & A8).
    destruct (AddDataPage_dispatch u) as (_ & _ & D).
    rewrite Bf, andb_false_r in D. destruct D as [D _].
    rewrite A8, A4, D. auto. }
  destruct K as (K1 & K2 & K3). rewrite K1, andb_false_r. cbn [snd]. auto.
Qed.

Lemma WriteMiniBatches_after_fallback batches : forall (w : t),
  fallback_ w = true -> data_pages_ w = [] ->
  let w' := WriteMiniBatches w batches in
  fallback_ w' = true /\ data_pages_ w' = [] /\ encoding_ w' = encoding_ w.
Proof.
  induction batches as [|[[[n d] r] v] bs IH]; intros w Hf Hp; [cbn; auto|].
  destruct (WriteMiniBatch_after_fallback w n d r v Hf Hp) as (K1 & K2 & K3).
  destruct (IH (snd (WriteMiniBatch w n d r v)) K1 K2) as (I1 & I2 & I3).
  unfold WriteMiniBatches in *. cbn [fold_left]. cbv zeta in *.
  rewrite I1, I2, I3, K3. auto.
Qed.

(** Claim C4.  When the dictionary encoder has reached
    [dictionary_pagesize_limit] and the writer is still dictionary-encoding,
    [CheckDictionarySizeLimit] hands the page writer the dictionary page,
    then every buffered data page in the order it was buffered, then the page
    made of the values still buffered, if any; it leaves a PLAIN encoder,
    [encoding_ = PLAIN], [fallback_ = true] and no buffered page.  After any
    further mini-batches the writer is still fallen back, [WriteMiniBatch]
    runs without the dictionary check, and [AddDataPage] writes its page
    through the page writer at once. *)
Theorem CheckDictionarySizeLimit_falls_back (w : t)
    (batches : list (Z * list Z * list Z * list Value)) :
  has_dictionary_ w = true ->
  fallback_ w = false ->
  WriterProperties.dictionary_pagesize_limit (properties_ w)
  <= dict_encoded_size (current_encoder_ w) ->
  let w' := CheckDictionarySizeLimit w in
  let buffered :=
    data_pages_ w
    ++ (if 0 <? num_buffered_values_ w
        then [snd (AssembleDataPage (WriteDictionaryPage w))] else []) in
  (* the dictionary page, then the buffered pages in order *)
  pager_ w'
  = fold_left (fun p page => snd (PageWriter.WriteDataPage p page)) buffered
      (snd (PageWriter.WriteDictionaryPage (pager_ w) (MakeDictionaryPage w)))
  /\ data_pages_ w' = []
  /\ current_encoder_ w' = MakeEncoder Encoding.PLAIN false
  /\ encoding_ w' = Encoding.PLAIN
  /\ fallback_ w' = true
  (* afterwards, whatever is written *)
  /\ let u := WriteMiniBatches w' batches in
     fallback_ u = true
     /\ encoding_ u = Encoding.PLAIN
     /\ data_pages_ u = []
     /\ (forall n d r v,
           WriteMiniBatch u n d r v
           = (fst (WriteMiniBatch_buffer u n d r v),
              let b := snd (WriteMiniBatch_buffer u n d r v) in
              if WriterProperties.data_pagesize (properties_ b)
                 <=? EstimatedDataEncodedSize (current_encoder_ b)
              then AddDataPage b else b))
     /\ pager_ (AddDataPage u)
        = snd (PageWriter.WriteDataPage (pager_ u) (snd (AssembleDataPage u)))
     /\ data_pages_ (AddDataPage u) = [].
Proof.
  intros Hd Hf Hlimit. cbv zeta.
  assert (W : fallback_ (CheckDictionarySizeLimit w) = true
              /\ data_pages_ (CheckDictionarySizeLimit w) = []
              /\ encoding_ (CheckDictionarySizeLimit w) = Encoding.PLAIN
              /\ current_encoder_ (CheckDictionarySizeLimit w)
                 = MakeEncoder Encoding.PLAIN false
              /\ pager_ (CheckDictionarySizeLimit w)
                 = pager_ (FlushBufferedDataPages (WriteDictionaryPage w))).
  { unfold CheckDictionarySizeLimit. apply Z.leb_le in Hlimit. rewrite Hlimit.
    repeat split. }
  destruct W as (W1 & W2 & W3 & W4 & W5).
  destruct (WriteDictionaryPage_mode w) as (_ & _ & Mh & _ & _ & _ & _ & Mf).
  destruct (WriteDictionaryPage_fields w) as (Fp & Fd & Fn). cbv zeta in Fp, Fd, Fn.
  destruct (FlushBufferedDataPages_order (WriteDictionaryPage w)) as [O _];
    [congruence | congruence |].
  cbv zeta in O. rewrite Fp, Fd, Fn in O.
  split; [rewrite W5; exact O|].
  split; [exact W2|]. split; [exact W4|]. split; [exact W3|]. split; [exact W1|].
  destruct (WriteMiniBatches_after_fallback batches (CheckDictionarySizeLimit w) W1 W2)
    as (U1 & U2 & U3). cbv zeta in U1, U2, U3.
  set (u := WriteMiniBatches (CheckDictionarySizeLimit w) batches) in *.
  split; [exact U1|]. split; [congruence|]. split; [exact U2|].
  split.
  - intros n d r v. unfold WriteMiniBatch.
    destruct (WriteMiniBatch_buffer_fields u n d r v)
      as (_ & _ & _ & _ & _ & _ & _ & Bf & _).
    destruct (WriteMiniBatch_buffer u n d r v) as [k b]. cbn [fst snd] in *.
    f_equal.
    assert (K : fallback_ (if WriterProperties.data_pagesize (properties_ b)
                              <=? EstimatedDataEncodedSize (current_encoder_ b)
                           then AddDataPage b else b) = true).
    { destruct (_ <=? _); [|congruence].
      destruct (AddDataPage_mode b) as (_ & _ & _ & _ & _ & _ & _ & A8). congruence. }
    rewrite K, andb_false_r. reflexivity.
  - destruct (AddDataPage_dispatch u) as (_ & _ & D).
    rewrite U1, andb_false_r in D. destruct D as [D1 D2].
    split; [exact D2 | congruence].
Qed.

End Fallback.

Section PayloadAndClose.
Context {env : Env}.
Import ColumnWriter.

(** Claim C5.  The uncompressed payload [AddDataPage] assembles is, in this
    order, the RLE repetition levels behind their 4-byte little-endian length
    (present iff [R > 0]), the RLE definition levels behind their 4-byte
    little-endian length (present iff [D > 0]), and the values flushed from
    the current encoder.  The page built over it records its length as
    [uncompressed_size], carries it (compressed if there is a codec), and is
    buffered or written according to the dictionary mode.  The RLE encoder
    is assumed to stay within the buffer sized for it. *)
Theorem AddDataPage_payload_layout (w : t) :
  let D := ColumnDescriptor.max_definition_level (descr_ w) in
  let R := ColumnDescriptor.max_repetition_level (descr_ w) in
  let n := num_buffered_values_ w in
  let page := snd (AssembleDataPage w) in
  0 <= n < 2 ^ 31 ->
  (0 < R -> levels_fit n (repetition_levels_sink_ w) R) ->
  (0 < D -> levels_fit n (definition_levels_sink_ w) D) ->
  len (data_page_payload w) < 2 ^ 63 ->
  uncompressed_data_ (AddDataPage w) = data_page_payload w
  /\ CompressedDataPage.uncompressed_size page = len (data_page_payload w)
  /\ CompressedDataPage.buffer page
     = (if PageWriter.has_compressor (pager_ w)
        then PageWriter.Compress (pager_ w) (data_page_payload w) (compressed_data_ w)
        else data_page_payload w)
  /\ (if has_dictionary_ w && negb (fallback_ w)
      then data_pages_ (AddDataPage w) = data_pages_ w ++ [page]
      else pager_ (AddDataPage w) = snd (PageWriter.WriteDataPage (pager_ w) page)).
Proof.
  cbv zeta. intros Hn HR HD Hlen.
  destruct (AssembleDataPage_payload w Hn HR HD Hlen) as (P1 & P2 & P3).
  destruct (AddDataPage_dispatch w) as (A1 & _ & A3). cbv zeta in A3.
  rewrite A1, P1. repeat split; try assumption.
  destruct (has_dictionary_ w && negb (fallback_ w)); tauto.
Qed.

Lemma before_pager_close_closed w : closed_ (before_pager_close w) = true.
Proof.
  unfold before_pager_close.
  set (w0 := set_closed_ true w).
  set (w1 := if has_dictionary_ w0 && negb (fallback_ w0)
             then WriteDictionaryPage w0 else w0).
  assert (C1 : closed_ w1 = true).
  { subst w1. destruct (has_dictionary_ w0 && negb (fallback_ w0)); [|reflexivity].
    destruct (WriteDictionaryPage_mode w0) as (_ & _ & _ & _ & _ & _ & A7 & _).
    rewrite A7. reflexivity. }
  destruct (FlushBufferedDataPages_mode w1) as (_ & _ & _ & _ & _ & _ & A7 & _).
  match goal with
  | |- closed_ (if ?c then _ else _) = _ => destruct c
  end; cbn [closed_ set_metadata_]; congruence.
Qed.

Lemma Close_first (w : t) :
  closed_ w = false ->
  Close w
  = match PageWriter.Close (pager_ (before_pager_close w))
            (metadata_ (before_pager_close w)) (has_dictionary_ (before_pager_close w))
            (fallback_ (before_pager_close w)) with
    | None => None
    | Some (metadata, pager) =>
        let w' := set_pager_ pager (set_metadata_ metadata (before_pager_close w)) in
        Some (total_bytes_written_ w', w')
    end.
Proof.
  intros H. unfold Close, before_pager_close. rewrite H. cbv zeta.
  destruct (PageWriter.Close _ _ _ _) as [[m p]|]; reflexivity.
Qed.

Lemma Close_then_closed (w w1 : t) (r : Z) :
  Close w = Some (r, w1) ->
  (* the call that closes *)
  (closed_ w = false ->
   PageWriter.Close (pager_ (before_pager_close w)) (metadata_ (before_pager_close w))
     (has_dictionary_ w) (fallback_ w)
   = Some (metadata_ w1, pager_ w1))
  (* every call after it *)
  /\ closed_ w1 = true
  /\ r = total_bytes_written_ w1
  /\ Close w1 = Some (r, w1).
Proof.
  intros H.
  assert (G : (closed_ w = false ->
               PageWriter.Close (pager_ (before_pager_close w))
                 (metadata_ (before_pager_close w)) (has_dictionary_ w) (fallback_ w)
               = Some (metadata_ w1, pager_ w1))
              /\ closed_ w1 = true /\ r = total_bytes_written_ w1).
  { destruct (closed_ w) eqn:C.
    - unfold Close in H. rewrite C in H. inversion H; subst. split; [discriminate|]. auto.
    - rewrite (Close_first w C) in H.
      assert (K : has_dictionary_ (before_pager_close w) = has_dictionary_ w
                  /\ fallback_ (before_pager_close w) = fallback_ w).
      { unfold before_pager_close.
        set (w0 := set_closed_ true w).
        set (w1' := if has_dictionary_ w0 && negb (fallback_ w0)
                    then WriteDictionaryPage w0 else w0).
        assert (M : same_mode w0 w1').
        { subst w1'. destruct (has_dictionary_ w0 && negb (fallback_ w0));
            [apply WriteDictionaryPage_mode | apply same_mode_refl]. }
        pose proof (same_mode_trans _ _ _ M (FlushBufferedDataPages_mode w1'))
          as (_ & _ & A3 & _ & _ & _ & _ & A8).
        match goal with
        | |- has_dictionary_ (if ?c then _ else _) = _ /\ _ => destruct c
        end; cbn [has_dictionary_ fallback_ set_metadata_]; rewrite A3, A8; auto. }
      destruct K as [K1 K2]. rewrite K1, K2 in H.
      pose proof (before_pager_close_closed w) as CL.
      set (b := before_pager_close w) in *. clearbody b.
      destruct (PageWriter.Close _ _ _ _) as [[m p]|]; [|discriminate].
      cbv zeta in H. inversion H; subst. split; [reflexivity|].
      cbn [closed_ set_pager_ set_metadata_]. split; [exact CL | reflexivity]. }
  destruct G as (G1 & G2 & G3). repeat split; try assumption.
  unfold Close. rewrite G2, G3. reflexivity.
Qed.

End PayloadAndClose.

Section CloseReturns.
Context {env : Env}.
Import ColumnWriter.

Lemma PageWriter_Close_returns (p : PageWriter.t) (metadata : ColumnChunkMetaDataBuilder.t)
    (has_dictionary fallback : bool) :
  WriterProperties.column_encryption_properties
    (ColumnChunkMetaDataBuilder.properties_ metadata) = None ->
  exists r, PageWriter.Close p metadata has_dictionary fallback = Some r.
Proof.
  intros H. destruct p as [s|b]; cbn [PageWriter.Close].
  - unfold SerializedPageWriter.Close.
    match goal with
    | |- context [ColumnChunkMetaDataBuilder.Finish ?m ?a ?b ?c ?d ?e ?f ?g ?h ?i] =>
        destruct (Finish_returns m a b c d e f g h i (or_introl H)) as [m' F]; rewrite F
    end.
    eexists; reflexivity.
  - unfold BufferedPageWriter.Close.
    match goal with
    | |- context [ColumnChunkMetaDataBuilder.Finish ?m ?a ?b ?c ?d ?e ?f ?g ?h ?i] =>
        destruct (Finish_returns m a b c d e f g h i (or_introl H)) as [m' F]; rewrite F
    end.
    eexists; reflexivity.
Qed.

Lemma before_pager_close_properties (w : t) :
  ColumnChunkMetaDataBuilder.properties_ (metadata_ (before_pager_close w))
  = ColumnChunkMetaDataBuilder.properties_ (metadata_ w).
Proof.
  unfold before_pager_close.
  set (w0 := set_closed_ true w).
  set (w1 := if has_dictionary_ w0 && negb (fallback_ w0)
             then WriteDictionaryPage w0 else w0).
  assert (M : same_mode w0 w1).
  { subst w1. destruct (has_dictionary_ w0 && negb (fallback_ w0));
      [apply WriteDictionaryPage_mode | apply same_mode_refl]. }
  pose proof (same_mode_trans _ _ _ M (FlushBufferedDataPages_mode w1))
    as (A1 & _).
  match goal with
  | |- ColumnChunkMetaDataBuilder.properties_ (metadata_ (if ?c then _ else _)) = _ =>
      destruct c
  end; cbn [metadata_ set_metadata_]; rewrite A1; reflexivity.
Qed.

Lemma Close_returns (w : t) :
  WriterProperties.column_encryption_properties
    (ColumnChunkMetaDataBuilder.properties_ (metadata_ w)) = None ->
  exists r w1, Close w = Some (r, w1).
Proof.
  intros H. destruct (closed_ w) eqn:C.
  - unfold Close. rewrite C. eauto.
  - rewrite (Close_first w C).
    destruct (PageWriter_Close_returns (pager_ (before_pager_close w))
                (metadata_ (before_pager_close w))
                (has_dictionary_ (before_pager_close w))
                (fallback_ (before_pager_close w))) as [[m p] E].
    + rewrite before_pager_close_properties. exact H.
    + rewrite E. eauto.
Qed.

(** Claim C7.  [Close] returns for a column that is not encrypted.  The call
    that closes emits the dictionary page if the writer is dictionary-encoding
    and has not fallen back, flushes the buffered data pages, installs the
    chunk statistics only when [rows_written_ > 0] and they are set, and
    closes the page writer.  Afterwards the writer is closed, and every later
    call writes nothing, changes nothing and returns the same
    [total_bytes_written_]. *)
Theorem Close_idempotent (w : t) :
  (WriterProperties.column_encryption_properties
     (ColumnChunkMetaDataBuilder.properties_ (metadata_ w)) = None ->
   exists r w1, Close w = Some (r, w1))
  /\ forall r w1,
       Close w = Some (r, w1) ->
       (* the call that closes *)
       (closed_ w = false ->
        PageWriter.Close (pager_ (before_pager_close w))
          (metadata_ (before_pager_close w)) (has_dictionary_ w) (fallback_ w)
        = Some (metadata_ w1, pager_ w1))
       (* every call after it *)
       /\ closed_ w1 = true
       /\ r = total_bytes_written_ w1
       /\ Close w1 = Some (r, w1).
Proof.
  split; [apply Close_returns | intros r w1; apply Close_then_closed].
Qed.

End CloseReturns.

(** ** The theorems at concrete inputs *)

Ltac in_range := vm_compute; repeat split; first [discriminate | reflexivity].

Lemma Finish_file_offset_witness :
  exists b',
    ColumnChunkMetaDataBuilder.Finish (env := Sample.env)
      (ColumnChunkMetaDataBuilder.Make Sample.properties Sample.column)
      6 4 (-1) 12 16 16 true false None = Some b'
    /\ ColumnChunkMetaData.file_offset (ColumnChunkMetaDataBuilder.column_chunk_ b') = 20.
Proof.
  destruct (@Finish_file_offset Sample.env Sample.properties Sample.column
              6 4 (-1) 12 16 16 true false None)
    as (b' & E & _ & F); [left; reflexivity | in_range | in_range |].
  exists b'. split; [exact E | exact F].
Defined.

Lemma WriteMiniBatch_counts_witness :
  let r := ColumnWriter.WriteMiniBatch (Sample.writer Sample.properties false)
             5 [2; 1; 2; 2; 0] [0; 1; 1; 0; 0] [10; 11; 12] in
  fst r = 3 /\ ColumnWriter.rows_written_ (snd r) = 3.
Proof.
  destruct (@WriteMiniBatch_counts Sample.env (Sample.writer Sample.properties false)
              5 [2; 1; 2; 2; 0] [0; 1; 1; 0; 0] [10; 11; 12])
    as (_ & V & R); [in_range | in_range | in_range |].
  split; [exact V | exact R].
Defined.

Lemma CheckDictionarySizeLimit_falls_back_witness :
  let w' := ColumnWriter.CheckDictionarySizeLimit Sample.three_values in
  let u := ColumnWriter.WriteMiniBatches w' [(2, [2; 2], [0; 0], [7; 8])] in
  ColumnWriter.fallback_ w' = true
  /\ ColumnWriter.encoding_ w' = Encoding.PLAIN
  /\ ColumnWriter.data_pages_ (ColumnWriter.AddDataPage u) = [].
Proof.
  destruct (@CheckDictionarySizeLimit_falls_back Sample.env Sample.three_values
              [(2, [2; 2], [0; 0], [7; 8])])
    as (_ & _ & _ & E & F & _ & _ & _ & _ & _ & P);
    [reflexivity | reflexivity | in_range |].
  repeat split; assumption.
Defined.

Lemma AddDataPage_payload_layout_witness :
  ColumnWriter.uncompressed_data_ (ColumnWriter.AddDataPage Sample.three_values)
  = [x03; x00; x00; x00; x00; x00; x00;
     x03; x00; x00; x00; x02; x02; x02;
     x01; x02; x03].
Proof.
  destruct (@AddDataPage_payload_layout Sample.env Sample.three_values)
    as (P & _); [in_range | intros _; in_range | intros _; in_range | in_range |].
  exact P.
Defined.

Lemma Close_idempotent_witness :
  exists r w1,
    ColumnWriter.Close Sample.three_values = Some (r, w1)
    /\ ColumnWriter.Close w1 = Some (r, w1).
Proof.
  destruct (@Close_idempotent Sample.env Sample.three_values) as [T I].
  destruct (T eq_refl) as (r & w1 & E).
  exists r, w1. split; [exact E | apply (I r w1 E)].
Defined.

(** ** The bytes a page write appends *)

Lemma int32_le z : 0 <= z -> Int.int32 z <= z.
Proof.
  intros H. unfold Int.int32, Int.wrap.
  pose proof (Z.mod_le (z + 2 ^ (32 - 1)) (2 ^ 32)) as M.
  assert (0 <= z + 2 ^ (32 - 1)) by lia. assert (0 < 2 ^ 32) by lia. lia.
Qed.

Lemma uint32_le z : 0 <= z -> 0 <= Int.uint32 z <= z.
Proof.
  intros H. unfold Int.uint32.
  pose proof (Z.mod_le z (2 ^ 32)) as M. pose proof (Z.mod_pos_bound z (2 ^ 32)). lia.
Qed.

Lemma len_take_max {A} (l : list A) n : n <= len l -> len (take n l) = Z.max 0 n.
Proof.
  intros H. destruct (Z.le_gt_cases 0 n).
  - rewrite len_take by lia. lia.
  - unfold take, len. replace (Z.to_nat n) with O by lia. cbn. lia.
Qed.

Section PageBytes.
Context {env : Env}.
Import SerializedPageWriter.

Lemma Serialize_appends {T : Type} (write : T -> list byte) (obj : T) (out : list byte)
    (encryptor : option Encryptor.t) :
  exists bytes,
    snd (Serialize write obj out encryptor) = out ++ bytes
    /\ len bytes = Z.max 0 (fst (Serialize write obj out encryptor)).
Proof.
  unfold Serialize. destruct encryptor as [e|].
  - unfold SerializeEncryptedObj, Encryptor_run. cbn [fst snd]. unfold Write.
    eexists. split; [reflexivity|].
    rewrite (int64_small (Int.int32 _)).
    + apply len_take_max. apply int32_le, len_nonneg.
    + pose proof (int32_range (len (Encryptor_Encrypt e
                    (take (Int.uint32 (len (write obj))) (write obj))))) as R.
      unfold Int.in_int32, Int.in_int64 in *. lia.
  - cbn [fst snd]. unfold Write. eexists. split; [reflexivity|].
    pose proof (uint32_le (len (write obj)) (len_nonneg _)) as U.
    rewrite int64_small by (unfold Int.in_int64; pose proof (len_nonneg (write obj));
                            unfold Int.uint32 in *;
                            pose proof (Z.mod_pos_bound (len (write obj)) (2 ^ 32)); lia).
    apply len_take_max. lia.
Qed.

Lemma encrypt_page_buffer w m data :
  snd (fst (encrypt_page w m data (Int.int32 (len data))))
  = Int.int32 (len (fst (fst (encrypt_page w m data (Int.int32 (len data)))))).
Proof.
  unfold encrypt_page.
  destruct (data_encryptor_ w); [|reflexivity].
  destruct (data_encryptor_ (UpdateEncryption w m)); [|reflexivity].
  unfold Encryptor_run. reflexivity.
Qed.


(** Runs one page write symbolically, keeping the bytes it appends. *)
Ltac page_write_bytes offset :=
  match goal with
  | |- context [encrypt_page ?w ?m ?d ?n] =>
      let C := fresh "C" in
      let L := fresh "L" in
      let B := fresh "B" in
      let E0 := fresh "E" in
      let EM := fresh "E" in
      pose proof (encrypt_page_counters w m d n) as C;
      pose proof (encrypt_page_length w m d (len d)) as L;
      pose proof (encrypt_page_buffer w m d) as B;
      destruct (encrypt_page w m d n) as [[? ?] ?];
      cbn [fst snd] in *;
      destruct C as (Cs & Cn & Cd & Ca & Cu & Cc & Co);
      cbv zeta;
      destruct (offset w =? 0) eqn:E0; rewrite ?Ca, ?Cd, E0;
      cbn [meta_encryptor_ set_data_page_offset_ set_dictionary_page_offset_];
      destruct (meta_encryptor_ _) eqn:EM;
      unfold UpdateEncryption;
      cbn [meta_encryptor_ set_data_page_offset_ set_dictionary_page_offset_
           set_data_page_headerAAD_ set_meta_encryptor_ option_map sink_
           data_page_headerAAD_ page_ordinal_];
      try rewrite EM; cbn [option_map];
      match goal with
      | |- context [Serialize ?wr ?o ?out ?e] =>
          let S := fresh "S" in
          let hdr := fresh "hdr" in
          destruct (Serialize_appends wr o out e) as (hdr & S & ?);
          destruct (Serialize wr o out e);
          cbn [fst snd] in *; subst;
          cbn; rewrite ?Cs, ?Cu, ?Cc, ?Ca, ?Cd, ?Cn, ?Co, ?L;
          exists hdr; eexists; unfold Write; rewrite <- ?app_assoc;
          repeat split; try reflexivity; try assumption
      end
  end.

Lemma WriteDataPage_bytes w page :
  let r := WriteDataPage' w page in
  exists hdr data,
    sink_ (after r) = sink_ w ++ hdr ++ data
    /\ len hdr = Z.max 0 (header_size r)
    /\ len data = Z.max 0 (format.compressed_page_size (page_header r))
    /\ num_values_ (after r)
       = Int.int64 (num_values_ w + CompressedDataPage.num_values page)
    /\ page_ordinal_ (after r) = Int.int16 (page_ordinal_ w + 1).
Proof.
  unfold WriteDataPage'. page_write_bytes data_page_offset_.
  all: apply len_take_max, int32_le, len_nonneg.
Qed.

Lemma WriteDictionaryPage_bytes w page :
  let r := WriteDictionaryPage' w page in
  exists hdr data,
    sink_ (after r) = sink_ w ++ hdr ++ data
    /\ len hdr = Z.max 0 (header_size r)
    /\ len data = Z.max 0 (format.compressed_page_size (page_header r))
    /\ num_values_ (after r) = num_values_ w
    /\ page_ordinal_ (after r) = page_ordinal_ w.
Proof.
  unfold WriteDictionaryPage'. page_write_bytes dictionary_page_offset_.
  all: apply len_take_max, int32_le, len_nonneg.
Qed.

Lemma write_page_bytes w (p : Chunk.page) :
  let r := Chunk.write_page w p in
  exists hdr data,
    sink_ (after r) = sink_ w ++ hdr ++ data
    /\ len hdr = Z.max 0 (header_size r)
    /\ len data = Z.max 0 (format.compressed_page_size (page_header r))
    /\ bytes_written r = len hdr + len data.
Proof.
  destruct p as [d|d]; cbn [Chunk.write_page].
  - destruct (WriteDictionaryPage_bytes w d) as (hdr & data & S & H & D & _).
    destruct (WriteDictionaryPage_counters w d) as (_ & _ & _ & _ & _ & B).
    exists hdr, data. repeat split; try assumption.
    rewrite B, S. unfold Tell. rewrite !len_app. lia.
  - destruct (WriteDataPage_bytes w d) as (hdr & data & S & H & D & _).
    destruct (WriteDataPage_counters w d) as (_ & _ & _ & _ & _ & B).
    exists hdr, data. repeat split; try assumption.
    rewrite B, S. unfold Tell. rewrite !len_app. lia.
Qed.

(** X1.  A page write only appends to the stream: the stream afterwards is
    the stream before followed by the bytes of the call, the value the call
    returns is the number of those bytes, and that number is the serialized
    header size plus the [compressed_page_size] of the header, each counted
    as 0 should it have wrapped to a negative [int]. *)
Theorem page_write_appends (w : t) (p : Chunk.page) :
  let r := Chunk.write_page w p in
  exists bytes,
    sink_ (after r) = sink_ w ++ bytes
    /\ bytes_written r = len bytes
    /\ len bytes
       = Z.max 0 (header_size r)
         + Z.max 0 (format.compressed_page_size (page_header r)).
Proof.
  destruct (write_page_bytes w p) as (hdr & data & S & H & D & B). cbv zeta.
  exists (hdr ++ data). rewrite len_app, <- H, <- D. auto.
Qed.

(** The stream and the compressed total through a run of page writes whose
    sizes did not wrap. *)
Lemma write_pages_stream pages : forall w,
  Int.in_int64 (total_compressed_size_ w) ->
  Forall (fun r => 0 <= header_size r
                   /\ 0 <= format.compressed_page_size (page_header r))
    (fst (Chunk.write_pages w pages)) ->
  let w' := snd (Chunk.write_pages w pages) in
  exists bytes,
    sink_ w' = sink_ w ++ bytes
    /\ total_compressed_size_ w' = Int.int64 (total_compressed_size_ w + len bytes)
    /\ len bytes = Chunk.sum bytes_written (fst (Chunk.write_pages w pages)).
Proof.
  induction pages as [|p ps IH]; intros w HR HF.
  - exists []. cbn. rewrite app_nil_r, Z.add_0_r, int64_small by assumption.
    repeat split.
  - rewrite write_pages_cons in *. cbn [fst snd] in *.
    inversion HF as [|? ? [Hh Hc] Hps]; subst.
    destruct (write_page_bytes w p) as (hdr & data & S & H & D & B).
    destruct (write_page_totals w p) as (_ & _ & Ec).
    destruct (IH (after (Chunk.write_page w p))) as (bytes & IS & IT & IL);
      [rewrite Ec; apply int64_range | exact Hps |]. cbv zeta in *.
    exists ((hdr ++ data) ++ bytes). rewrite IS, S, IT, Ec, <- !app_assoc.
    repeat split.
    + rewrite int64_add_l, !len_app. f_equal. lia.
    + cbn [Chunk.sum fold_right]. fold (Chunk.sum bytes_written
              (fst (Chunk.write_pages (after (Chunk.write_page w p)) ps))).
      rewrite !len_app. lia.
Qed.


(** X2.  Counted from zero, and while no size wraps, the
    [total_compressed_size_] the page writer hands to the metadata is the
    number of bytes its page writes appended to the stream, which is also
    the sum of the values the calls returned. *)
Theorem total_compressed_size_is_stream_growth (w : t) (pages : list Chunk.page) :
  let rs := fst (Chunk.write_pages w pages) in
  let w' := snd (Chunk.write_pages w pages) in
  total_compressed_size_ w = 0 ->
  Forall (fun r => 0 <= header_size r
                   /\ 0 <= format.compressed_page_size (page_header r)) rs ->
  Int.in_int64 (Tell (sink_ w')) ->
  total_compressed_size_ w' = Tell (sink_ w') - Tell (sink_ w)
  /\ total_compressed_size_ w' = Chunk.sum bytes_written rs.
Proof.
  cbv zeta. intros H0 HF HR.
  destruct (write_pages_stream pages w) as (bytes & S & T & L);
    [rewrite H0; unfold Int.in_int64; lia | exact HF |].
  cbv zeta in *. rewrite S in HR |- *. unfold Tell in *. rewrite len_app in *.
  rewrite T, H0, <- L, Z.add_0_l. rewrite int64_small.
  - split; lia.
  - pose proof (len_nonneg bytes). pose proof (len_nonneg (sink_ w)).
    unfold Int.in_int64 in *. lia.
Qed.

End PageBytes.

Lemma total_compressed_size_is_stream_growth_witness :
  let w := @SerializedPageWriter.Make Sample.env Sample.file_start
             Compression.UNCOMPRESSED 0 0 None None in
  let pages := [Chunk.Data (Sample.data_page [x01; x02; x03] 3);
                Chunk.Data (Sample.data_page [x04] 1)] in
  SerializedPageWriter.total_compressed_size_ (snd (Chunk.write_pages w pages)) = 18 - 4
  /\ SerializedPageWriter.total_compressed_size_ (snd (Chunk.write_pages w pages)) = 14.
Proof.
  apply (@total_compressed_size_is_stream_growth Sample.env).
  - reflexivity.
  - repeat (apply Forall_cons; [vm_compute; split; discriminate|]). apply Forall_nil.
  - vm_compute. split; [discriminate | reflexivity].
Defined.

Section PageCounts.
Context {env : Env}.
Import SerializedPageWriter.

Lemma int16_add_l a b : Int.int16 (Int.int16 a + b) = Int.int16 (a + b).
Proof. apply wrap_add_l. lia. Qed.

Lemma int16_small z : - 2 ^ 15 <= z < 2 ^ 15 -> Int.int16 z = z.
Proof. intros H. apply wrap_small; [lia | exact H]. Qed.

Lemma int16_range z : - 2 ^ 15 <= Int.int16 z < 2 ^ 15.
Proof. apply (wrap_range 16). lia. Qed.

(** X3.  Through any run of page writes, [num_values_] grows by the
    [num_values] of the data pages and [page_ordinal_] by their number, the
    first in [int64_t] and the second in [int16_t] arithmetic; dictionary
    pages change neither. *)
Theorem write_pages_counts (pages : list Chunk.page) : forall w : t,
  Int.in_int64 (num_values_ w) ->
  - 2 ^ 15 <= page_ordinal_ w < 2 ^ 15 ->
  let w' := snd (Chunk.write_pages w pages) in
  let data := BufferedChunk.data_pages pages in
  num_values_ w'
  = Int.int64 (num_values_ w
               + fold_right (fun d n => CompressedDataPage.num_values d + n) 0 data)
  /\ page_ordinal_ w' = Int.int16 (page_ordinal_ w + len data).
Proof.
  induction pages as [|p ps IH]; intros w HN HO.
  - cbn. rewrite !Z.add_0_r, int64_small, int16_small by assumption. auto.
  - rewrite write_pages_cons. cbn [fst snd].
    destruct p as [d|d]; cbn [Chunk.write_page].
    + destruct (WriteDictionaryPage_bytes w d) as (? & ? & _ & _ & _ & EN & EO).
      destruct (IH (after (WriteDictionaryPage' w d))) as [IN IO];
        [rewrite EN; exact HN | rewrite EO; exact HO |].
      cbv zeta in *. rewrite IN, IO, EN, EO. cbn. auto.
    + destruct (WriteDataPage_bytes w d) as (? & ? & _ & _ & _ & EN & EO).
      destruct (IH (after (WriteDataPage' w d))) as [IN IO];
        [rewrite EN; apply int64_range | rewrite EO; apply int16_range |].
      cbv zeta in *. rewrite IN, IO, EN, EO.
      cbn [BufferedChunk.data_pages flat_map app fold_right].
      fold (BufferedChunk.data_pages ps).
      rewrite !int64_add_l, !int16_add_l. unfold len. cbn [length]. rewrite Nat2Z.inj_succ.
      split; f_equal; lia.
Qed.

End PageCounts.

Lemma write_pages_counts_witness :
  let w := @SerializedPageWriter.Make Sample.env Sample.file_start
             Compression.UNCOMPRESSED 0 0 None None in
  let pages := [Chunk.Dictionary
                  {| DictionaryPage.buffer := [x07; x08]; DictionaryPage.num_values := 2;
                     DictionaryPage.encoding := Encoding.PLAIN;
                     DictionaryPage.is_sorted := false |};
                Chunk.Data (Sample.data_page [x01; x02; x03] 3);
                Chunk.Data (Sample.data_page [x04] 1)] in
  SerializedPageWriter.num_values_ (snd (Chunk.write_pages w pages)) = 4
  /\ SerializedPageWriter.page_ordinal_ (snd (Chunk.write_pages w pages)) = 2.
Proof.
  apply (@write_pages_counts Sample.env).
  - vm_compute. split; [discriminate | reflexivity].
  - vm_compute. split; [discriminate | reflexivity].
Defined.

(** ** Buffered page writes *)

Section Buffering.
Context {env : Env}.
Import SerializedPageWriter.

Lemma same_but_stream_UpdateEncryption prefix s p m :
  BufferedChunk.same_but_stream prefix s p ->
  BufferedChunk.same_but_stream prefix (UpdateEncryption s m) (UpdateEncryption p m).
Proof.
  unfold BufferedChunk.same_but_stream.
  intros (Hs & Hn & Hu & Hc & Ho & Hr & Hl & Hz & Ha & Hh & Hm & Hd).
  destruct m; unfold UpdateEncryption; cbn; rewrite ?Hr, ?Hl, ?Ha, ?Hh, ?Hm, ?Hd, ?Ho;
    repeat split; assumption.
Qed.

Lemma same_but_stream_encrypt_page prefix s p m data n :
  BufferedChunk.same_but_stream prefix s p ->
  fst (encrypt_page s m data n) = fst (encrypt_page p m data n)
  /\ BufferedChunk.same_but_stream prefix (snd (encrypt_page s m data n))
       (snd (encrypt_page p m data n)).
Proof.
  intros R. pose proof (same_but_stream_UpdateEncryption prefix s p m R) as RU.
  unfold encrypt_page.
  assert (Hd : data_encryptor_ s = data_encryptor_ p) by apply R.
  assert (HdU : data_encryptor_ (UpdateEncryption s m)
                = data_encryptor_ (UpdateEncryption p m)) by apply RU.
  rewrite Hd. destruct (data_encryptor_ p); [|auto].
  rewrite HdU. destruct (data_encryptor_ (UpdateEncryption p m)); [|auto].
  destruct (Encryptor_run _ _ _). auto.
Qed.

Lemma Serialize_prefix {T : Type} (write : T -> list byte) (obj : T)
    (prefix out : list byte) (encryptor : option Encryptor.t) :
  Serialize write obj (prefix ++ out) encryptor
  = (fst (Serialize write obj out encryptor),
     prefix ++ snd (Serialize write obj out encryptor)).
Proof.
  unfold Serialize, SerializeEncryptedObj, Write. destruct encryptor.
  - destruct (Encryptor_run _ _ _). cbn. now rewrite app_assoc.
  - cbn. now rewrite app_assoc.
Qed.

Lemma same_but_stream_offsets prefix s p (cs cp : bool) (ds dp os op : Z) :
  BufferedChunk.same_but_stream prefix s p ->
  BufferedChunk.same_but_stream prefix
    (if cs then set_dictionary_page_offset_ ds s else s)
    (if cp then set_dictionary_page_offset_ dp p else p)
  /\ BufferedChunk.same_but_stream prefix
       (if cs then set_data_page_offset_ os s else s)
       (if cp then set_data_page_offset_ op p else p).
Proof. intros R. destruct cs, cp; split; exact R. Qed.

Lemma same_but_stream_meta prefix s p m :
  BufferedChunk.same_but_stream prefix s p ->
  BufferedChunk.same_but_stream prefix
    (match meta_encryptor_ s with Some _ => UpdateEncryption s m | None => s end)
    (match meta_encryptor_ p with Some _ => UpdateEncryption p m | None => p end).
Proof.
  intros R. replace (meta_encryptor_ s) with (meta_encryptor_ p) by (symmetry; apply R).
  destruct (meta_encryptor_ p); [apply same_but_stream_UpdateEncryption|]; exact R.
Qed.

(** Runs the same page write on two writers that differ in their streams;
    [set_offset] and [get_offset] name the page offset the call may assign
    and [k] the module type of the page header. *)
Ltac page_write_pair prefix s p R set_offset get_offset k :=
  match goal with
  | |- context [encrypt_page s ?m ?x ?n] =>
      let E1 := fresh "E" in
      let E2 := fresh "E" in
      let ws := fresh "ws" in
      let wp := fresh "wp" in
      let R0 := fresh "R" in
      let R1 := fresh "R" in
      let s0 := fresh "s" in
      let p0 := fresh "p" in
      let s1 := fresh "s" in
      let p1 := fresh "p" in
      destruct (same_but_stream_encrypt_page prefix s p m x n R) as [E1 E2];
      destruct (encrypt_page s m x n) as [[? ?] ws];
      destruct (encrypt_page p m x n) as [[? ?] wp];
      cbn [fst snd] in *; injection E1 as -> ->; cbv zeta;
      set (s0 := if get_offset ws =? 0 then set_offset (Tell (sink_ ws)) ws else ws);
      set (p0 := if get_offset wp =? 0 then set_offset (Tell (sink_ wp)) wp else wp);
      assert (R0 : BufferedChunk.same_but_stream prefix s0 p0)
        by first [ exact (proj1 (same_but_stream_offsets prefix ws wp _ _ _ _ 0 0 E2))
                 | exact (proj2 (same_but_stream_offsets prefix ws wp _ _ 0 0 _ _ E2)) ];
      set (s1 := match meta_encryptor_ s0 with
                 | Some _ => UpdateEncryption s0 k | None => s0 end);
      set (p1 := match meta_encryptor_ p0 with
                 | Some _ => UpdateEncryption p0 k | None => p0 end);
      pose proof (same_but_stream_meta prefix s0 p0 k R0) as R1;
      fold s1 p1 in R1; clearbody s1 p1; clear R0; clearbody s0 p0;
      let Hs := fresh "Hs" in
      let Hm := fresh "Hm" in
      pose proof R1 as (Hs & _ & _ & _ & _ & _ & _ & _ & _ & _ & Hm & _);
      rewrite Hs, Hm, Serialize_prefix;
      destruct (Serialize _ _ (sink_ p1) _);
      cbn [fst snd after page_header header_size bytes_written];
      unfold BufferedChunk.same_but_stream in *;
      cbn [sink_ num_values_ total_uncompressed_size_ total_compressed_size_
           page_ordinal_ row_group_ordinal_ column_ordinal_ compressor_
           data_pageAAD_ data_page_headerAAD_ meta_encryptor_ data_encryptor_
           set_sink_ set_total_uncompressed_size_ set_total_compressed_size_
           set_num_values_ set_page_ordinal_]
  end.

Ltac page_write_pair_done :=
  match goal with
  | E : sink_ ?ws = _ ++ sink_ ?wp /\ _, R1 : sink_ ?s1 = _ ++ sink_ ?p1 /\ _
    |- context [Tell (sink_ ?ws)] =>
      let Es := fresh "E" in
      destruct E as (Es & _);
      destruct R1 as (_ & -> & -> & -> & -> & -> & -> & -> & -> & -> & -> & ->);
      unfold Write, Tell; rewrite Es, <- ?app_assoc, ?len_app;
      repeat split; lia
  end.

Lemma same_but_stream_step (prefix : list byte) (s p : t) (page : Chunk.page) :
  BufferedChunk.same_but_stream prefix s p ->
  let rs := Chunk.write_page s page in
  let rp := Chunk.write_page p page in
  BufferedChunk.same_but_stream prefix (after rs) (after rp)
  /\ page_header rs = page_header rp
  /\ header_size rs = header_size rp
  /\ bytes_written rs = bytes_written rp.
Proof.
  intros R. destruct page as [d|d]; cbn [Chunk.write_page].
  - unfold WriteDictionaryPage'.
    assert (HC : has_compressor s = has_compressor p)
      by (unfold has_compressor;
          now replace (compressor_ s) with (compressor_ p) by (symmetry; apply R)).
    assert (HZ : Compress s (DictionaryPage.buffer d) []
                 = Compress p (DictionaryPage.buffer d) [])
      by (unfold Compress;
          now replace (compressor_ s) with (compressor_ p) by (symmetry; apply R)).
    rewrite HC, HZ.
    page_write_pair prefix s p R set_dictionary_page_offset_ dictionary_page_offset_
      encryption.kDictionaryPageHeader.
    page_write_pair_done.
  - unfold WriteDataPage'.
    page_write_pair prefix s p R set_data_page_offset_ data_page_offset_
      encryption.kDataPageHeader.
    page_write_pair_done.
Qed.

Lemma same_but_stream_pages prefix pages : forall s p,
  BufferedChunk.same_but_stream prefix s p ->
  BufferedChunk.same_but_stream prefix (snd (Chunk.write_pages s pages))
    (snd (Chunk.write_pages p pages))
  /\ map bytes_written (fst (Chunk.write_pages s pages))
     = map bytes_written (fst (Chunk.write_pages p pages))
  /\ map page_header (fst (Chunk.write_pages s pages))
     = map page_header (fst (Chunk.write_pages p pages)).
Proof.
  induction pages as [|pg ps IH]; intros s p R.
  - cbn. auto.
  - rewrite !write_pages_cons. cbn [fst snd map].
    destruct (same_but_stream_step prefix s p pg R) as (R' & Eh & _ & Eb).
    destruct (IH _ _ R') as (IR & IB & IH').
    cbv zeta in *. rewrite Eh, Eb, IB, IH'. auto.
Qed.

Lemma BufferedChunk_write_pages pages : forall b : BufferedPageWriter.t,
  BufferedChunk.write_pages b pages
  = (map bytes_written (fst (Chunk.write_pages (BufferedPageWriter.pager_ b) pages)),
     {| BufferedPageWriter.final_sink_ := BufferedPageWriter.final_sink_ b;
        BufferedPageWriter.pager_ :=
          snd (Chunk.write_pages (BufferedPageWriter.pager_ b) pages) |}).
Proof.
  induction pages as [|pg ps IH]; intros b.
  - destruct b. reflexivity.
  - rewrite write_pages_cons. cbn [BufferedChunk.write_pages fst snd map].
    destruct pg as [d|d]; cbn [BufferedChunk.write_page Chunk.write_page];
      unfold BufferedPageWriter.WriteDictionaryPage, BufferedPageWriter.WriteDataPage,
        WriteDictionaryPage, WriteDataPage; rewrite IH; reflexivity.
Qed.

(** X4.  Buffering does not change the pages: the calls made on a buffering
    page writer return what the same calls return on a page writer that
    streams to [sink], nothing reaches [sink] before [Close], and the bytes
    held in memory are exactly the bytes the streaming writer has appended
    to [sink]. *)
Theorem buffered_pages_are_streamed_pages (sink : list byte) (codec : Compression.type)
    (row_group_ordinal column_ordinal : Z)
    (meta_encryptor data_encryptor : option Encryptor.t) (pages : list Chunk.page) :
  let s := SerializedPageWriter.Make sink codec row_group_ordinal column_ordinal
             meta_encryptor data_encryptor in
  let b := BufferedPageWriter.Make sink codec row_group_ordinal column_ordinal
             meta_encryptor data_encryptor in
  let s' := snd (Chunk.write_pages s pages) in
  let b' := snd (BufferedChunk.write_pages b pages) in
  fst (BufferedChunk.write_pages b pages)
  = map bytes_written (fst (Chunk.write_pages s pages))
  /\ BufferedPageWriter.final_sink_ b' = sink
  /\ sink_ s' = sink ++ BufferedPageWriter.in_memory_sink_ b'.
Proof.
  cbv zeta. rewrite BufferedChunk_write_pages. cbn [fst snd].
  unfold BufferedPageWriter.in_memory_sink_, BufferedPageWriter.Make.
  cbn [BufferedPageWriter.pager_ BufferedPageWriter.final_sink_].
  destruct (same_but_stream_pages sink pages
              (Make sink codec row_group_ordinal column_ordinal
                 meta_encryptor data_encryptor)
              (Make [] codec row_group_ordinal column_ordinal
                 meta_encryptor data_encryptor)) as (R & EB & _).
  - unfold Make, InitEncryption, BufferedChunk.same_but_stream.
    destruct data_encryptor, meta_encryptor; cbn; rewrite ?app_nil_r; repeat split.
  - rewrite EB. repeat split. apply R.
Qed.

End Buffering.

(** ** What [Finish] leaves in the chunk besides the offsets *)

Section FinishMore.
Context {env : Env}.
Import ColumnChunkMetaDataBuilder.

Lemma Finish_encryption (b b' : t)
    (num_values dictionary_page_offset index_page_offset data_page_offset
       compressed_size uncompressed_size : Z)
    (has_dictionary dictionary_fallback : bool) (encryptor : option Encryptor.t) :
  Finish b num_values dictionary_page_offset index_page_offset data_page_offset
    compressed_size uncompressed_size has_dictionary dictionary_fallback encryptor
  = Some b' ->
  let c := column_chunk_ b in
  let c' := column_chunk_ b' in
  let cep := WriterProperties.column_encryption_properties (properties_ b) in
  let encrypted :=
    match cep with Some p => ColumnEncryptionProperties.is_encrypted p | None => false end in
  let footer :=
    match WriterProperties.file_encryption_properties (properties_ b) with
    | Some fep => FileEncryptionProperties.encrypted_footer fep
    | None => false
    end in
  let encrypt_metadata := Encryptor.EncryptColumnMetaData footer cep in
  format.crypto_metadata c'
  = (match cep with
     | Some p =>
         if ColumnEncryptionProperties.is_encrypted p then
           Some (if ColumnEncryptionProperties.is_encrypted_with_footer_key p
                 then format.ENCRYPTION_WITH_FOOTER_KEY
                 else format.ENCRYPTION_WITH_COLUMN_KEY
                        (ColumnDescriptor.path (column_ b))
                        (ColumnEncryptionProperties.key_metadata p))
         else format.crypto_metadata c
     | None => format.crypto_metadata c
     end)
  /\ (encrypted = true -> WriterProperties.file_encryption_properties (properties_ b) <> None)
  /\ (if encrypt_metadata
      then (exists bytes, format.encrypted_column_metadata c' = Some bytes)
           /\ encryptor <> None
      else format.encrypted_column_metadata c' = format.encrypted_column_metadata c)
  /\ format.isset_meta_data c' = negb (encrypt_metadata && footer)
  /\ format.isset_statistics (format.meta_data c')
     = format.isset_statistics (format.meta_data c)
       && negb (encrypt_metadata && negb footer)
  /\ format.statistics (format.meta_data c') = format.statistics (format.meta_data c)
  /\ format.isset_index_page_offset (format.meta_data c')
     = (0 <=? index_page_offset) || format.isset_index_page_offset (format.meta_data c)
  /\ format.num_values (format.meta_data c') = num_values
  /\ format.encodings (format.meta_data c')
     = thrift_encodings b has_dictionary dictionary_fallback
  /\ properties_ b' = properties_ b
  /\ column_ b' = column_ b.
Proof.
  unfold Finish, Encryptor.EncryptColumnMetaData. intros H.
  destruct (0 <? dictionary_page_offset) eqn:Hd;
    destruct (0 <=? index_page_offset);
    destruct (WriterProperties.column_encryption_properties (properties_ b)) as [e|];
    try destruct (ColumnEncryptionProperties.is_encrypted e);
    try destruct (WriterProperties.file_encryption_properties (properties_ b)) as [f|];
    try destruct (FileEncryptionProperties.encrypted_footer f);
    try destruct (ColumnEncryptionProperties.is_encrypted_with_footer_key e);
    try destruct encryptor as [k|];
    cbn in H;
    try discriminate H;
    try destruct (Encryptor_run _ _ _);
    inversion H; subst b'; cbn; rewrite ?andb_true_r, ?andb_false_r;
    repeat split; try reflexivity; try discriminate; try (eexists; reflexivity).
Qed.

End FinishMore.

(** ** Page offsets through a run of page writes *)

Section Offsets.
Context {env : Env}.
Import SerializedPageWriter.

Lemma write_page_grows w (p : Chunk.page) :
  Tell (sink_ w) <= Tell (sink_ (after (Chunk.write_page w p))).
Proof.
  destruct (write_page_bytes w p) as (hdr & data & S & _). cbv zeta in S.
  rewrite S. unfold Tell. rewrite !len_app.
  pose proof (len_nonneg hdr). pose proof (len_nonneg data). lia.
Qed.

Lemma write_page_offsets w (p : Chunk.page) :
  let r := Chunk.write_page w p in
  match p with
  | Chunk.Data _ =>
      data_page_offset_ (after r)
      = (if data_page_offset_ w =? 0 then Tell (sink_ w) else data_page_offset_ w)
      /\ dictionary_page_offset_ (after r) = dictionary_page_offset_ w
  | Chunk.Dictionary _ =>
      data_page_offset_ (after r) = data_page_offset_ w
      /\ dictionary_page_offset_ (after r)
         = (if dictionary_page_offset_ w =? 0 then Tell (sink_ w)
            else dictionary_page_offset_ w)
  end.
Proof.
  destruct p as [d|d]; cbn [Chunk.write_page].
  - destruct (WriteDictionaryPage_counters w d) as (_ & _ & _ & H1 & H2 & _). auto.
  - destruct (WriteDataPage_counters w d) as (_ & _ & _ & H1 & H2 & _). auto.
Qed.

Lemma write_pages_offsets pages : forall w,
  let w' := snd (Chunk.write_pages w pages) in
  (data_page_offset_ w <> 0 -> data_page_offset_ w' = data_page_offset_ w)
  /\ (data_page_offset_ w = 0 ->
      data_page_offset_ w' = 0 \/ Tell (sink_ w) <= data_page_offset_ w')
  /\ (dictionary_page_offset_ w <> 0 ->
      dictionary_page_offset_ w' = dictionary_page_offset_ w)
  /\ (dictionary_page_offset_ w = 0 ->
      dictionary_page_offset_ w' = 0 \/ Tell (sink_ w) <= dictionary_page_offset_ w')
  /\ Tell (sink_ w) <= Tell (sink_ w').
Proof.
  induction pages as [|p ps IH]; intros w.
  - cbn. repeat split; auto; lia.
  - rewrite write_pages_cons. cbn [fst snd].
    pose proof (write_page_grows w p) as G.
    pose proof (write_page_offsets w p) as O. cbv zeta in O.
    destruct (IH (after (Chunk.write_page w p))) as (I1 & I2 & I3 & I4 & I5).
    cbv zeta in *.
    destruct p as [d|d]; destruct O as [O1 O2]; rewrite O1, O2 in *.
    + destruct (Z.eqb_spec (dictionary_page_offset_ w) 0) as [E|E]; lia.
    + destruct (Z.eqb_spec (data_page_offset_ w) 0) as [E|E]; lia.
Qed.

Lemma write_pages_data_offset_set pages : forall w,
  (exists d, In (Chunk.Data d) pages) ->
  0 < Tell (sink_ w) ->
  data_page_offset_ w = 0 ->
  data_page_offset_ (snd (Chunk.write_pages w pages)) <> 0.
Proof.
  induction pages as [|p ps IH]; intros w [d HI] HT H0; [destruct HI|].
  rewrite write_pages_cons. cbn [fst snd].
  pose proof (write_page_grows w p) as G.
  pose proof (write_page_offsets w p) as O. cbv zeta in O.
  destruct p as [x|x]; destruct O as [O1 O2].
  - apply IH; [|lia|congruence].
    destruct HI as [HI|HI]; [discriminate | eauto].
  - rewrite H0 in O1. cbn in O1.
    destruct (write_pages_offsets ps (after (Chunk.write_page w (Chunk.Data x))))
      as (I1 & _). cbv zeta in I1. cbn [Chunk.write_page] in *. lia.
Qed.

(** The first page of a chunk that holds a data page and does not start at
    position 0 is where the reader will start: the smaller of the two page
    offsets the writer recorded, the dictionary page offset counting only
    when it was set. *)
Lemma write_pages_first_offset pages w :
  (exists d, In (Chunk.Data d) pages) ->
  0 < Tell (sink_ w) ->
  data_page_offset_ w = 0 ->
  dictionary_page_offset_ w = 0 ->
  let w' := snd (Chunk.write_pages w pages) in
  (if (0 <? dictionary_page_offset_ w')
      && (dictionary_page_offset_ w' <? data_page_offset_ w')
   then dictionary_page_offset_ w' else data_page_offset_ w')
  = Tell (sink_ w).
Proof.
  intros HD HT H0 K0. cbv zeta.
  destruct pages as [|p ps]; [destruct HD as [? []]|].
  pose proof (write_pages_data_offset_set (p :: ps) w HD HT H0) as NZ.
  rewrite write_pages_cons in *. cbn [fst snd] in *.
  pose proof (write_page_grows w p) as G.
  pose proof (write_page_offsets w p) as O. cbv zeta in O.
  destruct (write_pages_offsets ps (after (Chunk.write_page w p)))
    as (I1 & I2 & I3 & I4 & I5). cbv zeta in *.
  cbn [Chunk.write_page] in *.
  destruct p as [x|x]; destruct O as [O1 O2];
    try rewrite H0 in O1; try rewrite K0 in O2; cbn [Z.eqb] in O1, O2;
    match goal with
    | |- (if (0 <? ?k) && (?k <? ?d) then _ else _) = _ =>
        destruct (Z.ltb_spec 0 k); destruct (Z.ltb_spec k d); cbn [andb]; lia
    end.
Qed.

End Offsets.

(** ** The byte range the reader opens for a chunk *)

Section ReaderRange.
Import SerializedFile.
Import ColumnChunkMetaDataImpl.

Lemma GetColumnPageReader_eq (col : ColumnChunkMetaDataImpl.t)
    (version : ApplicationVersion.t) (source : list byte) (md : format.ColumnMetaData) :
  GetMetadataIfSet col = Ok md ->
  SerializedRowGroup.GetColumnPageReader col version source
  = let col_start :=
      if format.isset_dictionary_page_offset md
         && (0 <? format.dictionary_page_offset md)
         && (format.dictionary_page_offset md <? format.data_page_offset md)
      then format.dictionary_page_offset md else format.data_page_offset md in
    let col_length := format.total_compressed_size md in
    Ok (col_start,
        if ApplicationVersion.VersionLt version
             ApplicationVersion.PARQUET_816_FIXED_VERSION
        then Int.int64
               (col_length
                + Z.min SerializedRowGroup.kMaxDictHeaderSize
                    (Int.int64 (len source - Int.int64 (col_start + col_length))))
        else col_length).
Proof.
  intros H. unfold SerializedRowGroup.GetColumnPageReader, data_page_offset,
    has_dictionary_page, dictionary_page_offset, total_compressed_size.
  rewrite H. reflexivity.
Qed.

(** X5.  Whenever the chunk's metadata can be read, [GetColumnPageReader]
    opens a range: it starts at the data page offset, or at the dictionary
    page offset when the chunk has one that is positive and smaller; it
    never starts after the first data page; and for a file that was not
    written by parquet-mr before 1.2.9 its length is the chunk's
    [total_compressed_size]. *)
Theorem GetColumnPageReader_range (col : ColumnChunkMetaDataImpl.t)
    (version : ApplicationVersion.t) (source : list byte) (md : format.ColumnMetaData) :
  GetMetadataIfSet col = Ok md ->
  exists col_start col_length,
    SerializedRowGroup.GetColumnPageReader col version source = Ok (col_start, col_length)
    /\ col_start <= format.data_page_offset md
    /\ (col_start = format.data_page_offset md
        \/ (format.isset_dictionary_page_offset md = true
            /\ col_start = format.dictionary_page_offset md
            /\ 0 < col_start))
    /\ (ApplicationVersion.VersionLt version ApplicationVersion.PARQUET_816_FIXED_VERSION
        = false ->
        col_length = format.total_compressed_size md).
Proof.
  intros H. rewrite (GetColumnPageReader_eq col version source md H). cbv zeta.
  do 2 eexists. split; [reflexivity|].
  destruct (format.isset_dictionary_page_offset md);
    destruct (Z.ltb_spec 0 (format.dictionary_page_offset md));
    destruct (Z.ltb_spec (format.dictionary_page_offset md) (format.data_page_offset md));
    cbn [andb]; repeat split; try lia; auto;
    intros ->; reflexivity.
Qed.

(** X6.  For a file written by parquet-mr before 1.2.9 the range is
    extended by at most [kMaxDictHeaderSize] = 100 bytes and never past the
    end of the file: it ends at the recorded end of the chunk plus 100, or
    at the end of the file if that comes first (which also cuts a chunk that
    is recorded as reaching past the end of the file). *)
Theorem GetColumnPageReader_legacy_padding (col : ColumnChunkMetaDataImpl.t)
    (version : ApplicationVersion.t) (source : list byte) (md : format.ColumnMetaData)
    (col_start col_length : Z) :
  GetMetadataIfSet col = Ok md ->
  SerializedRowGroup.GetColumnPageReader col version source = Ok (col_start, col_length) ->
  ApplicationVersion.VersionLt version ApplicationVersion.PARQUET_816_FIXED_VERSION = true ->
  0 <= col_start ->
  0 <= format.total_compressed_size md ->
  col_start + format.total_compressed_size md + 100 < 2 ^ 63 ->
  len source < 2 ^ 63 ->
  col_start + col_length
  = Z.min (col_start + format.total_compressed_size md + 100) (len source).
Proof.
  intros H R V H0 H1 H2 H3. rewrite (GetColumnPageReader_eq col version source md H) in R.
  cbv zeta in R. rewrite V in R. injection R as Es El.
  rewrite Es in El. unfold SerializedRowGroup.kMaxDictHeaderSize in El.
  pose proof (len_nonneg source).
  rewrite (int64_small (col_start + _)) in El by (unfold Int.in_int64; lia).
  rewrite (int64_small (len source - _)) in El by (unfold Int.in_int64; lia).
  rewrite int64_small in El by (unfold Int.in_int64; lia).
  lia.
Qed.

End ReaderRange.

(** ** Writing a chunk and reading it back *)

Section RoundTrip.
Context {env : Env}.
Import SerializedFile.

(** X7.  The reader opens exactly the bytes the page writer wrote.  A page
    writer that starts a chunk at a position other than 0 writes pages, at
    least one of them a data page, without a size wrapping, and closes into
    a fresh metadata builder; the column is not encrypted with a key of its
    own.  Then the chunk it leaves can be read, and for a file whose writer
    version is not parquet-mr before 1.2.9 [GetColumnPageReader] opens the
    range that starts where the first page was written and ends where the
    last page ended. *)
Theorem written_chunk_is_read_back (w w'' : SerializedPageWriter.t)
    (pages : list Chunk.page) (props : WriterProperties.t) (column : ColumnDescriptor.t)
    (metadata' : ColumnChunkMetaDataBuilder.t) (has_dictionary fallback : bool)
    (descr : ColumnDescriptor.t) (version : ApplicationVersion.t)
    (file_decryptor : option (list byte -> option format.ColumnMetaData))
    (source : list byte) :
  let w' := snd (Chunk.write_pages w pages) in
  SerializedPageWriter.dictionary_page_offset_ w = 0 ->
  SerializedPageWriter.data_page_offset_ w = 0 ->
  SerializedPageWriter.total_compressed_size_ w = 0 ->
  0 < Tell (SerializedPageWriter.sink_ w) ->
  (exists d, In (Chunk.Data d) pages) ->
  Forall (fun r => 0 <= SerializedPageWriter.header_size r
                   /\ 0 <= format.compressed_page_size (SerializedPageWriter.page_header r))
    (fst (Chunk.write_pages w pages)) ->
  Int.in_int64 (Tell (SerializedPageWriter.sink_ w')) ->
  (forall p, WriterProperties.column_encryption_properties props = Some p ->
             ColumnEncryptionProperties.is_encrypted p = true ->
             ColumnEncryptionProperties.is_encrypted_with_footer_key p = true) ->
  SerializedPageWriter.Close w' (ColumnChunkMetaDataBuilder.Make props column)
    has_dictionary fallback = Some (metadata', w'') ->
  ApplicationVersion.VersionLt version ApplicationVersion.PARQUET_816_FIXED_VERSION = false ->
  exists col,
    ColumnChunkMetaDataImpl.Make (ColumnChunkMetaDataBuilder.column_chunk_ metadata')
      descr version file_decryptor = Ok col
    /\ SerializedRowGroup.GetColumnPageReader col version source
       = Ok (Tell (SerializedPageWriter.sink_ w),
             Tell (SerializedPageWriter.sink_ w') - Tell (SerializedPageWriter.sink_ w)).
Proof.
  cbv zeta. intros K0 D0 T0 HT HD HF HR HK HC HV.
  set (w' := snd (Chunk.write_pages w pages)) in *.
  (* the writer's counters *)
  pose proof (write_pages_first_offset pages w HD HT D0 K0) as First.
  destruct (write_pages_stream pages w) as (bytes & ES & ET & _);
    [rewrite T0; unfold Int.in_int64; lia | exact HF |].
  cbv zeta in First, ES, ET. fold w' in First, ES, ET.
  assert (Total : SerializedPageWriter.total_compressed_size_ w'
                  = Tell (SerializedPageWriter.sink_ w')
                    - Tell (SerializedPageWriter.sink_ w)).
  { rewrite ET, T0, ES. unfold Tell. rewrite len_app, Z.add_0_l.
    rewrite ES in HR. unfold Tell in HR. rewrite len_app in HR.
    pose proof (len_nonneg bytes). pose proof (len_nonneg (SerializedPageWriter.sink_ w)).
    rewrite int64_small by (unfold Int.in_int64 in *; lia). lia. }
  (* what Close hands to Finish *)
  unfold SerializedPageWriter.Close in HC.
  set (u := match SerializedPageWriter.meta_encryptor_ w' with
            | Some _ => SerializedPageWriter.UpdateEncryption w' encryption.kColumnMetaData
            | None => w' end) in HC.
  assert (C : SerializedPageWriter.same_counters w' u).
  { subst u. destruct (SerializedPageWriter.meta_encryptor_ w');
      [apply UpdateEncryption_counters | apply same_counters_refl]. }
  destruct C as (Cs & Cn & Cd & Ca & Cu & Cc & Co).
  destruct (ColumnChunkMetaDataBuilder.Finish _ _ _ _ _ _ _ _ _ _) as [m|] eqn:F;
    [|discriminate].
  inversion HC; subst metadata' w''. clear HC.
  destruct (Finish_fields _ _ _ _ _ _ _ _ _ _ _ F) as (_ & Fh & Fk & Fd & Fc & _).
  destruct (Finish_encryption _ _ _ _ _ _ _ _ _ _ _ F) as (Fcm & _).
  cbv zeta in Fh, Fk, Fd, Fc, Fcm.
  unfold ColumnChunkMetaData.has_dictionary_page, ColumnChunkMetaData.dictionary_page_offset,
    ColumnChunkMetaData.data_page_offset, ColumnChunkMetaData.total_compressed_size in *.
  cbn in Fh, Fk, Fcm. rewrite Cd in Fh, Fk. rewrite Ca in Fd. rewrite Cc in Fc.
  rewrite orb_false_r in Fh.
  (* the reader *)
  assert (NK : forall a b, format.crypto_metadata (ColumnChunkMetaDataBuilder.column_chunk_ m)
                           <> Some (format.ENCRYPTION_WITH_COLUMN_KEY a b)).
  { intros a b. rewrite Fcm.
    destruct (WriterProperties.column_encryption_properties props) as [p|] eqn:EP;
      [|discriminate].
    destruct (ColumnEncryptionProperties.is_encrypted p) eqn:EE; [|discriminate].
    rewrite (HK p eq_refl EE). discriminate. }
  eexists. split.
  - unfold ColumnChunkMetaDataImpl.Make.
    destruct (format.crypto_metadata (ColumnChunkMetaDataBuilder.column_chunk_ m))
      as [[|a b]|]; [reflexivity | destruct (NK a b eq_refl) | reflexivity].
  - rewrite (GetColumnPageReader_eq _ version source
               (format.meta_data (ColumnChunkMetaDataBuilder.column_chunk_ m))).
    + cbv zeta. rewrite HV, Fh, Fd, Fc, Total. f_equal. f_equal.
      revert First Fk.
      destruct (0 <? SerializedPageWriter.dictionary_page_offset_ w') eqn:P;
        intros First Fk; rewrite ?Fk, ?P; cbn [andb] in *; exact First.
    + unfold ColumnChunkMetaDataImpl.GetMetadataIfSet. cbn.
      destruct (format.crypto_metadata (ColumnChunkMetaDataBuilder.column_chunk_ m))
        as [[|a b]|]; [reflexivity | destruct (NK a b eq_refl) | reflexivity].
Qed.

End RoundTrip.

Lemma GetColumnPageReader_range_witness :
  exists col_start col_length,
    SerializedRowGroup.GetColumnPageReader
      (SampleFile.chunk SampleFile.metadata (SampleFile.version "parquet-cpp" 1 5 1))
      (SampleFile.version "parquet-cpp" 1 5 1) Sample.file_start
    = SerializedFile.Ok (col_start, col_length)
    /\ col_start <= 11
    /\ (col_start = 11 \/ (true = true /\ col_start = 4 /\ 0 < col_start))
    /\ (false = false -> col_length = 21).
Proof.
  apply (GetColumnPageReader_range
           (SampleFile.chunk SampleFile.metadata (SampleFile.version "parquet-cpp" 1 5 1))
           (SampleFile.version "parquet-cpp" 1 5 1) Sample.file_start SampleFile.metadata).
  reflexivity.
Defined.

Lemma GetColumnPageReader_legacy_padding_witness :
  4 + 30 = Z.min (4 + 21 + 100) 34.
Proof.
  apply (GetColumnPageReader_legacy_padding
           (SampleFile.chunk SampleFile.metadata (SampleFile.version "parquet-mr" 1 2 8))
           (SampleFile.version "parquet-mr" 1 2 8)
           (repeat x00 34) SampleFile.metadata).
  - reflexivity.
  - vm_compute. reflexivity.
  - reflexivity.
  - lia.
  - vm_compute. discriminate.
  - vm_compute. reflexivity.
  - vm_compute. reflexivity.
Defined.

Lemma written_chunk_is_read_back_witness :
  exists metadata' w'',
    SerializedPageWriter.Close
      (snd (Chunk.write_pages SampleFile.page_writer SampleFile.pages))
      (ColumnChunkMetaDataBuilder.Make Sample.properties Sample.column) true false
    = Some (metadata', w'')
    /\ exists col,
         ColumnChunkMetaDataImpl.Make (ColumnChunkMetaDataBuilder.column_chunk_ metadata')
           Sample.column (SampleFile.version "parquet-cpp" 1 5 1) None
         = SerializedFile.Ok col
         /\ SerializedRowGroup.GetColumnPageReader col
              (SampleFile.version "parquet-cpp" 1 5 1) []
            = SerializedFile.Ok (4, 25 - 4).
Proof.
  do 2 eexists. split; [vm_compute; reflexivity|].
  eapply (@written_chunk_is_read_back Sample.env SampleFile.page_writer
            _ SampleFile.pages Sample.properties Sample.column _ true false).
  - reflexivity.
  - reflexivity.
  - reflexivity.
  - vm_compute. reflexivity.
  - eexists. right. left. reflexivity.
  - repeat (apply Forall_cons; [vm_compute; split; discriminate|]). apply Forall_nil.
  - vm_compute. split; [discriminate | reflexivity].
  - intros p H. discriminate H.
  - vm_compute. reflexivity.
  - reflexivity.
Defined.

(** ** Writer versions *)

Ltac version_cases :=
  repeat match goal with
         | |- context [?a <? ?b] => destruct (Z.ltb_spec a b)
         | |- context [?a >? ?b] => destruct (Z.gtb_spec a b)
         | |- context [?a =? ?b] => destruct (Z.eqb_spec a b)
         | H : context [?a <? ?b] |- _ => destruct (Z.ltb_spec a b)
         | H : context [?a >? ?b] |- _ => destruct (Z.gtb_spec a b)
         | H : context [?a =? ?b] |- _ => destruct (Z.eqb_spec a b)
         end;
  cbn in *; try discriminate; try reflexivity; try lia.

Lemma VersionLt_spec (a b : ApplicationVersion.t) :
  ApplicationVersion.VersionLt a b = true
  <-> ApplicationVersion.application_ a = ApplicationVersion.application_ b
      /\ (ApplicationVersion.major a < ApplicationVersion.major b
          \/ (ApplicationVersion.major a = ApplicationVersion.major b
              /\ (ApplicationVersion.minor a < ApplicationVersion.minor b
                  \/ (ApplicationVersion.minor a = ApplicationVersion.minor b
                      /\ ApplicationVersion.patch a < ApplicationVersion.patch b)))).
Proof.
  unfold ApplicationVersion.VersionLt.
  destruct (String.eqb_spec (ApplicationVersion.application_ a)
              (ApplicationVersion.application_ b)) as [E|E]; cbn [negb].
  - version_cases;
      (split; [intros X; try discriminate X; split; [exact E | lia]
              | intros [_ X]; try reflexivity; exfalso; lia]).
  - split; [discriminate | intros [H _]; contradiction].
Qed.

Lemma VersionEq_spec (a b : ApplicationVersion.t) :
  ApplicationVersion.VersionEq a b = true
  <-> ApplicationVersion.application_ a = ApplicationVersion.application_ b
      /\ ApplicationVersion.major a = ApplicationVersion.major b
      /\ ApplicationVersion.minor a = ApplicationVersion.minor b
      /\ ApplicationVersion.patch a = ApplicationVersion.patch b.
Proof.
  unfold ApplicationVersion.VersionEq. rewrite !andb_true_iff, !Z.eqb_eq, String.eqb_eq.
  tauto.
Qed.

Lemma VersionLt_reflect (a b : ApplicationVersion.t) :
  reflect
    (ApplicationVersion.application_ a = ApplicationVersion.application_ b
     /\ (ApplicationVersion.major a < ApplicationVersion.major b
         \/ (ApplicationVersion.major a = ApplicationVersion.major b
             /\ (ApplicationVersion.minor a < ApplicationVersion.minor b
                 \/ (ApplicationVersion.minor a = ApplicationVersion.minor b
                     /\ ApplicationVersion.patch a < ApplicationVersion.patch b)))))
    (ApplicationVersion.VersionLt a b).
Proof. apply iff_reflect. symmetry. apply VersionLt_spec. Qed.

Lemma VersionEq_reflect (a b : ApplicationVersion.t) :
  reflect
    (ApplicationVersion.application_ a = ApplicationVersion.application_ b
     /\ ApplicationVersion.major a = ApplicationVersion.major b
     /\ ApplicationVersion.minor a = ApplicationVersion.minor b
     /\ ApplicationVersion.patch a = ApplicationVersion.patch b)
    (ApplicationVersion.VersionEq a b).
Proof. apply iff_reflect. symmetry. apply VersionEq_spec. Qed.

(** X8.  [VersionLt] is a strict order on the versions of one application
    and relates no two versions of different applications: it is
    irreflexive and transitive, a version it puts before another has the
    same application, and of two versions of the same application exactly
    one of [VersionLt a b], [VersionEq a b] and [VersionLt b a] holds. *)
Theorem VersionLt_strict_order :
  (forall a, ApplicationVersion.VersionLt a a = false)
  /\ (forall a b c,
        ApplicationVersion.VersionLt a b = true ->
        ApplicationVersion.VersionLt b c = true ->
        ApplicationVersion.VersionLt a c = true)
  /\ (forall a b,
        ApplicationVersion.VersionLt a b = true ->
        ApplicationVersion.application_ a = ApplicationVersion.application_ b)
  /\ (forall a b,
        ApplicationVersion.application_ a = ApplicationVersion.application_ b ->
        (ApplicationVersion.VersionLt a b = true
         /\ ApplicationVersion.VersionEq a b = false
         /\ ApplicationVersion.VersionLt b a = false)
        \/ (ApplicationVersion.VersionLt a b = false
            /\ ApplicationVersion.VersionEq a b = true
            /\ ApplicationVersion.VersionLt b a = false)
        \/ (ApplicationVersion.VersionLt a b = false
            /\ ApplicationVersion.VersionEq a b = false
            /\ ApplicationVersion.VersionLt b a = true)).
Proof.
  repeat split.
  - intros a. destruct (VersionLt_reflect a a); [lia | reflexivity].
  - intros a b c H1 H2. apply VersionLt_spec in H1, H2. apply VersionLt_spec.
    destruct H1 as [E1 H1], H2 as [E2 H2]. split; [congruence | lia].
  - intros a b H. apply VersionLt_spec in H. apply H.
  - intros a b E.
    destruct (VersionLt_reflect a b) as [L|L], (VersionEq_reflect a b) as [Q|Q],
      (VersionLt_reflect b a) as [G|G];
      try (exfalso; lia); auto.
    exfalso. symmetry in E.
    assert (N1 := fun X => L (conj (eq_sym E) X)).
    assert (N2 := fun X => G (conj E X)).
    assert (N3 := fun X => Q (conj (eq_sym E) X)). lia.
Qed.

Lemma bytes_eqb_eq (a : list byte) : forall b, SerializedFile.bytes_eqb a b = true <-> a = b.
Proof.
  induction a as [|x a IH]; intros [|y b]; cbn; try (split; [discriminate | discriminate]);
    try tauto.
  rewrite andb_true_iff, IH. split.
  - intros [H ->]. apply byte_dec_bl in H. now subst.
  - intros H. injection H as -> ->. split; [now apply byte_dec_lb | reflexivity].
Qed.

(** The PARQUET-251 test only ever rejects parquet-mr before 1.8.0. *)
Lemma VersionLt_251 (v : ApplicationVersion.t) :
  ApplicationVersion.application_ v <> "parquet-mr"%string
  \/ ApplicationVersion.VersionLt v ApplicationVersion.PARQUET_MR_FIXED_STATS_VERSION = false ->
  ApplicationVersion.VersionLt v ApplicationVersion.PARQUET_251_FIXED_VERSION = false.
Proof.
  intros H.
  destruct (VersionLt_reflect v ApplicationVersion.PARQUET_251_FIXED_VERSION) as [[E L]|];
    [|reflexivity].
  destruct H as [H|H]; [contradiction|].
  destruct (VersionLt_reflect v ApplicationVersion.PARQUET_MR_FIXED_STATS_VERSION) as [|N];
    [discriminate|].
  exfalso. apply N. split; [exact E|]. cbn in *. lia.
Qed.

(** X9.  For every writer but parquet-cpp before 1.3.0 and parquet-mr before
    1.10.0, [HasCorrectStatistics] accepts the statistics exactly when the
    application is "unknown" or the sort order is not UNKNOWN: neither the
    column type nor the statistics matter, and the PARQUET-251 test rejects
    none of these writers. *)
Theorem HasCorrectStatistics_fixed_writer (v : ApplicationVersion.t)
    (col_type : Type_.type) (statistics : EncodedStatistics.t)
    (sort_order : SortOrder.type) :
  (ApplicationVersion.application_ v = "parquet-cpp"%string ->
   ApplicationVersion.VersionLt v ApplicationVersion.PARQUET_CPP_FIXED_STATS_VERSION = false) ->
  (ApplicationVersion.application_ v = "parquet-mr"%string ->
   ApplicationVersion.VersionLt v ApplicationVersion.PARQUET_MR_FIXED_STATS_VERSION = false) ->
  ApplicationVersion.HasCorrectStatistics v col_type statistics sort_order
  = (String.eqb (ApplicationVersion.application_ v) "unknown"
     || negb (SortOrder.eqb SortOrder.UNKNOWN sort_order)).
Proof.
  intros HC HM. unfold ApplicationVersion.HasCorrectStatistics.
  rewrite (VersionLt_251 v).
  - destruct (String.eqb_spec (ApplicationVersion.application_ v) "parquet-cpp") as [E|E];
      [rewrite (HC E)|];
      (destruct (String.eqb_spec (ApplicationVersion.application_ v) "parquet-mr") as [F|F];
       [rewrite (HM F)|]); cbn [andb orb];
      destruct (String.eqb (ApplicationVersion.application_ v) "unknown");
      destruct (SortOrder.eqb SortOrder.UNKNOWN sort_order); reflexivity.
  - destruct (String.eqb_spec (ApplicationVersion.application_ v) "parquet-mr") as [F|F];
      [right; exact (HM F) | left; exact F].
Qed.

Lemma HasCorrectStatistics_fixed_writer_witness :
  ApplicationVersion.HasCorrectStatistics (SampleFile.version "parquet-mr" 1 10 1)
    Type_.BYTE_ARRAY SampleFile.statistics SortOrder.UNSIGNED
  = (false || negb false).
Proof.
  apply (HasCorrectStatistics_fixed_writer (SampleFile.version "parquet-mr" 1 10 1)).
  - intros H. discriminate H.
  - intros _. reflexivity.
Defined.


Section StatsSet.
Import SerializedFile.


End StatsSet.


(** ** The row group builder *)

Section RowGroups.
Import SerializedFile.
Import RowGroupMetaDataBuilder.

(** The compressed sizes of the column builders, summed as the loop of
    [Finish] sums them. *)
Lemma Finish_loop_spec (b : t) (l : list ColumnChunkMetaDataBuilder.t) :
  forall (done : list ColumnChunkMetaDataBuilder.t) (file_offset total : Z),
    column_builders_ b = done ++ l ->
    match Finish_loop b (List.length l) (len done) file_offset total with
    | Ok (file_offset', total') =>
        Forall (fun cb => 0 <= format.file_offset (ColumnChunkMetaDataBuilder.column_chunk_ cb)) l
        /\ total'
           = fold_left (fun t cb =>
                          Int.int64 (t + ColumnChunkMetaDataBuilder.total_compressed_size cb))
               l total
        /\ file_offset'
           = (match done, l with
              | [], cb :: _ => format.file_offset (ColumnChunkMetaDataBuilder.column_chunk_ cb)
              | _, _ => file_offset
              end)
    | ParquetException _ =>
        Exists (fun cb => format.file_offset (ColumnChunkMetaDataBuilder.column_chunk_ cb) < 0) l
    | OutOfBounds _ _ => False
    end.
Proof.
  induction l as [|cb l IH]; intros done file_offset total E.
  - cbn. destruct done; auto.
  - cbn [Finish_loop List.length].
    assert (N : nth_error (column_builders_ b) (Z.to_nat (len done)) = Some cb).
    { rewrite E. unfold len. rewrite Nat2Z.id, nth_error_app2, Nat.sub_diag by lia.
      reflexivity. }
    unfold columns at 1. rewrite N.
    destruct (Z.leb_spec 0 (format.file_offset (ColumnChunkMetaDataBuilder.column_chunk_ cb)))
      as [P|P]; cbn [negb].
    + specialize (IH (done ++ [cb])
                    (if len done =? 0 then format.file_offset (columns b 0) else file_offset)
                    (Int.int64 (total + ColumnChunkMetaDataBuilder.total_compressed_size cb))).
      rewrite <- app_assoc in IH. specialize (IH E).
      replace (len (done ++ [cb])) with (len done + 1) in IH
        by (rewrite len_app; reflexivity).
      destruct (Finish_loop b _ _ _ _) as [[fo tt]| |]; [|now apply Exists_cons_tl | exact IH].
      destruct IH as (IF & IT & IO). repeat split.
      * constructor; assumption.
      * exact IT.
      * rewrite IO. destruct done as [|d done]; cbn.
        -- unfold columns. rewrite E. cbn. destruct l; reflexivity.
        -- replace (len (d :: done) =? 0) with false.
           ++ destruct (done ++ [cb]); destruct l; reflexivity.
           ++ symmetry. apply Z.eqb_neq. unfold len. cbn [List.length]. lia.
    + apply Exists_cons_hd. exact P.
Qed.

(** X11.  [RowGroupMetaDataBuilder::Finish], for a builder that has handed
    out [current_column_] column builders.  It returns exactly when every
    column of the schema was requested and every column chunk has a
    [file_offset] that is not negative, and then the row group's
    [total_compressed_size] is the sum, in [int64_t], of the column
    builders' totals, its [file_offset] is the first column's [file_offset]
    (0 without columns), and [total_byte_size] and the ordinal are the
    arguments; otherwise it throws; it never indexes past the column
    builders. *)
Theorem RowGroup_Finish_sums_columns (b : t) (total_bytes_written row_group_ordinal : Z) :
  len (column_builders_ b) = current_column_ b ->
  match Finish b total_bytes_written row_group_ordinal with
  | Ok b' =>
      current_column_ b = num_columns b
      /\ Forall (fun cb => 0 <= format.file_offset (ColumnChunkMetaDataBuilder.column_chunk_ cb))
           (column_builders_ b)
      /\ rg_total_compressed_size b'
         = fold_left (fun t cb =>
                        Int.int64 (t + ColumnChunkMetaDataBuilder.total_compressed_size cb))
             (column_builders_ b) 0
      /\ rg_file_offset b'
         = (match column_builders_ b with
            | cb :: _ => format.file_offset (ColumnChunkMetaDataBuilder.column_chunk_ cb)
            | [] => 0
            end)
      /\ rg_total_byte_size b' = total_bytes_written
      /\ rg_ordinal b' = Some row_group_ordinal
      /\ rg_num_rows b' = rg_num_rows b
      /\ column_builders_ b' = column_builders_ b
  | ParquetException _ =>
      current_column_ b <> num_columns b
      \/ Exists (fun cb => format.file_offset (ColumnChunkMetaDataBuilder.column_chunk_ cb) < 0)
           (column_builders_ b)
  | OutOfBounds _ _ => False
  end.
Proof.
  intros HL. unfold Finish.
  destruct (Z.eqb_spec (current_column_ b) (num_columns b)) as [E|E]; cbn [negb];
    [|left; exact E].
  pose proof (Finish_loop_spec b (column_builders_ b) [] 0 0 eq_refl) as S.
  replace (List.length (column_builders_ b)) with (Z.to_nat (num_columns b)) in S
    by (rewrite <- E, <- HL; unfold len; apply Nat2Z.id).
  change (len []) with 0 in S.
  destruct (Finish_loop b _ 0 0 0) as [[fo tt]| |]; cbn [bind].
  - destruct S as (SF & ST & SO). repeat split; auto.
  - right. exact S.
  - exact S.
Qed.

End RowGroups.

Lemma RowGroup_Finish_sums_columns_witness :
  exists b',
    RowGroupMetaDataBuilder.Finish SampleFile.row_group 36 0 = SerializedFile.Ok b'
    /\ RowGroupMetaDataBuilder.rg_total_compressed_size b' = 36
    /\ RowGroupMetaDataBuilder.rg_file_offset b' = 25.
Proof.
  pose proof (RowGroup_Finish_sums_columns SampleFile.row_group 36 0 eq_refl) as H.
  revert H. vm_compute. intros (_ & _ & T & O & _). eexists.
  split; [reflexivity|]. split; [exact T | exact O].
Defined.

Section AllColumns.
Import SerializedFile.
Import RowGroupMetaDataBuilder.

Lemma NextColumnChunks_spec (l : list ColumnDescriptor.t) :
  forall (b : t) (done : list ColumnDescriptor.t),
    schema_ b = done ++ l ->
    current_column_ b = len done ->
    len (column_builders_ b) = len done ->
    len (schema_ b) < 2 ^ 31 ->
    exists b',
      NextColumnChunks b (List.length l) = Ok b'
      /\ column_builders_ b'
         = column_builders_ b ++ map (ColumnChunkMetaDataBuilder.Make (properties_ b)) l
      /\ current_column_ b' = len (schema_ b)
      /\ schema_ b' = schema_ b
      /\ properties_ b' = properties_ b.
Proof.
  induction l as [|c l IH]; intros b done ES EC EB HR.
  - cbn. exists b. rewrite !app_nil_r in *. rewrite ES. auto.
  - cbn [NextColumnChunks List.length]. unfold NextColumnChunk, num_columns.
    assert (L : len (schema_ b) = len done + 1 + len l).
    { rewrite ES, len_app. unfold len. cbn [List.length]. lia. }
    pose proof (len_nonneg l). pose proof (len_nonneg done).
    replace (current_column_ b <? len (schema_ b)) with true
      by (symmetry; apply Z.ltb_lt; lia).
    cbn [negb].
    assert (N : nth_error (schema_ b) (Z.to_nat (current_column_ b)) = Some c).
    { rewrite ES, EC. unfold len. rewrite Nat2Z.id, nth_error_app2, Nat.sub_diag by lia.
      reflexivity. }
    rewrite N. cbn [bind].
    assert (D : columns b (current_column_ b) = format.default_ColumnChunk).
    { unfold columns.
      replace (nth_error (column_builders_ b) (Z.to_nat (current_column_ b))) with
        (@None ColumnChunkMetaDataBuilder.t); [reflexivity|].
      symmetry. apply nth_error_None. unfold len in *. lia. }
    rewrite D. fold (ColumnChunkMetaDataBuilder.Make (properties_ b) c).
    match goal with
    | |- context [NextColumnChunks ?b1 _] =>
        destruct (IH b1 (done ++ [c])) as (b' & E & EB' & EC' & ES' & EP')
    end.
    + cbn. rewrite <- app_assoc. exact ES.
    + cbn. rewrite len_app, EC. apply int32_small. unfold Int.in_int32, len in *.
      cbn [List.length]. lia.
    + cbn. rewrite !len_app, EB. reflexivity.
    + exact HR.
    + exists b'. cbn in *. rewrite E, EB', <- app_assoc. auto.
Qed.

(** X12.  From a fresh row group builder, [NextColumnChunk] can be called
    once for each column of the schema, each call handing out a fresh
    builder for the next column, and the call after the last throws.  If
    [Finish] is called then, before any column builder was itself finished,
    it does not throw: a fresh chunk has [file_offset] 0, so the test for an
    incomplete column passes, and the row group is recorded with compressed
    size 0 at offset 0. *)
Theorem NextColumnChunk_for_each_column (props : WriterProperties.t)
    (schema : list ColumnDescriptor.t) (total_bytes_written row_group_ordinal : Z) :
  len schema < 2 ^ 31 ->
  exists b,
    NextColumnChunks (Make props schema) (List.length schema) = Ok b
    /\ column_builders_ b = map (ColumnChunkMetaDataBuilder.Make props) schema
    /\ throws (NextColumnChunk b)
    /\ exists b',
         Finish b total_bytes_written row_group_ordinal = Ok b'
         /\ rg_total_compressed_size b' = 0
         /\ rg_file_offset b' = 0.
Proof.
  intros HR.
  destruct (NextColumnChunks_spec schema (Make props schema) []) as (b & E & EB & EC & ES & EP);
    try reflexivity; try exact HR.
  cbn in EB, EC, ES, EP. exists b. split; [exact E|]. split; [exact EB|]. split.
  - unfold throws, NextColumnChunk, num_columns. rewrite EC, ES, Z.ltb_irrefl. cbn.
    eexists. reflexivity.
  - unfold Finish, num_columns. rewrite EC, ?ES, Z.eqb_refl. cbn [negb].
    pose proof (Finish_loop_spec b (column_builders_ b) [] 0 0 eq_refl) as S.
    replace (List.length (column_builders_ b)) with (Z.to_nat (len schema)) in S
      by (rewrite EB, length_map; unfold len; apply Nat2Z.id).
    change (len []) with 0 in S. rewrite ?ES.
    assert (A : forall l,
               Forall (fun cb => format.file_offset
                                   (ColumnChunkMetaDataBuilder.column_chunk_ cb) = 0
                                 /\ ColumnChunkMetaDataBuilder.total_compressed_size cb = 0)
                 (map (ColumnChunkMetaDataBuilder.Make props) l)).
    { induction l; constructor; auto. }
    specialize (A schema). rewrite <- EB in A.
    destruct (Finish_loop b _ 0 0 0) as [[fo tt]| |]; cbn [bind].
    + destruct S as (_ & ST & SO). eexists. split; [reflexivity|]. cbn. split.
      * rewrite ST. clear -A. induction A as [|cb l [_ T] _ IH]; [reflexivity|].
        cbn. rewrite T. exact IH.
      * rewrite SO. destruct A as [|cb l [O _] _]; [reflexivity | exact O].
    + exfalso. clear -A S. induction A as [|cb l [O _] _ IH]; inversion S; subst; [lia | auto].
    + destruct S.
Qed.

End AllColumns.

Lemma NextColumnChunk_for_each_column_witness :
  exists b,
    RowGroupMetaDataBuilder.NextColumnChunks
      (RowGroupMetaDataBuilder.Make Sample.plain_properties [Sample.column; Sample.column])
      2 = SerializedFile.Ok b
    /\ RowGroupMetaDataBuilder.column_builders_ b
       = map (ColumnChunkMetaDataBuilder.Make Sample.plain_properties)
           [Sample.column; Sample.column]
    /\ SerializedFile.throws (RowGroupMetaDataBuilder.NextColumnChunk b)
    /\ exists b',
         RowGroupMetaDataBuilder.Finish b 0 0 = SerializedFile.Ok b'
         /\ RowGroupMetaDataBuilder.rg_total_compressed_size b' = 0
         /\ RowGroupMetaDataBuilder.rg_file_offset b' = 0.
Proof.
  apply (NextColumnChunk_for_each_column Sample.plain_properties
           [Sample.column; Sample.column] 0 0).
  reflexivity.
Defined.

(** ** The file metadata builder and the plaintext footer *)

Section FileMetaData.
Context {env : Env}.
Import SerializedFile.

(** X13.  What [FileMetaDataBuilder::Finish] stores reads back: the version
    accessor of the file metadata returns the version of the writer
    properties, and the footer carries an encryption algorithm, which makes
    the reader treat the file as encrypted with a plaintext footer, exactly
    when the file encryption properties are there and ask for a plaintext
    footer; that algorithm is always AES_GCM_V1, and it stores the AAD
    prefix only when the prefix is not to be supplied by the reader. *)
Theorem FileMetaDataBuilder_Finish_reads_back (b : FileMetaDataBuilder.t) :
  let m := FileMetaDataBuilder.Finish b in
  let algo := FileMetaDataBuilder.algorithm_ b in
  FileMetaData.version m = WriterProperties.version (FileMetaDataBuilder.properties_ b)
  /\ (FileMetaData.is_encryption_algorithm_set m = true
      <-> exists fep,
            WriterProperties.file_encryption_properties (FileMetaDataBuilder.properties_ b)
            = Some fep
            /\ FileEncryptionProperties.encrypted_footer fep = false)
  /\ (forall signing,
        format.encryption_algorithm m = Some signing ->
        format.algorithm signing = format.AES_GCM_V1
        /\ format.aad_file_unique signing = format.aad_file_unique algo
        /\ format.supply_aad_prefix signing = format.supply_aad_prefix algo
        /\ format.aad_prefix signing
           = (if format.supply_aad_prefix algo then [] else format.aad_prefix algo)).
Proof.
  cbv zeta. unfold FileMetaDataBuilder.Finish, FileMetaData.version,
    FileMetaData.impl_version, FileMetaData.is_encryption_algorithm_set.
  destruct (WriterProperties.file_encryption_properties (FileMetaDataBuilder.properties_ b))
    as [fep|]; [destruct (FileEncryptionProperties.encrypted_footer fep) eqn:EF|];
    cbn; (split; [destruct (WriterProperties.version _); reflexivity|]); split;
    try (split; [discriminate | intros (f & X & Y); congruence]);
    try (intros s X; discriminate X).
  - split; [intros _; eauto | reflexivity].
  - intros s X. injection X as <-. cbn.
    destruct (format.supply_aad_prefix (FileMetaDataBuilder.algorithm_ b)); auto.
Qed.

(** X14.  A footer written in plaintext mode hands its reader the file AAD
    of the writer.  The writer's algorithm has AAD prefix [P] (not empty if
    it is to be supplied), unique part [U]; the reader is given the prefix
    [P] and no verifier.  Then [HandleAadPrefix] on the algorithm [Finish]
    stored returns [P ++ U], whether the prefix was stored in the file or
    not. *)
Theorem plaintext_footer_aad_round_trip (b : FileMetaDataBuilder.t)
    (fep : FileEncryptionProperties.t) (props : FileDecryptionProperties.t) :
  let algo := FileMetaDataBuilder.algorithm_ b in
  WriterProperties.file_encryption_properties (FileMetaDataBuilder.properties_ b) = Some fep ->
  FileEncryptionProperties.encrypted_footer fep = false ->
  (format.supply_aad_prefix algo = true -> format.aad_prefix algo <> []) ->
  FileDecryptionProperties.aad_prefix props = format.aad_prefix algo ->
  FileDecryptionProperties.aad_prefix_verifier props = None ->
  exists signing,
    format.encryption_algorithm (FileMetaDataBuilder.Finish b) = Some signing
    /\ HandleAadPrefix props signing
       = Ok (format.aad_prefix algo ++ format.aad_file_unique algo).
Proof.
  cbv zeta. intros HF HE HS HP HV. unfold FileMetaDataBuilder.Finish. rewrite HF, HE.
  cbn. eexists. split; [reflexivity|].
  unfold HandleAadPrefix. cbn. rewrite HP, HV.
  assert (B : bytes_eqb (format.aad_prefix (FileMetaDataBuilder.algorithm_ b))
                (format.aad_prefix (FileMetaDataBuilder.algorithm_ b)) = true)
    by (apply bytes_eqb_eq; reflexivity).
  destruct (format.supply_aad_prefix (FileMetaDataBuilder.algorithm_ b)).
  - specialize (HS eq_refl).
    destruct (format.aad_prefix (FileMetaDataBuilder.algorithm_ b)); [contradiction|].
    reflexivity.
  - destruct (format.aad_prefix (FileMetaDataBuilder.algorithm_ b)) eqn:EA; [reflexivity|].
    cbn [negb andb]. rewrite B. reflexivity.
Qed.

End FileMetaData.

Lemma plaintext_footer_aad_round_trip_witness :
  exists signing,
    format.encryption_algorithm (FileMetaDataBuilder.Finish SampleFile.file_builder)
    = Some signing
    /\ SerializedFile.HandleAadPrefix SampleFile.decryption_properties signing
       = SerializedFile.Ok ([x0a; x0b] ++ [x01]).
Proof.
  apply (plaintext_footer_aad_round_trip SampleFile.file_builder
           {| FileEncryptionProperties.encrypted_footer := false |}
           SampleFile.decryption_properties).
  - reflexivity.
  - reflexivity.
  - intros _. discriminate.
  - reflexivity.
  - reflexivity.
Defined.

Section FooterSignature.
Context {env : Env}.
Import SerializedFile.

Variable write_FileMetaData : format.FileMetaData -> list byte.

(** X15.  The signature of a plaintext footer.  When the footer carries an
    encryption algorithm and the ciphertext of the serialized footer fits
    the buffer sized for it and holds the 4-byte length, the nonce and the
    tag, [WriteTo] writes the serialized footer followed by 28 bytes: the
    12 bytes of the ciphertext after its first 4, and its last 16.  A reader
    that parses the footer back and consumes the serialized part finds the
    28 bytes [ParseMetaDataOfEncryptedFileWithPlaintextFooter] insists on,
    and hands exactly them to [VerifySignature]. *)
Theorem WriteTo_signs_plaintext_footer (metadata_ : format.FileMetaData)
    (algo : format.EncryptionAlgorithm) (dst : list byte) (e : Encryptor.t)
    (props : FileDecryptionProperties.t) (file_aad : list byte) :
  let serialized := write_FileMetaData metadata_ in
  let ciphertext := Encryptor_Encrypt e serialized in
  format.encryption_algorithm metadata_ = Some algo ->
  0 <= Encryptor_CiphertextSizeDelta e ->
  len ciphertext <= Encryptor_CiphertextSizeDelta e + len serialized ->
  Encryptor_CiphertextSizeDelta e + len serialized < 2 ^ 31 ->
  4 + 12 + 16 <= len ciphertext ->
  FileDecryptionProperties.check_plaintext_footer_integrity props = true ->
  HandleAadPrefix props algo = Ok file_aad ->
  let nonce := take 12 (drop 4 ciphertext) in
  let tag := drop (len ciphertext - 16) ciphertext in
  let footer := serialized ++ nonce ++ tag in
  let file_decryptor :=
    {| InternalFileDecryptor.properties := props;
       InternalFileDecryptor.file_aad := file_aad;
       InternalFileDecryptor.algorithm := format.algorithm algo;
       InternalFileDecryptor.footer_key_metadata :=
         format.footer_signing_key_metadata metadata_ |} in
  FileMetaDataImpl.WriteTo write_FileMetaData metadata_ dst (Some e) = Some (dst ++ footer)
  /\ len footer = len serialized + 28
  /\ ParseMetaDataOfEncryptedFileWithPlaintextFooter metadata_ (Some props) footer
       (len footer) (len serialized)
     = (if VerifySignature metadata_ file_decryptor (nonce ++ tag)
        then Ok (Some file_decryptor)
        else ParquetException
               "Invalid parquet file. Could not verify plaintext footer metadata").
Proof.
  cbv zeta. intros HA HD HC H31 HL HI HH.
  set (serialized := write_FileMetaData metadata_) in *.
  set (ciphertext := Encryptor_Encrypt e serialized) in *.
  pose proof (len_nonneg serialized) as NS.
  assert (LN : len (take 12 (drop 4 ciphertext)) = 12).
  { apply len_take. unfold drop, len in *. rewrite length_skipn. lia. }
  assert (LT : len (drop (len ciphertext - 16) ciphertext) = 16).
  { unfold drop, len in *. rewrite length_skipn. lia. }
  assert (LF : len (serialized ++ take 12 (drop 4 ciphertext)
                    ++ drop (len ciphertext - 16) ciphertext) = len serialized + 28).
  { rewrite !len_app, LN, LT. lia. }
  split; [|split; [exact LF|]].
  - unfold FileMetaDataImpl.WriteTo, FileMetaData.is_encryption_algorithm_set.
    rewrite HA. fold serialized.
    assert (U : Int.uint32 (len serialized) = len serialized)
      by (unfold Int.uint32; apply Z.mod_small; lia).
    rewrite U. unfold Encryptor_run. rewrite (take_all serialized) by lia.
    fold ciphertext.
    assert (S : Int.uint32 (Encryptor_CiphertextSizeDelta e + len serialized)
                = Encryptor_CiphertextSizeDelta e + len serialized)
      by (unfold Int.uint32; apply Z.mod_small; lia).
    rewrite S.
    assert (N : Int.uint32 (Int.int32 (len ciphertext)) = len ciphertext).
    { rewrite int32_small by (unfold Int.in_int32; lia).
      unfold Int.uint32. apply Z.mod_small. lia. }
    rewrite N. unfold FileMetaDataImpl.kNonceLength, FileMetaDataImpl.kGcmTagLength.
    rewrite (proj2 (Z.leb_le (len ciphertext) _)) by lia.
    rewrite (proj2 (Z.leb_le (4 + 12) _)) by lia.
    rewrite (proj2 (Z.leb_le 16 _)) by lia.
    cbn [andb]. unfold Write. rewrite (take_all serialized) by lia.
    rewrite <- !app_assoc.
    match goal with
    | |- context [drop 4 (ciphertext ++ ?pad)] =>
        assert (A : take 12 (drop 4 (ciphertext ++ pad)) = take 12 (drop 4 ciphertext));
        [|assert (B : take 16 (drop (len ciphertext - 16) (ciphertext ++ pad))
                      = drop (len ciphertext - 16) ciphertext);
          [|rewrite A, B; reflexivity]]
    end.
    + unfold take, drop. rewrite skipn_app, firstn_app.
      replace (Z.to_nat 4 - length ciphertext)%nat with O by (unfold len in *; lia).
      replace (Z.to_nat 12 - length (skipn (Z.to_nat 4) ciphertext))%nat with O
        by (rewrite length_skipn; unfold len in *; lia).
      cbn [skipn firstn]. rewrite app_nil_r. reflexivity.
    + unfold take, drop. rewrite skipn_app, firstn_app.
      replace (Z.to_nat (len ciphertext - 16) - length ciphertext)%nat with O
        by (unfold len in *; lia).
      replace (Z.to_nat 16 - length (skipn (Z.to_nat (len ciphertext - 16)) ciphertext))%nat
        with O by (rewrite length_skipn; unfold len in *; lia).
      cbn [skipn firstn]. rewrite app_nil_r.
      apply firstn_all2. rewrite length_skipn. unfold len in *. lia.
  - unfold ParseMetaDataOfEncryptedFileWithPlaintextFooter. rewrite HA, HH. cbn [bind].
    rewrite HI, LF.
    replace (len serialized + 28 - len serialized) with 28 by lia.
    change (negb (Int.uint32 28 =? 28)) with false. cbv iota.
    unfold drop. replace (Z.to_nat (len serialized)) with (length serialized)
      by (unfold len; symmetry; apply Nat2Z.id).
    rewrite skipn_app, Nat.sub_diag, skipn_all. cbn [skipn app].
    destruct (VerifySignature _ _ _); reflexivity.
Qed.

End FooterSignature.

Lemma WriteTo_signs_plaintext_footer_witness :
  let m := FileMetaDataBuilder.Finish SampleFile.file_builder in
  exists footer,
    @FileMetaDataImpl.WriteTo Sample.env SampleFile.write_FileMetaData m Sample.file_start
      (Some SampleFile.encryptor)
    = Some (Sample.file_start ++ footer)
    /\ len footer = 4 + 28.
Proof.
  cbv zeta.
  destruct (@WriteTo_signs_plaintext_footer Sample.env SampleFile.write_FileMetaData
              (FileMetaDataBuilder.Finish SampleFile.file_builder)
              {| format.algorithm := format.AES_GCM_V1; format.aad_prefix := [];
                 format.aad_file_unique := [x01]; format.supply_aad_prefix := true |}
              Sample.file_start SampleFile.encryptor SampleFile.decryption_properties
              [x0a; x0b; x01]) as (W & L & _).
  - reflexivity.
  - vm_compute. discriminate.
  - vm_compute. discriminate.
  - vm_compute. reflexivity.
  - vm_compute. discriminate.
  - reflexivity.
  - reflexivity.
  - eexists. split; [exact W | exact L].
Defined.

(** ** What the footer parser accepts *)

Section Accepts.
Context {env : Env}.
Import SerializedFile.

Lemma is_nil_false (l : list byte) :
  match l with [] => true | _ => false end = false <-> l <> [].
Proof. destruct l; split; congruence. Qed.

(** X16.  [HandleAadPrefix] returns exactly in two cases, and never when
    the prefix is to be supplied and the properties hold none.  Either the
    file stores a prefix: then the properties hold no prefix or the same
    one, the verifier, if there is one, accepts the stored prefix, and the
    file AAD is the stored prefix followed by the unique part.  Or the file
    stores none: then there is no verifier, the properties hold a prefix
    only if the file says it is to be supplied, and the file AAD is the
    prefix of the properties followed by the unique part. *)
Theorem HandleAadPrefix_Ok_iff (props : FileDecryptionProperties.t)
    (algo : format.EncryptionAlgorithm) (aad : list byte) :
  let P := FileDecryptionProperties.aad_prefix props in
  let F := format.aad_prefix algo in
  HandleAadPrefix props algo = Ok aad
  <-> (format.supply_aad_prefix algo = true -> P <> [])
      /\ ((F <> []
           /\ (P = [] \/ P = F)
           /\ (forall verify,
                 FileDecryptionProperties.aad_prefix_verifier props = Some verify ->
                 verify F = None)
           /\ aad = F ++ format.aad_file_unique algo)
          \/ (F = []
              /\ (P <> [] -> format.supply_aad_prefix algo = true)
              /\ FileDecryptionProperties.aad_prefix_verifier props = None
              /\ aad = P ++ format.aad_file_unique algo)).
Proof.
  cbv zeta. unfold HandleAadPrefix.
  destruct (format.supply_aad_prefix algo);
    destruct (FileDecryptionProperties.aad_prefix props) as [|p P'];
    destruct (format.aad_prefix algo) as [|f F'];
    cbn [andb negb orb];
    try (pose proof (bytes_eqb_eq (p :: P') (f :: F')) as BE;
         destruct (bytes_eqb (p :: P') (f :: F')));
    cbn [negb];
    destruct (FileDecryptionProperties.aad_prefix_verifier props) as [verify|];
    try destruct (verify _) eqn:EY; cbn [bind].
  all: split;
    [ intros X; try discriminate X; injection X as <-;
      (split; [intros Y; discriminate|]);
      first
        [ solve [ left; split; [discriminate|];
                  split; [first [left; reflexivity | right; apply BE; reflexivity]|];
                  split; [|reflexivity];
                  intros v Y; first [discriminate Y | injection Y as <-; exact EY] ]
        | solve [ right; split; [reflexivity|];
                  split; [first [intros _; reflexivity | intros Y; exfalso; apply Y; reflexivity]|];
                  split; reflexivity ] ]
    | intros (S & [(A & B & C & D)|(A & B & C & D)]);
      first
        [ solve [rewrite D; reflexivity]
        | solve [exfalso; apply (S eq_refl); reflexivity]
        | solve [exfalso; apply A; reflexivity]
        | discriminate A
        | discriminate C
        | solve [specialize (C _ eq_refl); rewrite EY in C; discriminate C]
        | solve [destruct B as [B|B]; [discriminate B | apply BE in B; discriminate B]]
        | solve [discriminate (B ltac:(discriminate))]
        | solve [subst; reflexivity]
        | solve [subst; destruct B as [B|B]; [discriminate B|];
                 injection B as -> ->; reflexivity] ] ].
Qed.

(** X17.  What [ParseMetaData] has checked when it returns.  The file has
    at least 8 bytes and ends in one of the two magics.  It ends in PARE,
    the encrypted footer, only in a build with encryption and with
    decryption properties given, and then a decryptor was made.  A file
    that ends in PAR1 and carries no encryption algorithm is returned
    without a decryptor, and in a build with encryption only if the
    properties, when given, allow plaintext files.  For a file that ends in
    PAR1 and carries an algorithm, a build with encryption makes a decryptor
    exactly when properties are given, and if they ask for the integrity
    check, the signature was verified with that decryptor.  Without
    encryption in the build no decryptor is ever made. *)
Theorem ParseMetaData_accepts (parquet_encryption : bool)
    (file_decryption_properties : option FileDecryptionProperties.t)
    (source : list byte) (r : t) :
  let file_size := len source in
  let magic := drop (file_size - 4) source in
  let encrypted := FileMetaData.is_encryption_algorithm_set (file_metadata_ r) in
  ParseMetaData parquet_encryption file_decryption_properties source = Ok r ->
  8 <= file_size
  /\ (magic = kParquetMagic \/ magic = kParquetEMagic)
  /\ (magic = kParquetEMagic ->
      parquet_encryption = true
      /\ exists props d,
           file_decryption_properties = Some props /\ file_decryptor_ r = Some d
           /\ InternalFileDecryptor.properties d = props)
  /\ (magic = kParquetMagic -> encrypted = false ->
      file_decryptor_ r = None
      /\ (parquet_encryption = true ->
          forall props, file_decryption_properties = Some props ->
                        FileDecryptionProperties.plaintext_files_allowed props = true))
  /\ (magic = kParquetMagic -> encrypted = true -> parquet_encryption = true ->
      match file_decryption_properties with
      | None => file_decryptor_ r = None
      | Some props =>
          exists d,
            file_decryptor_ r = Some d
            /\ InternalFileDecryptor.properties d = props
            /\ (FileDecryptionProperties.check_plaintext_footer_integrity props = true ->
                exists signature, VerifySignature (file_metadata_ r) d signature = true)
      end)
  /\ (parquet_encryption = false -> file_decryptor_ r = None).
Proof.
  cbv zeta. unfold ParseMetaData.
  destruct (len source =? 0) eqn:H0; [discriminate|].
  destruct (len source <? kFooterSize) eqn:H8; [discriminate|].
  apply Z.eqb_neq in H0. apply Z.ltb_ge in H8. unfold kFooterSize in H8.
  fold (tail source). rewrite len_tail, Z.eqb_refl. cbn [negb orb].
  rewrite (drop_tail source 4) by (unfold kDefaultFooterReadSize; lia).
  assert (Hm : len (drop (len source - 4) source) = 4).
  { unfold drop, len in *. rewrite length_skipn. lia. }
  assert (NE : kParquetMagic <> kParquetEMagic) by discriminate.
  destruct (memcmp_eq (drop (len source - 4) source) kParquetMagic 4) eqn:M1;
    destruct (memcmp_eq (drop (len source - 4) source) kParquetEMagic 4) eqn:M2;
    cbn [negb andb];
    try (apply memcmp_eq_4 in M1; [|assumption|reflexivity]);
    try (apply memcmp_eq_4 in M2; [|assumption|reflexivity]);
    try discriminate.
  - congruence.
  - (* PAR1 *)
    rewrite M1.
    assert (NM : kParquetMagic = kParquetEMagic -> False) by discriminate.
    destruct parquet_encryption; cbn [negb].
    + destruct (ParseUnencryptedFileMetadata _ _ _ _) as [[[[fm mb] ml] rl]| |] eqn:PU;
        cbn [bind]; try discriminate.
      destruct (FileMetaData.is_encryption_algorithm_set fm) eqn:EA; cbn [negb].
      * (* plaintext footer of an encrypted file *)
        unfold ParseMetaDataOfEncryptedFileWithPlaintextFooter.
        destruct file_decryption_properties as [props|].
        -- pose proof EA as EA'.
           unfold FileMetaData.is_encryption_algorithm_set in EA.
           destruct (format.encryption_algorithm fm) as [algo|]; [|discriminate].
           destruct (HandleAadPrefix props algo) as [file_aad| |]; cbn [bind];
             try discriminate.
           destruct (FileDecryptionProperties.check_plaintext_footer_integrity props) eqn:CI.
           ++ destruct (negb (_ =? 28)); [discriminate|].
              destruct (VerifySignature _ _ _) eqn:VS; cbn [negb bind]; [|discriminate].
              intros X. injection X as <-. cbn.
              repeat split; auto; try lia; try (intros; exfalso; auto; fail);
                try congruence.
              intros _ _ _. eexists. repeat split. intros _. eexists. exact VS.
           ++ cbn [bind]. intros X. injection X as <-. cbn.
              repeat split; auto; try lia; try (intros; exfalso; auto; fail);
                try congruence.
              intros _ _ _. eexists. repeat split. intros Y. discriminate Y.
        -- destruct (format.encryption_algorithm fm); cbn [bind];
             intros X; injection X as <-; cbn;
             repeat split; auto; try lia; try (intros; exfalso; auto; fail);
             try congruence.
      * destruct file_decryption_properties as [props|].
        -- destruct (FileDecryptionProperties.plaintext_files_allowed props) eqn:PA;
             cbn [negb]; [|discriminate].
           intros X. injection X as <-. cbn.
           repeat split; auto; try lia; try (intros; exfalso; auto; fail);
             try congruence.
        -- intros X. injection X as <-. cbn.
           repeat split; auto; try lia; try (intros; exfalso; auto; fail);
             try congruence.
    + destruct (ParseUnencryptedFileMetadata _ _ _ _) as [[[[fm mb] ml] rl]| |] eqn:PU;
        cbn [bind]; try discriminate.
      intros X. injection X as <-. cbn.
      repeat split; auto; try lia; try (intros; exfalso; auto; fail);
        try congruence.
  - (* PARE *)
    rewrite M2.
    assert (NM : kParquetEMagic = kParquetMagic -> False) by discriminate.
    destruct parquet_encryption; cbn [negb]; [|discriminate].
    unfold ParseMetaDataOfEncryptedFileWithEncryptedFooter.
    destruct (_ <? _); [discriminate|].
    match goal with
    | |- bind ?b _ = _ -> _ => destruct b as [cb| |]; cbn [bind]; try discriminate
    end.
    destruct file_decryption_properties as [props|]; [|discriminate].
    destruct (DeserializeThriftMsg_FileCryptoMetaData cb) as [[fc cl]|]; cbn [bind];
      [|discriminate].
    destruct (HandleAadPrefix props _) as [file_aad| |]; cbn [bind]; try discriminate.
    destruct (negb (_ =? _)); [discriminate|].
    destruct (FileMetaData_Make _ _) as [[fm rl]| |]; cbn [bind]; try discriminate.
    intros X. injection X as <-. cbn.
    repeat split; auto; try lia; try (intros; exfalso; auto; fail); try congruence.
    eexists. eexists. repeat split.
Qed.

End Accepts.

Lemma ParseMetaData_accepts_witness :
  exists r,
    @SerializedFile.ParseMetaData Sample.env false None SampleFile.small_file
    = SerializedFile.Ok r
    /\ 8 <= len SampleFile.small_file
    /\ SerializedFile.file_decryptor_ r = None.
Proof.
  eexists. split; [vm_compute; reflexivity|].
  destruct (@ParseMetaData_accepts Sample.env false None SampleFile.small_file _
              ltac:(vm_compute; reflexivity)) as (A & _ & _ & _ & _ & B).
  split; [exact A | exact (B eq_refl)].
Defined.

(** ** Batches *)

Section Batches.
Context {env : Env}.
Import ColumnWriter.

Lemma filter_seq_shift (f : nat -> bool) (b : nat) : forall a : nat,
  len (filter f (seq a b)) = len (filter (fun i => f (a + i)%nat) (seq 0 b)).
Proof.
  induction b as [|b IH]; intros a; [reflexivity|].
  rewrite !seq_S, !filter_app, !len_app, IH. cbn [filter Nat.add].
  destruct (f (a + b)%nat); reflexivity.
Qed.

(** Counting over a window of the levels. *)
Lemma count_levels_split (target a b : Z) (levels : list Z) :
  0 <= a -> 0 <= b ->
  count_levels target (a + b) levels
  = count_levels target a levels + count_levels target b (drop a levels).
Proof.
  intros Ha Hb. unfold count_levels.
  rewrite Z2Nat.inj_add, seq_app, filter_app, len_app by lia. f_equal.
  cbn [Nat.add]. rewrite filter_seq_shift. f_equal.
  apply filter_ext. intros i. unfold at_index, drop.
  rewrite !Nat2Z.id, nth_skipn. reflexivity.
Qed.

(** The rows one mini-batch adds. *)
Lemma WriteMiniBatch_rows (w : t) (num_levels : Z)
    (def_levels rep_levels : list Z) (values : list Value) :
  0 <= num_levels < 2 ^ 31 ->
  0 <= rows_written_ w ->
  rows_written_ w + num_levels < 2 ^ 31 ->
  let w' := snd (WriteMiniBatch w num_levels def_levels rep_levels values) in
  rows_written_ w'
  = rows_written_ w
    + (if 0 <? ColumnDescriptor.max_repetition_level (descr_ w)
       then count_levels 0 num_levels rep_levels else num_levels)
  /\ descr_ w' = descr_ w
  /\ properties_ w' = properties_ w.
Proof.
  intros Hn Hr Hrows.
  destruct (WriteMiniBatch_fields w num_levels def_levels rep_levels values)
    as (_ & Er & Ed & Ep & _).
  destruct (WriteMiniBatch_buffer_fields w num_levels def_levels rep_levels values)
    as (_ & Br & _).
  cbv zeta in *. split; [|auto].
  rewrite Er, Br.
  pose proof (count_levels_range 0 num_levels rep_levels (proj1 Hn)).
  destruct (0 <? ColumnDescriptor.max_repetition_level (descr_ w)).
  - apply (for_loop_count Int.int32 (2 ^ 31)); [|lia|lia].
    intros z Hz. apply int32_small. unfold Int.in_int32. lia.
  - rewrite (int32_small num_levels) by (unfold Int.in_int32; lia).
    apply int32_small. unfold Int.in_int32. lia.
Qed.

(** The rounds of [WriteBatch]: after [k] full mini-batches the rows of the
    first [k * write_batch_size] levels are counted. *)
Lemma WriteBatch_rounds (w : t) (B : Z) (def_levels rep_levels : list Z)
    (values : list Value) (total : Z) :
  0 < B ->
  0 <= rows_written_ w ->
  rows_written_ w + total < 2 ^ 31 ->
  forall k : nat,
    Z.of_nat k * B <= total ->
    let s :=
      fold_left
        (fun (s : t * Z) (i : nat) =>
           (fun round '(w, value_offset) =>
              let offset := round * B in
              let '(n, w) := WriteMiniBatch w B (drop offset def_levels)
                               (drop offset rep_levels) (drop value_offset values) in
              (w, Int.int64 (value_offset + n))) (Z.of_nat i) s)
        (seq 0 k) (w, 0) in
    rows_written_ (fst s)
    = rows_written_ w
      + (if 0 <? ColumnDescriptor.max_repetition_level (descr_ w)
         then count_levels 0 (Z.of_nat k * B) rep_levels else Z.of_nat k * B)
    /\ descr_ (fst s) = descr_ w
    /\ properties_ (fst s) = properties_ w.
Proof.
  intros HB Hr Ht. induction k as [|k IH]; intros Hk.
  - cbn. destruct (0 <? _); repeat split; unfold count_levels; cbn; lia.
  - rewrite seq_S, fold_left_app. cbn [fold_left Nat.add].
    destruct IH as (IR & ID & IP); [lia|].
    destruct (fold_left _ (seq 0 k) (w, 0)) as [u vo]. cbn [fst] in *.
    pose proof (WriteMiniBatch_rows u B (drop (Z.of_nat k * B) def_levels)
                  (drop (Z.of_nat k * B) rep_levels) (drop vo values)) as M.
    destruct (WriteMiniBatch u B _ _ _) as [n u']. cbn [fst snd] in *.
    assert (C : 0 <= count_levels 0 (Z.of_nat k * B) rep_levels <= Z.of_nat k * B)
      by (apply count_levels_range; lia).
    destruct M as (MR & MD & MP).
    + lia.
    + rewrite IR. destruct (0 <? _); lia.
    + rewrite IR. destruct (0 <? _); lia.
    + rewrite MR, MD, MP, IR, ID, IP. split; [|auto].
      replace (Z.of_nat (S k) * B) with (Z.of_nat k * B + B) by lia.
      destruct (0 <? _); [|lia].
      rewrite count_levels_split by lia. lia.
Qed.

(** X18.  [WriteBatch] counts the rows of the whole batch whatever the
    write batch size: after it, [rows_written_] has grown by the number of
    the [num_values] levels whose repetition level is 0 when [R > 0], and by
    [num_values] when [R = 0], however the batch was cut into
    mini-batches. *)
Theorem WriteBatch_rows (w : t) (num_values : Z)
    (def_levels rep_levels : list Z) (values : list Value) :
  let R := ColumnDescriptor.max_repetition_level (descr_ w) in
  0 < WriterProperties.write_batch_size (properties_ w) ->
  0 <= num_values < 2 ^ 31 ->
  0 <= rows_written_ w ->
  rows_written_ w + num_values < 2 ^ 31 ->
  rows_written_ (WriteBatch w num_values def_levels rep_levels values)
  = rows_written_ w
    + (if 0 <? R then count_levels 0 num_values rep_levels else num_values).
Proof.
  cbv zeta. intros HB Hn Hr Ht. unfold WriteBatch.
  set (B := WriterProperties.write_batch_size (properties_ w)) in *.
  pose proof (Z.quot_rem' num_values B) as QR.
  pose proof (Z.quot_pos num_values B ltac:(lia) ltac:(lia)) as Q0.
  pose proof (Z.rem_bound_pos num_values B ltac:(lia) ltac:(lia)) as R0.
  assert (QB : B * (num_values ÷ B) <= num_values) by lia.
  assert (QN : num_values ÷ B <= num_values) by nia.
  rewrite (int32_small (num_values ÷ B)) by (unfold Int.in_int32; lia).
  unfold for_loop.
  pose proof (WriteBatch_rounds w B def_levels rep_levels values num_values HB Hr Ht
                (Z.to_nat (num_values ÷ B))) as L.
  rewrite Z2Nat.id in L by lia. specialize (L ltac:(lia)). cbv zeta in L.
  match goal with
  | |- context [fold_left ?f ?l ?a] =>
      change (fold_left f l a) with
        (fold_left
           (fun (s : t * Z) (i : nat) =>
              (fun round '(w, value_offset) =>
                 let offset := round * B in
                 let '(n, w) := WriteMiniBatch w B (drop offset def_levels)
                                  (drop offset rep_levels) (drop value_offset values) in
                 (w, Int.int64 (value_offset + n))) (Z.of_nat i) s)
           (seq 0 (Z.to_nat (num_values ÷ B))) (w, 0))
  end.
  destruct (fold_left _ _ (w, 0)) as [u vo]. cbn [fst] in L.
  destruct L as (LR & LD & LP).
  assert (C : 0 <= count_levels 0 (num_values ÷ B * B) rep_levels <= num_values ÷ B * B)
    by (apply count_levels_range; lia).
  destruct (WriteMiniBatch_rows u (Z.rem num_values B)
              (drop (num_values ÷ B * B) def_levels)
              (drop (num_values ÷ B * B) rep_levels) (drop vo values)) as (MR & _).
  - lia.
  - rewrite LR. destruct (0 <? _); lia.
  - rewrite LR. destruct (0 <? _); lia.
  - cbv zeta in MR. rewrite MR, LR, LD.
    destruct (0 <? _); [|lia].
    pose proof (count_levels_split 0 (num_values ÷ B * B) (Z.rem num_values B)
                  rep_levels ltac:(lia) ltac:(lia)) as S.
    replace (num_values ÷ B * B + Z.rem num_values B) with num_values in S by lia.
    lia.
Qed.

End Batches.

Lemma WriteBatch_rows_witness :
  ColumnWriter.rows_written_
    (@ColumnWriter.WriteBatch Sample.env (Sample.writer Sample.properties false) 5
       [2; 1; 2; 2; 0] [0; 1; 0; 1; 0] [7; 8; 9])
  = 0 + 3.
Proof.
  apply (@WriteBatch_rows Sample.env (Sample.writer Sample.properties false) 5
           [2; 1; 2; 2; 0] [0; 1; 0; 1; 0] [7; 8; 9]).
  - reflexivity.
  - split; [discriminate | reflexivity].
  - discriminate.
  - reflexivity.
Defined.

(** ** Encrypted column metadata and redacted statistics *)

Section Redaction.
Context {env : Env}.
Import ColumnChunkMetaDataBuilder.

(** X19.  [Finish] on a fresh builder stores encrypted column metadata
    exactly when [EncryptColumnMetaData] holds for the footer mode and the
    column's properties, and it has an encryptor then; the plain metadata
    stays set unless the column metadata is encrypted in a file with an
    encrypted footer; crypto metadata is set exactly for an encrypted
    column. *)
Theorem Finish_encrypts_column_metadata (props : WriterProperties.t)
    (column : ColumnDescriptor.t) (b' : t)
    (num_values dictionary_page_offset index_page_offset data_page_offset
       compressed_size uncompressed_size : Z)
    (has_dictionary dictionary_fallback : bool) (encryptor : option Encryptor.t) :
  Finish (Make props column) num_values dictionary_page_offset index_page_offset
    data_page_offset compressed_size uncompressed_size has_dictionary
    dictionary_fallback encryptor
  = Some b' ->
  let c' := column_chunk_ b' in
  let cep := WriterProperties.column_encryption_properties props in
  let footer :=
    match WriterProperties.file_encryption_properties props with
    | Some fep => FileEncryptionProperties.encrypted_footer fep
    | None => false
    end in
  (format.encrypted_column_metadata c' <> None
   <-> Encryptor.EncryptColumnMetaData footer cep = true)
  /\ (Encryptor.EncryptColumnMetaData footer cep = true -> encryptor <> None)
  /\ (format.isset_meta_data c' = false
      <-> Encryptor.EncryptColumnMetaData footer cep = true /\ footer = true)
  /\ (format.crypto_metadata c' <> None
      <-> exists p, cep = Some p /\ ColumnEncryptionProperties.is_encrypted p = true).
Proof.
  intros F. destruct (Finish_encryption _ _ _ _ _ _ _ _ _ _ _ F)
    as (Fc & _ & Fe & Fm & _).
  cbv zeta in *. cbn [Make Init properties_ column_chunk_ with_meta] in *.
  cbn in Fc, Fe.
  assert (K : format.crypto_metadata (column_chunk_ b') <> None
              <-> exists p, WriterProperties.column_encryption_properties props = Some p
                            /\ ColumnEncryptionProperties.is_encrypted p = true).
  { rewrite Fc. destruct (WriterProperties.column_encryption_properties props) as [p|].
    - destruct (ColumnEncryptionProperties.is_encrypted p) eqn:Ep; split.
      + intros _. exists p. auto.
      + intros _. discriminate.
      + intros N. destruct (N eq_refl).
      + intros (q & Q & Eq). inversion Q; subst q. congruence.
    - split; [intros N; destruct (N eq_refl) | intros (q & Q & _); discriminate]. }
  set (ft := match WriterProperties.file_encryption_properties props with
             | Some fep => FileEncryptionProperties.encrypted_footer fep
             | None => false
             end) in *.
  destruct (Encryptor.EncryptColumnMetaData ft _) eqn:E.
  - destruct Fe as ((bytes & Fe) & Fn). rewrite Fe, Fm.
    destruct ft; cbn; intuition (try discriminate; try congruence).
  - rewrite Fe, Fm. cbn. intuition (try discriminate; try congruence).
Qed.

(** X20.  In a file with a plaintext footer, the statistics the writer
    set on an encrypted column are hidden from a reader without keys: for a
    column encrypted with the footer key [is_stats_set] answers false, and
    for one encrypted with its own key it throws. *)
Theorem encrypted_column_hides_statistics (b b' : t) (val : EncodedStatistics)
    (num_values dictionary_page_offset index_page_offset data_page_offset
       compressed_size uncompressed_size : Z)
    (has_dictionary dictionary_fallback : bool) (encryptor : option Encryptor.t)
    (p : ColumnEncryptionProperties.t) (fep : FileEncryptionProperties.t)
    (descr : ColumnDescriptor.t) (writer_version : ApplicationVersion.t)
    (stats : EncodedStatistics.t) :
  Finish (SetStatistics b val) num_values dictionary_page_offset index_page_offset
    data_page_offset compressed_size uncompressed_size has_dictionary
    dictionary_fallback encryptor
  = Some b' ->
  WriterProperties.column_encryption_properties (properties_ b) = Some p ->
  ColumnEncryptionProperties.is_encrypted p = true ->
  WriterProperties.file_encryption_properties (properties_ b) = Some fep ->
  FileEncryptionProperties.encrypted_footer fep = false ->
  exists c,
    ColumnChunkMetaDataImpl.Make (column_chunk_ b') descr writer_version None
    = SerializedFile.Ok c
    /\ ColumnChunkMetaDataImpl.is_stats_set c stats
       = (if ColumnEncryptionProperties.is_encrypted_with_footer_key p
          then SerializedFile.Ok false
          else SerializedFile.ParquetException
                 "Cannot decrypt ColumnMetadata. FileDecryptionProperties must be provided.").
Proof.
  intros F Ec Ep Ef Ee.
  destruct (Finish_encryption _ _ _ _ _ _ _ _ _ _ _ F)
    as (Fc & _ & _ & _ & Fs & _).
  cbv zeta in Fc, Fs. cbn [SetStatistics with_chunk properties_ column_chunk_ column_] in Fc, Fs.
  rewrite Ec in Fc, Fs. rewrite Ep in Fc. rewrite Ef, Ee in Fs.
  unfold Encryptor.EncryptColumnMetaData in Fs. rewrite Ep in Fs.
  cbn in Fs.
  unfold ColumnChunkMetaDataImpl.Make, ColumnChunkMetaDataImpl.is_stats_set,
    ColumnChunkMetaDataImpl.GetMetadataIfSet.
  rewrite Fc. destruct (ColumnEncryptionProperties.is_encrypted_with_footer_key p).
  - eexists. split; [reflexivity|]. cbn. rewrite Fc. cbn. rewrite Fs. reflexivity.
  - eexists. split; [reflexivity|]. cbn. rewrite Fc. reflexivity.
Qed.

(** X21.  The statistics the writer set on a column that is not encrypted
    reach the reader: [is_stats_set] answers what [HasCorrectStatistics]
    says of the writer version, unless the sort order is unknown. *)
Theorem plain_column_keeps_statistics (b b' : t) (val : EncodedStatistics)
    (num_values dictionary_page_offset index_page_offset data_page_offset
       compressed_size uncompressed_size : Z)
    (has_dictionary dictionary_fallback : bool) (encryptor : option Encryptor.t)
    (writer_version : ApplicationVersion.t) (stats : EncodedStatistics.t) :
  Finish (SetStatistics b val) num_values dictionary_page_offset index_page_offset
    data_page_offset compressed_size uncompressed_size has_dictionary
    dictionary_fallback encryptor
  = Some b' ->
  WriterProperties.column_encryption_properties (properties_ b) = None ->
  format.crypto_metadata (column_chunk_ b) = None ->
  exists c,
    ColumnChunkMetaDataImpl.Make (column_chunk_ b') (column_ b) writer_version None
    = SerializedFile.Ok c
    /\ format.statistics (format.meta_data (column_chunk_ b')) = ToThrift_Statistics val
    /\ ColumnChunkMetaDataImpl.is_stats_set c stats
       = SerializedFile.Ok
           (negb (SortOrder.eqb (ColumnDescriptor.sort_order (column_ b)) SortOrder.UNKNOWN)
            && ApplicationVersion.HasCorrectStatistics writer_version
                 (format.cm_type (format.meta_data (column_chunk_ b'))) stats
                 (ColumnDescriptor.sort_order (column_ b))).
Proof.
  intros F Ec Ecm.
  destruct (Finish_encryption _ _ _ _ _ _ _ _ _ _ _ F)
    as (Fc & _ & _ & _ & Fs & Ft & _).
  cbv zeta in Fc, Fs, Ft.
  cbn [SetStatistics with_chunk properties_ column_chunk_ column_] in Fc, Fs, Ft.
  rewrite Ec in Fc, Fs. cbn in Fc, Fs, Ft. rewrite Ecm in Fc.
  unfold Encryptor.EncryptColumnMetaData in Fs. cbn in Fs.
  unfold ColumnChunkMetaDataImpl.Make, ColumnChunkMetaDataImpl.is_stats_set,
    ColumnChunkMetaDataImpl.type, ColumnChunkMetaDataImpl.GetMetadataIfSet.
  rewrite Fc. eexists. split; [reflexivity|]. split; [exact Ft|].
  cbn. rewrite Fc. cbn. rewrite Fs. cbn.
  destruct (SortOrder.eqb _ _); reflexivity.
Qed.

End Redaction.

(** X22.  [ToThrift] sets the legacy [min] and [max] fields only for signed
    statistics and always beside the new fields, with the same bytes; each
    new field and each count is set exactly when the statistics have it. *)
Theorem ToThrift_legacy_fields (stats : EncodedStatistics.t) :
  let s := EncodedStatistics.ToThrift stats in
  format.min_value s
  = (if EncodedStatistics.has_min stats then Some (EncodedStatistics.min stats) else None)
  /\ format.max_value s
     = (if EncodedStatistics.has_max stats then Some (EncodedStatistics.max stats) else None)
  /\ format.min s
     = (if EncodedStatistics.is_signed stats then format.min_value s else None)
  /\ format.max s
     = (if EncodedStatistics.is_signed stats then format.max_value s else None)
  /\ format.null_count s
     = (if EncodedStatistics.has_null_count stats
        then Some (EncodedStatistics.null_count stats) else None)
  /\ format.distinct_count s
     = (if EncodedStatistics.has_distinct_count stats
        then Some (EncodedStatistics.distinct_count stats) else None).
Proof.
  unfold EncodedStatistics.ToThrift.
  destruct (EncodedStatistics.has_min stats), (EncodedStatistics.has_max stats),
    (EncodedStatistics.is_signed stats), (EncodedStatistics.has_null_count stats),
    (EncodedStatistics.has_distinct_count stats); cbn; repeat split; reflexivity.
Qed.

Lemma Finish_encrypts_column_metadata_witness :
  exists b',
    @ColumnChunkMetaDataBuilder.Finish Sample.env
      (ColumnChunkMetaDataBuilder.Make (SampleFile.signed_properties true) Sample.column)
      3 0 (-1) 4 21 21 false false (Some SampleFile.encryptor)
    = Some b'
    /\ format.encrypted_column_metadata (ColumnChunkMetaDataBuilder.column_chunk_ b') <> None
    /\ format.isset_meta_data (ColumnChunkMetaDataBuilder.column_chunk_ b') <> false.
Proof.
  eexists. split; [reflexivity|].
  destruct (@Finish_encrypts_column_metadata Sample.env
              (SampleFile.signed_properties true) Sample.column _
              3 0 (-1) 4 21 21 false false (Some SampleFile.encryptor) eq_refl)
    as (A & _ & B & _).
  split.
  - apply A. reflexivity.
  - intros E. destruct (proj1 B E) as (_ & N). discriminate N.
Defined.

Lemma encrypted_column_hides_statistics_witness :
  exists b' c,
    @ColumnChunkMetaDataBuilder.Finish Sample.env
      (@ColumnChunkMetaDataBuilder.SetStatistics Sample.env
         (ColumnChunkMetaDataBuilder.Make (SampleFile.signed_properties true) Sample.column)
         7)
      3 0 (-1) 4 21 21 false false (Some SampleFile.encryptor)
    = Some b'
    /\ ColumnChunkMetaDataImpl.Make (ColumnChunkMetaDataBuilder.column_chunk_ b')
         Sample.column (SampleFile.version "parquet-cpp" 1 5 1) None
       = SerializedFile.Ok c
    /\ ColumnChunkMetaDataImpl.is_stats_set c SampleFile.statistics
       = SerializedFile.Ok false.
Proof.
  eexists.
  destruct (@encrypted_column_hides_statistics Sample.env
              (ColumnChunkMetaDataBuilder.Make (SampleFile.signed_properties true)
                 Sample.column)
              _ 7 3 0 (-1) 4 21 21 false false (Some SampleFile.encryptor)
              {| ColumnEncryptionProperties.is_encrypted := true;
                 ColumnEncryptionProperties.is_encrypted_with_footer_key := true;
                 ColumnEncryptionProperties.key_metadata := [] |}
              {| FileEncryptionProperties.encrypted_footer := false |}
              Sample.column (SampleFile.version "parquet-cpp" 1 5 1)
              SampleFile.statistics eq_refl eq_refl eq_refl eq_refl eq_refl)
    as (c & M & S).
  exists c. split; [reflexivity|]. split; [exact M | exact S].
Defined.

Lemma plain_column_keeps_statistics_witness :
  exists b' c,
    @ColumnChunkMetaDataBuilder.Finish Sample.env
      (@ColumnChunkMetaDataBuilder.SetStatistics Sample.env
         (ColumnChunkMetaDataBuilder.Make Sample.plain_properties Sample.column) 7)
      3 0 (-1) 4 21 21 false false None
    = Some b'
    /\ ColumnChunkMetaDataImpl.Make (ColumnChunkMetaDataBuilder.column_chunk_ b')
         Sample.column (SampleFile.version "parquet-cpp" 1 5 1) None
       = SerializedFile.Ok c
    /\ ColumnChunkMetaDataImpl.is_stats_set c SampleFile.statistics
       = SerializedFile.Ok true.
Proof.
  eexists.
  destruct (@plain_column_keeps_statistics Sample.env
              (ColumnChunkMetaDataBuilder.Make Sample.plain_properties Sample.column)
              _ 7 3 0 (-1) 4 21 21 false false None
              (SampleFile.version "parquet-cpp" 1 5 1)
              SampleFile.statistics eq_refl eq_refl eq_refl)
    as (c & M & _ & S).
  exists c. split; [reflexivity|]. split; [exact M | exact S].
Defined.
